(** * Profile and context layer of the inclusive travel agent

    A shallow embedding of
    - [models/user_profile.py]: the pydantic models of a traveller's profile,
    - [services/user_profile_service.py]: [UserProfileService], CRUD over a
      Firestore collection with an in-memory dictionary as fallback,
    - [services/context_service.py]: [ContextService], which copies a profile
      into the state of a conversation session and renders the per-agent
      instruction strings.

    The repository ships the two packages [inclusive_travel_agent] and
    [travel_concierge] as mirror copies of each other; the models are read
    from the latter's [models/user_profile.py], the profile service from the
    former's [services/user_profile_service.py].

    Conventions of the embedding.
    - A Python [str] is a [string] whose characters are code points below 256.
    - A [datetime] is a point of the UTC clock, an integer; the two impure
      calls [uuid.uuid4()] and [datetime.utcnow()] are arguments of the
      operations that make them.
    - A [dict] whose order is observable (the in-memory store, whose
      [values()] are paginated; a [Dict[str, str]] that is printed) is an
      association list in insertion order, see [Module PyDict]; the session
      state, which is only read by key, is a [gmap].
    - A pydantic model is a record; [model_dump()] and the keyword
      construction of a model from the dumped mapping are the two directions
      of the same bijection and are left implicit.
    - An optional sub-model is an [option]; a pydantic model instance is
      always truthy, so [if request.basic_info:] tests for [Some].
    - Code that may raise runs in the state-and-exception monad [M]. *)

From stdpp Require Import base strings list gmap sorting.
From Stdlib Require Import ZArith Lia DecimalString Ascii.

Open Scope string_scope.
Open Scope Z_scope.

(** ** Python values *)

Definition datetime : Type := Z.

(** Truthiness of the built-in containers: empty is falsy. *)
Definition truthy_str (s : string) : bool :=
  match s with EmptyString => false | _ => true end.

Definition truthy_list {A} (l : list A) : bool :=
  match l with [] => false | _ => true end.

Definition truthy_int (z : Z) : bool := negb (z =? 0).

Definition len {A} (l : list A) : Z := Z.of_nat (length l).

(** [x is not None]; for a pydantic model also [bool(x)]. *)
Definition is_not_None {A} (x : option A) : bool :=
  match x with Some _ => true | None => false end.

(** [str(i)] for an [int]. *)
Definition str_int (z : Z) : string := NilZero.string_of_int (Z.to_int z).

(** [sep.join(parts)]. *)
Definition join (sep : string) (parts : list string) : string :=
  String.concat sep parts.

Definition LF : string := String (ascii_of_nat 10) EmptyString.

(** An untyped JSON-like value, for the fields typed [Any]. *)
#[warnings="-register-all"]
Inductive PyAny : Type :=
| AnyNone
| AnyBool (b : bool)
| AnyInt (z : Z)
| AnyStr (s : string)
| AnyList (l : list PyAny)
| AnyDict (d : list (string * PyAny)).

(** *** Insertion-ordered dictionaries *)

Module PyDict.
Section Dict.
Context {V : Type}.

Definition t : Type := list (string * V).

(** [d.get(k)] *)
Fixpoint get (k : string) (d : t) : option V :=
    match d with
    | [] => None
    | (k', v) :: r => if decide (k = k') then Some v else get k r
    end.

(** [k in d] *)
Definition mem (k : string) (d : t) : bool :=
    match get k d with Some _ => true | None => false end.

(** [d[k] = v]: an existing key keeps its position, a new one goes last. *)
Fixpoint set (k : string) (v : V) (d : t) : t :=
    match d with
    | [] => [(k, v)]
    | (k', v') :: r =>
        if decide (k = k') then (k, v) :: r else (k', v') :: set k v r
    end.

(** [del d[k]] (only called on a present key) *)
Fixpoint del (k : string) (d : t) : t :=
    match d with
    | [] => []
    | (k', v') :: r => if decide (k = k') then r else (k', v') :: del k r
    end.

(** [list(d.keys())], [list(d.values())] *)
Definition keys (d : t) : list string := d.*1.
Definition values (d : t) : list V := d.*2.
End Dict.
Arguments t : clear implicits.
End PyDict.

(** [l[a:b]] for a list and two integers, with Python's clamping and its
    reading of a negative bound as counted from the end. *)
Definition slice_bound {A} (l : list A) (i : Z) : nat :=
  let n := len l in
  Z.to_nat (if i <? 0 then Z.max 0 (n + i) else Z.min i n).

Definition py_slice {A} (l : list A) (a b : Z) : list A :=
  let lo := slice_bound l a in
  let hi := slice_bound l b in
  take (hi - lo)%nat (drop lo l).

(** *** [repr] of a [Dict[str, str]], as an f-string prints it *)

Definition squote : ascii := ascii_of_nat 39.
Definition dquote : ascii := ascii_of_nat 34.
Definition backslash : ascii := ascii_of_nat 92.

Fixpoint has_char (c : ascii) (s : string) : bool :=
  match s with
  | EmptyString => false
  | String c' r => if decide (c = c') then true else has_char c r
  end.

Definition hex_digit (n : nat) : ascii :=
  ascii_of_nat (if (n <? 10)%nat then 48 + n else 87 + n)%nat.

(** [str.isprintable] on one code point below 256. *)
Definition printable (n : nat) : bool :=
  ((32 <=? n) && (n <? 127) || (161 <=? n) && negb (n =? 173))%nat.

Definition repr_char (q : ascii) (c : ascii) : string :=
  let n := nat_of_ascii c in
  if decide (c = q) then String backslash (String c EmptyString)
  else if decide (c = backslash) then String backslash (String backslash EmptyString)
  else if (n =? 9)%nat then String backslash "t"
  else if (n =? 10)%nat then String backslash "n"
  else if (n =? 13)%nat then String backslash "r"
  else if printable n then String c EmptyString
  else String backslash
         (String "x" (String (hex_digit (n / 16)) (String (hex_digit (n mod 16)) EmptyString))).

Fixpoint repr_body (q : ascii) (s : string) : string :=
  match s with
  | EmptyString => EmptyString
  | String c r => repr_char q c +:+ repr_body q r
  end.

Definition repr_str (s : string) : string :=
  let q := if has_char squote s && negb (has_char dquote s) then dquote else squote in
  String q (repr_body q s) +:+ String q EmptyString.

Definition repr_dict (d : PyDict.t string) : string :=
  "{" +:+ join ", " (map (fun kv => repr_str kv.1 +:+ ": " +:+ repr_str kv.2) d) +:+ "}".

(** ** The models ([models/user_profile.py]) *)

Inductive TravelStyle : Type :=
| CULTURAL | ADVENTURE | RELAXATION | BUSINESS | FAMILY | SOLO | ACCESSIBLE.

Inductive BudgetRange : Type := BUDGET | MID_RANGE | LUXURY | FLEXIBLE.

Inductive CommunicationStyle : Type :=
| BRIEF | DETAILED | CONVERSATIONAL | PROFESSIONAL.

Inductive RiskTolerance : Type := LOW | MEDIUM | HIGH.

(** The [.value] of each enumeration member. *)
Definition TravelStyle_value (s : TravelStyle) : string :=
  match s with
  | CULTURAL => "cultural" | ADVENTURE => "adventure"
  | RELAXATION => "relaxation" | BUSINESS => "business"
  | FAMILY => "family" | SOLO => "solo" | ACCESSIBLE => "accessible"
  end.

Definition BudgetRange_value (b : BudgetRange) : string :=
  match b with
  | BUDGET => "budget" | MID_RANGE => "mid-range"
  | LUXURY => "luxury" | FLEXIBLE => "flexible"
  end.

Definition CommunicationStyle_value (c : CommunicationStyle) : string :=
  match c with
  | BRIEF => "brief" | DETAILED => "detailed"
  | CONVERSATIONAL => "conversational" | PROFESSIONAL => "professional"
  end.

Definition RiskTolerance_value (r : RiskTolerance) : string :=
  match r with LOW => "low" | MEDIUM => "medium" | HIGH => "high" end.

Module BasicInfo.
Record t : Type := mk {
    name : string;
    email : string;
    age : option Z;
    nationality : string;
    home_location : string;
    phone : option string;
    emergency_contact : option (PyDict.t string);
  }.
End BasicInfo.

Module TravelInterests.
Record t : Type := mk {
    preferred_destinations : list string;
    travel_style : list TravelStyle;
    budget_range : BudgetRange;
    group_size_preference : string;
    accommodation_preferences : list string;
    activity_interests : list string;
    transportation_preferences : list string;
  }.

(** [TravelInterests()] *)
Definition default : t :=
    mk [] [] MID_RANGE "flexible" [] [] [].
End TravelInterests.

Module AccessibilityProfile.
Record t : Type := mk {
    mobility_needs : list string;
    sensory_needs : list string;
    cognitive_needs : list string;
    assistance_preferences : PyDict.t string;
    mobility_aids : list string;
    medical_conditions : list string;
    dietary_restrictions : list string;
    medication_requirements : list string;
    accessibility_priorities : list string;
    barrier_concerns : list string;
    service_animal : option (PyDict.t string);
    communication_needs : list string;
  }.

(** [AccessibilityProfile()] *)
Definition default : t :=
    mk [] [] [] [] [] [] [] [] [] [] None [].
End AccessibilityProfile.

Module UserPreferences.
Record t : Type := mk {
    communication_style : CommunicationStyle;
    risk_tolerance : RiskTolerance;
    planning_horizon : string;
    notification_preferences : PyDict.t bool;
    privacy_settings : PyDict.t bool;
    language_preferences : list string;
    currency_preference : string;
    timezone : string;
  }.

(** [UserPreferences()] *)
Definition default : t :=
    mk DETAILED MEDIUM "1_month" [] [] [] "USD" "UTC".
End UserPreferences.

Module UserProfile.
Record t : Type := mk {
    user_id : string;
    basic_info : BasicInfo.t;
    travel_interests : TravelInterests.t;
    accessibility_profile : AccessibilityProfile.t;
    preferences : UserPreferences.t;
    created_at : datetime;
    updated_at : datetime;
    last_active : option datetime;
    profile_complete : bool;
    onboarding_completed : bool;
    travel_history : list (PyDict.t PyAny);
    learned_preferences : PyDict.t PyAny;
  }.
End UserProfile.

Module CreateUserProfileRequest.
Record t : Type := mk {
    basic_info : BasicInfo.t;
    travel_interests : option TravelInterests.t;
    accessibility_profile : option AccessibilityProfile.t;
    preferences : option UserPreferences.t;
  }.
End CreateUserProfileRequest.

Module UpdateUserProfileRequest.
Record t : Type := mk {
    basic_info : option BasicInfo.t;
    travel_interests : option TravelInterests.t;
    accessibility_profile : option AccessibilityProfile.t;
    preferences : option UserPreferences.t;
  }.
End UpdateUserProfileRequest.

Module UserProfileSummary.
Record t : Type := mk {
    user_id : string;
    name : string;
    email : string;
    created_at : datetime;
    last_active : option datetime;
    profile_complete : bool;
    accessibility_needs_count : Z;
    travel_interests_count : Z;
  }.
End UserProfileSummary.

(** ** Exceptions, logging and the monad of effectful code *)

Inductive exn : Type :=
| Exception (msg : string)
| ValueError (msg : string).

(** [str(e)] *)
Definition str_exn (e : exn) : string :=
  match e with Exception m => m | ValueError m => m end.

Inductive outcome (A : Type) : Type :=
| Returns (a : A)
| Raises (e : exn).
Arguments Returns {A} a.
Arguments Raises {A} e.

(** A computation over a mutable state [S]: what was written before an
    exception was raised stays written. *)
Definition M (S A : Type) : Type := S -> outcome A * S.

Definition ret {S A} (a : A) : M S A := fun s => (Returns a, s).

Definition raise {S A} (e : exn) : M S A := fun s => (Raises e, s).

Definition bind {S A B} (m : M S A) (k : A -> M S B) : M S B :=
  fun s =>
    match m s with
    | (Returns a, s') => k a s'
    | (Raises e, s') => (Raises e, s')
    end.

(** [try: body except Exception as e: handler] *)
Definition try_except {S A} (body : M S A) (handler : exn -> M S A) : M S A :=
  fun s =>
    match body s with
    | (Returns a, s') => (Returns a, s')
    | (Raises e, s') => handler e s'
    end.

Definition gets {S A} (f : S -> A) : M S A := fun s => (Returns (f s), s).

Definition modify {S} (f : S -> S) : M S unit := fun s => (Returns tt, f s).

Declare Scope py_scope.
Delimit Scope py_scope with py.
Notation "'do' x <- m ;; k" := (bind m (fun x => k))
  (at level 10, x name, m at level 99, k at level 200, only parsing) : py_scope.
Notation "m ;; k" := (bind m (fun _ => k))
  (at level 100, k at level 200, only parsing, right associativity) : py_scope.
Open Scope py_scope.

Inductive level : Type := INFO | WARNING | ERROR.

Definition LogRecord : Type := level * string.

(** ** The document database

    [google.cloud.firestore] is an external collaborator: the service only
    assumes the calls below, each of which may raise and may change the
    database. A collection is addressed by its name, a document by its id;
    documents are dumped profiles. *)

Module UpdateData.
(** The [update_data] mapping handed to [dict.update] or to Firestore's
    [update]: a key is present when its field is [Some]. *)
Record t : Type := mk {
  basic_info : option BasicInfo.t;
  travel_interests : option TravelInterests.t;
  accessibility_profile : option AccessibilityProfile.t;
  preferences : option UserPreferences.t;
  updated_at : option datetime;
  profile_complete : option bool;
  last_active : option datetime;
}.

(** [profile_data.update(update_data)] *)
Definition apply (u : t) (p : UserProfile.t) : UserProfile.t :=
  UserProfile.mk
    (UserProfile.user_id p)
    (default (UserProfile.basic_info p) (basic_info u))
    (default (UserProfile.travel_interests p) (travel_interests u))
    (default (UserProfile.accessibility_profile p) (accessibility_profile u))
    (default (UserProfile.preferences p) (preferences u))
    (UserProfile.created_at p)
    (default (UserProfile.updated_at p) (updated_at u))
    (match last_active u with Some t => Some t | None => UserProfile.last_active p end)
    (default (UserProfile.profile_complete p) (profile_complete u))
    (UserProfile.onboarding_completed p)
    (UserProfile.travel_history p)
    (UserProfile.learned_preferences p).
End UpdateData.

Class FirestoreClient (C : Type) : Type := {
  (** [firestore.Client(project=project_id)], [firestore.Client()] *)
  Client : option string -> outcome C;
  (** [db.collection(c).document(id).set(data)] *)
  document_set : string -> string -> UserProfile.t -> M C unit;
  (** [db.collection(c).document(id).get()]: [None] when not [doc.exists],
      else [doc.to_dict()] *)
  document_get : string -> string -> M C (option UserProfile.t);
  (** [db.collection(c).document(id).update(update_data)] *)
  document_update : string -> string -> UpdateData.t -> M C unit;
  (** [db.collection(c).document(id).delete()] *)
  document_delete : string -> string -> M C unit;
  (** [db.collection(c).order_by("created_at").offset(o).limit(l).stream()],
      read to its end *)
  query_stream : string -> Z -> Z -> M C (list UserProfile.t);
}.

(** ** What the context service writes into a session *)

Module UserInfo.
Record t : Type := mk {
  name : string;
  age : option Z;
  nationality : string;
  home_location : string;
}.
End UserInfo.

Module AccessibilitySummary.
Record t : Type := mk {
  has_mobility_needs : bool;
  has_sensory_needs : bool;
  has_cognitive_needs : bool;
  mobility_needs : list string;
  sensory_needs : list string;
  cognitive_needs : list string;
  assistance_preferences : PyDict.t string;
  mobility_aids : list string;
  accessibility_priorities : list string;
  barrier_concerns : list string;
  dietary_restrictions : list string;
  service_animal : option (PyDict.t string);
  communication_needs : list string;
}.
End AccessibilitySummary.

Module TravelPreferencesSummary.
Record t : Type := mk {
  preferred_destinations : list string;
  travel_styles : list TravelStyle;
  budget_range : BudgetRange;
  group_size_preference : string;
  accommodation_preferences : list string;
  activity_interests : list string;
  transportation_preferences : list string;
}.
End TravelPreferencesSummary.

Module PersonalizedContext.
Record t : Type := mk {
  user_info : UserInfo.t;
  accessibility_summary : AccessibilitySummary.t;
  travel_preferences : TravelPreferencesSummary.t;
  communication_style : CommunicationStyle;
  personalized_instructions : PyDict.t string;
}.
End PersonalizedContext.

(** What a key of [session.state] may hold. [SIsoformat d] is the string
    [d.isoformat()], kept as the instant it prints. *)
Inductive StateValue : Type :=
| SProfile (p : UserProfile.t)
| SStr (s : string)
| SBool (b : bool)
| SIsoformat (d : datetime)
| SContext (c : PersonalizedContext.t)
| SOther (a : PyAny).

Definition truthy_any (a : PyAny) : bool :=
  match a with
  | AnyNone => false
  | AnyBool b => b
  | AnyInt z => truthy_int z
  | AnyStr s => truthy_str s
  | AnyList l => truthy_list l
  | AnyDict d => truthy_list d
  end.

Definition truthy (v : StateValue) : bool :=
  match v with
  | SProfile _ => true
  | SStr s => truthy_str s
  | SBool b => b
  | SIsoformat _ => true
  | SContext _ => true
  | SOther a => truthy_any a
  end.

Module Session.
(** Of a [google.adk.sessions.Session], its [state]. *)
Record t : Type := mk { state : gmap string StateValue }.
End Session.

(** What [get_user_context_from_session] returns: [session.state.get(k)]
    for four keys. *)
Module UserContext.
Record t : Type := mk {
  user_profile : option StateValue;
  user_id : option StateValue;
  personalized_context : option StateValue;
  context_timestamp : option StateValue;
}.
End UserContext.

(** ** [UserProfileService] *)

Section Service.
Context {C : Type} `{FirestoreClient C}.

(** The attributes of the service singleton, and the records emitted so far
    through the [logging] module. *)
Record UserProfileService : Type := mkService {
  collection_name : string;
  _memory_store : PyDict.t UserProfile.t;
  db : option C;
  logged : list LogRecord;
}.

Definition set_memory_store (f : PyDict.t UserProfile.t -> PyDict.t UserProfile.t)
    (self : UserProfileService) : UserProfileService :=
  mkService (collection_name self) (f (_memory_store self)) (db self) (logged self).

Definition set_db (d : option C) (self : UserProfileService) : UserProfileService :=
  mkService (collection_name self) (_memory_store self) d (logged self).

(** The service after one more record was emitted. *)
Definition log_to (l : level) (msg : string) (self : UserProfileService)
    : UserProfileService :=
  mkService (collection_name self) (_memory_store self) (db self)
            (logged self ++ [(l, msg)]).

(** [logger.info(msg)], [logger.warning(msg)], [logger.error(msg)] *)
Definition logger (l : level) (msg : string) : M UserProfileService unit :=
  modify (log_to l msg).

(** A call on [self.db]; on [None] Python raises an [AttributeError]. *)
Definition on_db {A} (call : M C A) : M UserProfileService A :=
  fun self =>
    match db self with
    | Some c => let '(r, c') := call c in (r, set_db (Some c') self)
    | None =>
        (Raises (Exception "'NoneType' object has no attribute 'collection'"), self)
    end.

(** The construction of the client in [__init__]: with the project named by
    [GOOGLE_CLOUD_PROJECT] when it is set and not empty, else with the
    default project. [getenv] is the value of that variable. The reference
    to the collection [_test_connection] taken next makes no call to the
    database and is left out. *)
Definition connect (getenv : option string) : outcome C :=
  match getenv with
  | Some project_id =>
      if truthy_str project_id then Client (Some project_id) else Client None
  | None => Client None
  end.

(** [UserProfileService()]; [records] is what the process has logged before. *)
Definition __init__ (getenv : option string) (records : list LogRecord)
    : UserProfileService :=
  match connect getenv with
  | Returns c =>
      mkService "user_profiles" [] (Some c)
        (records ++ [(INFO, "UserProfileService initialized with Firestore")])
  | Raises e =>
      mkService "user_profiles" [] None
        (records ++ [(ERROR, "Failed to initialize Firestore client: " +:+ str_exn e);
                     (WARNING, "Using in-memory storage as fallback")])
  end.

Definition _use_memory_store (self : UserProfileService) : bool :=
  match db self with None => true | Some _ => false end.

(** [basic_info] is a required field of the request, so the guard
    [if not request.basic_info] never fires. *)
Definition _is_profile_complete (request : CreateUserProfileRequest.t) : bool :=
  let b := CreateUserProfileRequest.basic_info request in
  let basic_complete :=
    truthy_str (BasicInfo.name b) && truthy_str (BasicInfo.email b) &&
    truthy_str (BasicInfo.nationality b) && truthy_str (BasicInfo.home_location b) in
  let interests_complete :=
    match CreateUserProfileRequest.travel_interests request with
    | Some ti =>
        truthy_list (TravelInterests.preferred_destinations ti) ||
        truthy_list (TravelInterests.travel_style ti) ||
        truthy_list (TravelInterests.activity_interests ti)
    | None => false
    end in
  let accessibility_complete :=
    match CreateUserProfileRequest.accessibility_profile request with
    | Some ap =>
        truthy_list (AccessibilityProfile.mobility_needs ap) ||
        truthy_list (AccessibilityProfile.sensory_needs ap) ||
        truthy_list (AccessibilityProfile.assistance_preferences ap)
    | None => false
    end in
  basic_complete && (interests_complete || accessibility_complete).

Definition _is_profile_complete_from_profile (profile : UserProfile.t) : bool :=
  let b := UserProfile.basic_info profile in
  let ti := UserProfile.travel_interests profile in
  let ap := UserProfile.accessibility_profile profile in
  let basic_complete :=
    truthy_str (BasicInfo.name b) && truthy_str (BasicInfo.email b) &&
    truthy_str (BasicInfo.nationality b) && truthy_str (BasicInfo.home_location b) in
  let interests_complete :=
    truthy_list (TravelInterests.preferred_destinations ti) ||
    truthy_list (TravelInterests.travel_style ti) ||
    truthy_list (TravelInterests.activity_interests ti) in
  let accessibility_complete :=
    truthy_list (AccessibilityProfile.mobility_needs ap) ||
    truthy_list (AccessibilityProfile.sensory_needs ap) ||
    truthy_list (AccessibilityProfile.assistance_preferences ap) in
  basic_complete && (interests_complete || accessibility_complete).

Definition _create_profile_summary (profile : UserProfile.t) : UserProfileSummary.t :=
  let ap := UserProfile.accessibility_profile profile in
  let ti := UserProfile.travel_interests profile in
  UserProfileSummary.mk
    (UserProfile.user_id profile)
    (BasicInfo.name (UserProfile.basic_info profile))
    (BasicInfo.email (UserProfile.basic_info profile))
    (UserProfile.created_at profile)
    (UserProfile.last_active profile)
    (UserProfile.profile_complete profile)
    (len (AccessibilityProfile.mobility_needs ap ++
          AccessibilityProfile.sensory_needs ap ++
          AccessibilityProfile.cognitive_needs ap))
    (len (TravelInterests.preferred_destinations ti ++
          TravelInterests.activity_interests ti ++
          TravelInterests.accommodation_preferences ti)).

(** [self._memory_store[user_id] = profile.model_dump()] *)
Definition memory_store_set (user_id : string) (profile : UserProfile.t)
    : M UserProfileService unit :=
  modify (set_memory_store (PyDict.set user_id profile)).

(** [self._memory_store[user_id]]; a missing key raises a [KeyError]. *)
Definition memory_store_getitem (user_id : string)
    : M UserProfileService UserProfile.t :=
  do data <- gets (fun self => PyDict.get user_id (_memory_store self)) ;;
  match data with
  | Some d => ret d
  | None => raise (Exception (repr_str user_id))
  end.

(** [self._memory_store[user_id].update(update_data)] *)
Definition memory_store_update (user_id : string) (update_data : UpdateData.t)
    : M UserProfileService unit :=
  do d <- memory_store_getitem user_id ;;
  memory_store_set user_id (UpdateData.apply update_data d).

(** The profile that [create_user_profile] builds. *)
Definition new_profile (user_id : string) (now : datetime)
    (request : CreateUserProfileRequest.t) : UserProfile.t :=
  UserProfile.mk
    user_id
    (CreateUserProfileRequest.basic_info request)
    (default TravelInterests.default
       (CreateUserProfileRequest.travel_interests request))
    (default AccessibilityProfile.default
       (CreateUserProfileRequest.accessibility_profile request))
    (default UserPreferences.default
       (CreateUserProfileRequest.preferences request))
    now now None
    (_is_profile_complete request)
    false [] [].

Definition create_user_profile (uuid4 : string) (utcnow : datetime)
    (request : CreateUserProfileRequest.t) : M UserProfileService UserProfile.t :=
  try_except
    (let user_id := uuid4 in
     let now := utcnow in
     let profile := new_profile user_id now request in
     do use_memory <- gets _use_memory_store ;;
     (if use_memory then memory_store_set user_id profile
      else
        do coll <- gets collection_name ;;
        try_except
          (on_db (document_set coll user_id profile))
          (fun firestore_error =>
             logger WARNING
               ("Firestore operation failed, falling back to memory store: "
                  +:+ str_exn firestore_error) ;;
             modify (set_db None) ;;
             memory_store_set user_id profile)) ;;
     logger INFO ("Created user profile: " +:+ user_id) ;;
     ret profile)
    (fun e =>
       logger ERROR ("Error creating user profile: " +:+ str_exn e) ;;
       raise (ValueError ("Failed to create user profile: " +:+ str_exn e))).

(** In memory, [if profile_data:] holds of every stored dump, which is never
    an empty mapping. *)
Definition get_user_profile (user_id : string)
    : M UserProfileService (option UserProfile.t) :=
  try_except
    (do use_memory <- gets _use_memory_store ;;
     if use_memory then
       do profile_data <- gets (fun self => PyDict.get user_id (_memory_store self)) ;;
       match profile_data with
       | Some d => ret (Some d)
       | None => ret None
       end
     else
       do coll <- gets collection_name ;;
       do doc <- on_db (document_get coll user_id) ;;
       match doc with
       | Some profile_data => ret (Some profile_data)
       | None => ret None
       end)
    (fun e =>
       logger ERROR ("Error getting user profile " +:+ user_id +:+ ": " +:+ str_exn e) ;;
       ret None).

(** The [update_data] that [update_user_profile] assembles from the request,
    the clock and the profile it read. *)
Definition update_data_of (request : UpdateUserProfileRequest.t)
    (utcnow : datetime) (existing_profile : UserProfile.t) : UpdateData.t :=
  let update_data :=
    UpdateData.mk
      (UpdateUserProfileRequest.basic_info request)
      (UpdateUserProfileRequest.travel_interests request)
      (UpdateUserProfileRequest.accessibility_profile request)
      (UpdateUserProfileRequest.preferences request)
      (Some utcnow) None None in
  if is_not_None (UpdateUserProfileRequest.basic_info request)
     || is_not_None (UpdateUserProfileRequest.travel_interests request)
     || is_not_None (UpdateUserProfileRequest.accessibility_profile request)
  then
    let temp_profile := UpdateData.apply update_data existing_profile in
    UpdateData.mk
      (UpdateData.basic_info update_data)
      (UpdateData.travel_interests update_data)
      (UpdateData.accessibility_profile update_data)
      (UpdateData.preferences update_data)
      (UpdateData.updated_at update_data)
      (Some (_is_profile_complete_from_profile temp_profile))
      (UpdateData.last_active update_data)
  else update_data.

Definition update_user_profile (user_id : string)
    (request : UpdateUserProfileRequest.t) (utcnow : datetime)
    : M UserProfileService (option UserProfile.t) :=
  try_except
    (do existing <- get_user_profile user_id ;;
     match existing with
     | None => ret None
     | Some existing_profile =>
         let update_data := update_data_of request utcnow existing_profile in
         do use_memory <- gets _use_memory_store ;;
         if use_memory then
           do present <- gets (fun self => PyDict.mem user_id (_memory_store self)) ;;
           if present then
             memory_store_update user_id update_data ;;
             do d <- memory_store_getitem user_id ;;
             ret (Some d)
           else ret None
         else
           do coll <- gets collection_name ;;
           on_db (document_update coll user_id update_data) ;;
           get_user_profile user_id
     end)
    (fun e =>
       logger ERROR ("Error updating user profile " +:+ user_id +:+ ": " +:+ str_exn e) ;;
       ret None).

Definition delete_user_profile (user_id : string) : M UserProfileService bool :=
  try_except
    (do use_memory <- gets _use_memory_store ;;
     if use_memory then
       do present <- gets (fun self => PyDict.mem user_id (_memory_store self)) ;;
       if present then
         modify (set_memory_store (PyDict.del user_id)) ;;
         logger INFO ("Deleted user profile: " +:+ user_id) ;;
         ret true
       else ret false
     else
       do coll <- gets collection_name ;;
       do doc <- on_db (document_get coll user_id) ;;
       match doc with
       | Some _ =>
           on_db (document_delete coll user_id) ;;
           logger INFO ("Deleted user profile: " +:+ user_id) ;;
           ret true
       | None => ret false
       end)
    (fun e =>
       logger ERROR ("Error deleting user profile " +:+ user_id +:+ ": " +:+ str_exn e) ;;
       ret false).

Definition list_user_profiles (limit offset : Z)
    : M UserProfileService (list UserProfileSummary.t) :=
  try_except
    (do use_memory <- gets _use_memory_store ;;
     if use_memory then
       do all_profiles <- gets (fun self => PyDict.values (_memory_store self)) ;;
       let paginated_profiles := py_slice all_profiles offset (offset + limit) in
       ret (map _create_profile_summary paginated_profiles)
     else
       do coll <- gets collection_name ;;
       do docs <- on_db (query_stream coll offset limit) ;;
       ret (map _create_profile_summary docs))
    (fun e =>
       logger ERROR ("Error listing user profiles: " +:+ str_exn e) ;;
       ret []).

Definition update_last_active (user_id : string) (utcnow : datetime)
    : M UserProfileService bool :=
  try_except
    (let update_data :=
       UpdateData.mk None None None None None None (Some utcnow) in
     do use_memory <- gets _use_memory_store ;;
     if use_memory then
       do present <- gets (fun self => PyDict.mem user_id (_memory_store self)) ;;
       if present then
         memory_store_update user_id update_data ;;
         ret true
       else ret false
     else
       do coll <- gets collection_name ;;
       on_db (document_update coll user_id update_data) ;;
       ret true)
    (fun e =>
       logger ERROR ("Error updating last active for " +:+ user_id +:+ ": " +:+ str_exn e) ;;
       ret false).

(** ** [ContextService] *)


Definition _create_accessibility_summary (profile : UserProfile.t)
    : AccessibilitySummary.t :=
  let accessibility := UserProfile.accessibility_profile profile in
  AccessibilitySummary.mk
    (truthy_list (AccessibilityProfile.mobility_needs accessibility))
    (truthy_list (AccessibilityProfile.sensory_needs accessibility))
    (truthy_list (AccessibilityProfile.cognitive_needs accessibility))
    (AccessibilityProfile.mobility_needs accessibility)
    (AccessibilityProfile.sensory_needs accessibility)
    (AccessibilityProfile.cognitive_needs accessibility)
    (AccessibilityProfile.assistance_preferences accessibility)
    (AccessibilityProfile.mobility_aids accessibility)
    (AccessibilityProfile.accessibility_priorities accessibility)
    (AccessibilityProfile.barrier_concerns accessibility)
    (AccessibilityProfile.dietary_restrictions accessibility)
    (AccessibilityProfile.service_animal accessibility)
    (AccessibilityProfile.communication_needs accessibility).

Definition _create_travel_preferences_summary (profile : UserProfile.t)
    : TravelPreferencesSummary.t :=
  let interests := UserProfile.travel_interests profile in
  TravelPreferencesSummary.mk
    (TravelInterests.preferred_destinations interests)
    (TravelInterests.travel_style interests)
    (TravelInterests.budget_range interests)
    (TravelInterests.group_size_preference interests)
    (TravelInterests.accommodation_preferences interests)
    (TravelInterests.activity_interests interests)
    (TravelInterests.transportation_preferences interests).

(** [', '.join(l) if l else otherwise] *)
Definition join_or (l : list string) (otherwise : string) : string :=
  if truthy_list l then join ", " l else otherwise.

Definition base_context (profile : UserProfile.t) : string :=
  let user_info := UserProfile.basic_info profile in
  let preferences := UserProfile.preferences profile in
  let age :=
    match BasicInfo.age user_info with
    | Some a => if truthy_int a then str_int a else "adult"
    | None => "adult"
    end in
  LF +:+ "You are helping " +:+ BasicInfo.name user_info +:+ ", a " +:+ age
     +:+ " traveler from " +:+ BasicInfo.home_location user_info +:+ ", "
     +:+ BasicInfo.nationality user_info +:+ "." +:+ LF
  +:+ LF
  +:+ "COMMUNICATION STYLE: "
     +:+ CommunicationStyle_value (UserPreferences.communication_style preferences)
     +:+ " - Adapt your responses accordingly." +:+ LF
  +:+ "RISK TOLERANCE: "
     +:+ RiskTolerance_value (UserPreferences.risk_tolerance preferences)
     +:+ " - Consider this in recommendations." +:+ LF.

Definition accessibility_context (profile : UserProfile.t) : string :=
  let accessibility := UserProfile.accessibility_profile profile in
  if truthy_list (AccessibilityProfile.mobility_needs accessibility)
     || truthy_list (AccessibilityProfile.sensory_needs accessibility)
     || truthy_list (AccessibilityProfile.cognitive_needs accessibility)
  then
    LF +:+ "ACCESSIBILITY NEEDS:" +:+ LF
    +:+ "- Mobility: "
       +:+ join_or (AccessibilityProfile.mobility_needs accessibility) "None specified" +:+ LF
    +:+ "- Sensory: "
       +:+ join_or (AccessibilityProfile.sensory_needs accessibility) "None specified" +:+ LF
    +:+ "- Cognitive: "
       +:+ join_or (AccessibilityProfile.cognitive_needs accessibility) "None specified" +:+ LF
    +:+ "- Mobility Aids: "
       +:+ join_or (AccessibilityProfile.mobility_aids accessibility) "None" +:+ LF
    +:+ "- Priority Concerns: "
       +:+ join_or (AccessibilityProfile.barrier_concerns accessibility) "None specified" +:+ LF
    +:+ LF
    +:+ "ASSISTANCE PREFERENCES: "
       +:+ repr_dict (AccessibilityProfile.assistance_preferences accessibility) +:+ LF
  else "".

Definition travel_context (profile : UserProfile.t) : string :=
  let interests := UserProfile.travel_interests profile in
  LF +:+ "TRAVEL PREFERENCES:" +:+ LF
  +:+ "- Destinations: "
     +:+ join_or (TravelInterests.preferred_destinations interests) "Open to suggestions" +:+ LF
  +:+ "- Travel Style: "
     +:+ join_or (map TravelStyle_value (TravelInterests.travel_style interests)) "Flexible" +:+ LF
  +:+ "- Budget: " +:+ BudgetRange_value (TravelInterests.budget_range interests) +:+ LF
  +:+ "- Group Size: " +:+ TravelInterests.group_size_preference interests +:+ LF
  +:+ "- Activities: "
     +:+ join_or (TravelInterests.activity_interests interests) "Open to suggestions" +:+ LF.

Definition _generate_personalized_instructions (profile : UserProfile.t)
    : PyDict.t string :=
  let full_context :=
    base_context profile +:+ accessibility_context profile +:+ travel_context profile in
  [ ("root_agent", full_context +:+ LF
       +:+ "Route requests to the most appropriate specialized agent based on the user's accessibility needs and travel preferences." +:+ LF
       +:+ "Always prioritize accessibility considerations in your routing decisions." +:+ LF);
    ("inspiration_agent", full_context +:+ LF
       +:+ "Focus on destinations and experiences that match both the user's interests and accessibility needs." +:+ LF
       +:+ "Highlight accessibility features and disabled traveler reviews when available." +:+ LF);
    ("planning_agent", full_context +:+ LF
       +:+ "Prioritize accessible flights, hotels, and transportation options." +:+ LF
       +:+ "Always consider the user's mobility aids and assistance needs when making recommendations." +:+ LF
       +:+ "Include accessibility features and costs in all suggestions." +:+ LF);
    ("booking_agent", full_context +:+ LF
       +:+ "Automatically include all necessary accessibility accommodations in bookings." +:+ LF
       +:+ "Communicate the user's specific needs to service providers." +:+ LF
       +:+ "Ensure all accessibility services are confirmed and documented." +:+ LF);
    ("accessibility_research_agent", full_context +:+ LF
       +:+ "Focus your research on the user's specific accessibility needs and concerns." +:+ LF
       +:+ "Prioritize information about barriers they've identified as concerning." +:+ LF
       +:+ "Look for reviews from travelers with similar accessibility profiles." +:+ LF);
    ("mobility_preparation_agent", full_context +:+ LF
       +:+ "Focus on the user's specific mobility aids and medical requirements." +:+ LF
       +:+ "Provide detailed guidance for their particular equipment and documentation needs." +:+ LF
       +:+ "Consider their travel style and destinations when making preparation recommendations." +:+ LF);
    ("transit_support_agent", full_context +:+ LF
       +:+ "Arrange assistance services that match the user's specific preferences and needs." +:+ LF
       +:+ "Focus on their preferred assistance types and communication methods." +:+ LF
       +:+ "Ensure all arrangements accommodate their mobility aids and requirements." +:+ LF);
    ("barrier_navigation_agent", full_context +:+ LF
       +:+ "Prioritize solutions for the barriers the user has identified as most concerning." +:+ LF
       +:+ "Provide alternatives that match their accessibility needs and travel preferences." +:+ LF
       +:+ "Consider their risk tolerance when suggesting workarounds." +:+ LF) ].

Definition _create_personalized_context (profile : UserProfile.t)
    : PersonalizedContext.t :=
  PersonalizedContext.mk
    (UserInfo.mk
       (BasicInfo.name (UserProfile.basic_info profile))
       (BasicInfo.age (UserProfile.basic_info profile))
       (BasicInfo.nationality (UserProfile.basic_info profile))
       (BasicInfo.home_location (UserProfile.basic_info profile)))
    (_create_accessibility_summary profile)
    (_create_travel_preferences_summary profile)
    (UserPreferences.communication_style (UserProfile.preferences profile))
    (_generate_personalized_instructions profile).

(** What a call of the context service works on: the profile service it
    holds, and the session it is handed. *)
Record Turn : Type := mkTurn {
  user_profile_service : UserProfileService;
  session : Session.t;
}.

Definition on_service {A} (call : M UserProfileService A) : M Turn A :=
  fun t =>
    let '(r, svc) := call (user_profile_service t) in
    (r, mkTurn svc (session t)).

(** [session.state[k] = v] *)
Definition state_setitem (k : string) (v : StateValue) : M Turn unit :=
  modify (fun t =>
    mkTurn (user_profile_service t)
           (Session.mk (<[k := v]> (Session.state (session t))))).

(** [session.state.get(k)] *)
Definition state_get (k : string) : M Turn (option StateValue) :=
  gets (fun t => Session.state (session t) !! k).

Definition inject_user_context (user_id : string)
    (utcnow_active utcnow_stamp : datetime) : M Turn bool :=
  try_except
    (do user_profile <- on_service (get_user_profile user_id) ;;
     match user_profile with
     | None =>
         on_service (logger WARNING ("No user profile found for user_id: " +:+ user_id)) ;;
         ret false
     | Some user_profile =>
         on_service (update_last_active user_id utcnow_active) ;;
         state_setitem "user_profile" (SProfile user_profile) ;;
         state_setitem "user_id" (SStr user_id) ;;
         state_setitem "context_injected" (SBool true) ;;
         state_setitem "context_timestamp" (SIsoformat utcnow_stamp) ;;
         let personalized_context := _create_personalized_context user_profile in
         state_setitem "personalized_context" (SContext personalized_context) ;;
         on_service (logger INFO ("Injected user context for user_id: " +:+ user_id)) ;;
         ret true
     end)
    (fun e =>
       on_service (logger ERROR
         ("Error injecting user context for " +:+ user_id +:+ ": " +:+ str_exn e)) ;;
       ret false).

Definition get_user_context_from_session : M Turn (option UserContext.t) :=
  try_except
    (do injected <- state_get "context_injected" ;;
     if match injected with Some v => truthy v | None => false end then
       do user_profile <- state_get "user_profile" ;;
       do user_id <- state_get "user_id" ;;
       do personalized_context <- state_get "personalized_context" ;;
       do context_timestamp <- state_get "context_timestamp" ;;
       ret (Some (UserContext.mk user_profile user_id personalized_context context_timestamp))
     else ret None)
    (fun e =>
       on_service (logger ERROR
         ("Error getting user context from session: " +:+ str_exn e)) ;;
       ret None).

End Service.

Arguments UserProfileService C : clear implicits.
Arguments Turn C : clear implicits.

(** ** Sequences of calls on the service *)

Inductive Op : Type :=
| Create (uuid4 : string) (utcnow : datetime) (request : CreateUserProfileRequest.t)
| Get (user_id : string)
| Update (user_id : string) (request : UpdateUserProfileRequest.t) (utcnow : datetime)
| Delete (user_id : string)
| ListProfiles (limit offset : Z)
| UpdateLastActive (user_id : string) (utcnow : datetime).

Inductive Result : Type :=
| RProfile (p : UserProfile.t)
| ROptional (p : option UserProfile.t)
| RBool (b : bool)
| RSummaries (l : list UserProfileSummary.t).

(** The negative results: [None], [False], [[]]. *)
Definition negative (r : Result) : bool :=
  match r with
  | RProfile _ => false
  | ROptional p => negb (is_not_None p)
  | RBool b => negb b
  | RSummaries l => negb (truthy_list l)
  end.

Section Calls.
Context {C : Type} `{FirestoreClient C}.

Definition call (o : Op) : M (UserProfileService C) Result :=
  match o with
  | Create uuid4 utcnow request =>
      do p <- create_user_profile uuid4 utcnow request ;; ret (RProfile p)
  | Get user_id =>
      do p <- get_user_profile user_id ;; ret (ROptional p)
  | Update user_id request utcnow =>
      do p <- update_user_profile user_id request utcnow ;; ret (ROptional p)
  | Delete user_id =>
      do b <- delete_user_profile user_id ;; ret (RBool b)
  | ListProfiles limit offset =>
      do l <- list_user_profiles limit offset ;; ret (RSummaries l)
  | UpdateLastActive user_id utcnow =>
      do b <- update_last_active user_id utcnow ;; ret (RBool b)
  end.

(** The service after a sequence of calls, whatever they returned. *)
Definition run (ops : list Op) (self : UserProfileService C) : UserProfileService C :=
  fold_left (fun s o => (call o s).2) ops self.

End Calls.

(** ** Two stand-ins for the document database

    [Unavailable]: no client can be built (API disabled, no credentials).
    [Fake]: an in-process collection whose calls follow a script of faults,
    one entry per call, [true] for a call that raises. *)

Module Unavailable.
Definition error : exn := Exception "503 Firestore API is not enabled".

#[global] Instance client : FirestoreClient Empty_set := {|
  Client := fun _ => Raises error;
  document_set := fun _ _ _ c => (Raises error, c);
  document_get := fun _ _ c => (Raises error, c);
  document_update := fun _ _ _ c => (Raises error, c);
  document_delete := fun _ _ c => (Raises error, c);
  query_stream := fun _ _ _ c => (Raises error, c);
|}.
End Unavailable.

Module Fake.
Record t : Type := mk {
  docs : PyDict.t UserProfile.t;
  faults : list bool;
  calls : nat;
}.

Definition error : exn := Exception "503 Deadline exceeded".
Definition not_found : exn := Exception "404 No document to update".

(** One round trip: counted, and failing when the script says so. *)
Definition round_trip {A} (body : M t A) : M t A :=
  fun c =>
    match faults c with
    | true :: rest => (Raises error, mk (docs c) rest (S (calls c)))
    | false :: rest => body (mk (docs c) rest (S (calls c)))
    | [] => body (mk (docs c) [] (S (calls c)))
    end.

Definition set_docs (f : PyDict.t UserProfile.t -> PyDict.t UserProfile.t) : M t unit :=
  modify (fun c => mk (f (docs c)) (faults c) (calls c)).

Fixpoint insert_by_created_at (p : UserProfile.t) (l : list UserProfile.t)
    : list UserProfile.t :=
  match l with
  | [] => [p]
  | q :: r =>
      if UserProfile.created_at p <? UserProfile.created_at q
      then p :: q :: r else q :: insert_by_created_at p r
  end.

Definition order_by_created_at (l : list UserProfile.t) : list UserProfile.t :=
  fold_left (fun acc p => insert_by_created_at p acc) l [].

#[global] Instance client : FirestoreClient t := {|
  Client := fun _ => Returns (mk [] [] 0);
  document_set := fun _ id data =>
    round_trip (set_docs (PyDict.set id data));
  document_get := fun _ id =>
    round_trip (gets (fun c => PyDict.get id (docs c)));
  document_update := fun _ id update_data =>
    round_trip
      (do doc <- gets (fun c => PyDict.get id (docs c)) ;;
       match doc with
       | Some d => set_docs (PyDict.set id (UpdateData.apply update_data d))
       | None => raise not_found
       end);
  document_delete := fun _ id =>
    round_trip (set_docs (PyDict.del id));
  query_stream := fun _ offset limit =>
    round_trip
      (gets (fun c =>
         take (Z.to_nat limit)
              (drop (Z.to_nat offset) (order_by_created_at (PyDict.values (docs c))))));
|}.
End Fake.

(** *** A monitor over any database

    [Monitored.t C] behaves as [C] and remembers whether a call has raised. *)

Module Monitored.
Section Monitored.
Context {C : Type} `{FirestoreClient C}.

Record t : Type := mk { inner : C; raised : bool }.

Definition watch {A} (call : M C A) : M t A :=
  fun m =>
    match call (inner m) with
    | (Returns a, c') => (Returns a, mk c' (raised m))
    | (Raises e, c') => (Raises e, mk c' true)
    end.

Definition client : FirestoreClient t := {|
  Client := fun project =>
    match Client project with
    | Returns c => Returns (mk c false)
    | Raises e => Raises e
    end;
  document_set := fun coll id data => watch (document_set coll id data);
  document_get := fun coll id => watch (document_get coll id);
  document_update := fun coll id update_data => watch (document_update coll id update_data);
  document_delete := fun coll id => watch (document_delete coll id);
  query_stream := fun coll offset limit => watch (query_stream coll offset limit);
|}.
End Monitored.
Arguments t C : clear implicits.
#[global] Existing Instance client.
End Monitored.

(** ** Sample data *)

Module Sample.
Definition basic : BasicInfo.t :=
  BasicInfo.mk "A" "a@b.com" None "US" "X" None None.

Definition paris : TravelInterests.t :=
  TravelInterests.mk ["Paris"] [] MID_RANGE "flexible" [] [] [].

Definition wheelchair : AccessibilityProfile.t :=
  AccessibilityProfile.mk ["wheelchair_accessible"] [] [] [] [] [] [] [] [] [] None [].

Definition request : CreateUserProfileRequest.t :=
  CreateUserProfileRequest.mk basic (Some paris) None None.

Definition request_wheelchair : CreateUserProfileRequest.t :=
  CreateUserProfileRequest.mk basic None (Some wheelchair) None.

Definition bare_request : CreateUserProfileRequest.t :=
  CreateUserProfileRequest.mk basic None None None.

(** A profile as [create_user_profile] builds it from [request]. *)
Definition profile (user_id : string) (now : datetime) : UserProfile.t :=
  UserProfile.mk user_id basic paris AccessibilityProfile.default
    UserPreferences.default now now None true false [] [].

Definition profile_wheelchair (user_id : string) (now : datetime) : UserProfile.t :=
  UserProfile.mk user_id basic TravelInterests.default wheelchair
    UserPreferences.default now now None true false [] [].

(** A service that came up without a database. *)
Definition memory_service : UserProfileService Empty_set :=
  __init__ None [].

(** A service whose database holds one profile and fails on the next call. *)
Definition flaky_service : UserProfileService Fake.t :=
  mkService "user_profiles" []
    (Some (Fake.mk [("u1", profile "u1" 10)] [true] 0)) [].

(** The same service, watched. *)
Definition watched_service : UserProfileService (Monitored.t Fake.t) :=
  mkService "user_profiles" []
    (Some (Monitored.mk (Fake.mk [("u1", profile "u1" 10)] [true] 0) false)) [].

Definition empty_session : Session.t := Session.mk ∅.

(** Five creations at five successive instants. *)
Definition five_creations : list Op :=
  [ Create "u1" 1 request; Create "u2" 2 request; Create "u3" 3 request;
    Create "u4" 4 request; Create "u5" 5 request ].

(** A request that names one need twice, and the profile created from it. *)
Definition repeated_need : AccessibilityProfile.t :=
  AccessibilityProfile.mk ["quiet_room"] ["quiet_room"] [] [] [] [] [] [] [] [] None [].

Definition repeated_request : CreateUserProfileRequest.t :=
  CreateUserProfileRequest.mk basic None (Some repeated_need) None.

Definition repeated_profile : UserProfile.t :=
  UserProfile.mk "u1" basic TravelInterests.default repeated_need
    UserPreferences.default 1 1 None true false [] [].

(** A service in memory that holds one profile, and a turn on it with a
    fresh session. *)
Definition one_user : UserProfileService Empty_set :=
  run [Create "u1" 5 request_wheelchair] memory_service.

Definition turn0 : Turn Empty_set := mkTurn one_user empty_session.

(** An update of the communication style alone. *)
Definition brief : UserPreferences.t :=
  UserPreferences.mk BRIEF MEDIUM "1_month" [] [] [] "USD" "UTC".

Definition style_only : UpdateUserProfileRequest.t :=
  UpdateUserProfileRequest.mk None None None (Some brief).
End Sample.

(** ** The specification's vocabulary *)

(** Completeness as the specification words it. *)
Definition complete_by_spec (p : UserProfile.t) : Prop :=
  let b := UserProfile.basic_info p in
  let ti := UserProfile.travel_interests p in
  let ap := UserProfile.accessibility_profile p in
  (BasicInfo.name b ≠ "" ∧ BasicInfo.email b ≠ "" ∧
   BasicInfo.nationality b ≠ "" ∧ BasicInfo.home_location b ≠ "") ∧
  ((TravelInterests.preferred_destinations ti ≠ [] ∨
    TravelInterests.travel_style ti ≠ [] ∨
    TravelInterests.activity_interests ti ≠ []) ∨
   (AccessibilityProfile.mobility_needs ap ≠ [] ∨
    AccessibilityProfile.sensory_needs ap ≠ [] ∨
    AccessibilityProfile.assistance_preferences ap ≠ [])).

(** The number of distinct entries of a list. *)
Definition distinct_count (l : list string) : Z := len (remove_dups l).

(** [sub in s] on strings. *)
Fixpoint py_in (sub s : string) : bool :=
  String.prefix sub s ||
  match s with
  | EmptyString => false
  | String _ r => py_in sub r
  end.




(** What holds of every entry of the in-memory store: it is filed under its
    own identifier and its flag is the completeness of its content. *)
Definition store_ok (d : PyDict.t UserProfile.t) : Prop :=
  forall k p, (k, p) ∈ d ->
    UserProfile.user_id p = k ∧
    UserProfile.profile_complete p = _is_profile_complete_from_profile p.

(** The identity and creation time of a profile. *)
Definition birth (p : UserProfile.t) : string * datetime :=
  (UserProfile.user_id p, UserProfile.created_at p).

(** Every field of [p] but [last_active]. *)
Definition with_last_active (t : option datetime) (p : UserProfile.t) : UserProfile.t :=
  UserProfile.mk
    (UserProfile.user_id p) (UserProfile.basic_info p)
    (UserProfile.travel_interests p) (UserProfile.accessibility_profile p)
    (UserProfile.preferences p) (UserProfile.created_at p)
    (UserProfile.updated_at p) t (UserProfile.profile_complete p)
    (UserProfile.onboarding_completed p) (UserProfile.travel_history p)
    (UserProfile.learned_preferences p).

(** The session after a successful injection for [user_id] of the profile
    [p], stamped [stamp]. *)
Definition injected (user_id : string) (stamp : datetime) (p : UserProfile.t)
    (s : Session.t) : Session.t :=
  Session.mk
    (<["personalized_context" := SContext (_create_personalized_context p)]>
       (<["context_timestamp" := SIsoformat stamp]>
          (<["context_injected" := SBool true]>
             (<["user_id" := SStr user_id]>
                (<["user_profile" := SProfile p]> (Session.state s)))))).


(** ** The handlers of the user endpoints ([main.py])

    A handler ends by returning a body or by raising an [HTTPException]; a
    [raise HTTPException(...)] inside its [try] is passed on untouched by
    [except HTTPException: raise], so it is the handler's outcome, and every
    other exception is turned into one by the last [except]. *)

Module UserProfileResponse.
Record t : Type := mk {
  user_id : string;
  profile : UserProfile.t;
  message : string;
}.
End UserProfileResponse.

Inductive reply (A : Type) : Type :=
| Responds (body : A)
| HTTPException (status_code : Z) (detail : string).
Arguments Responds {A} body.
Arguments HTTPException {A} status_code detail.

(** The status FastAPI answers with. *)
Definition status {A} (r : reply A) : Z :=
  match r with Responds _ => 200 | HTTPException code _ => code end.

Module Main.
Section Handlers.
Context {C : Type} `{FirestoreClient C}.

(** [POST /users] *)
Definition create_user_profile (uuid4 : string) (utcnow : datetime)
    (request : CreateUserProfileRequest.t)
    : M (UserProfileService C) (reply UserProfileResponse.t) :=
  try_except
    (do profile <- create_user_profile uuid4 utcnow request ;;
     ret (Responds (UserProfileResponse.mk (UserProfile.user_id profile) profile
                      "User profile created successfully")))
    (fun e =>
       match e with
       | ValueError _ => ret (HTTPException 400 (str_exn e))
       | Exception _ =>
           logger ERROR ("Error creating user profile: " +:+ str_exn e) ;;
           ret (HTTPException 500 "Internal server error")
       end).

(** [GET /users/{user_id}] *)
Definition get_user_profile (user_id : string)
    : M (UserProfileService C) (reply UserProfileResponse.t) :=
  try_except
    (do profile <- get_user_profile user_id ;;
     match profile with
     | None => ret (HTTPException 404 "User profile not found")
     | Some profile =>
         ret (Responds (UserProfileResponse.mk user_id profile
                          "User profile retrieved successfully"))
     end)
    (fun e =>
       logger ERROR ("Error getting user profile " +:+ user_id +:+ ": " +:+ str_exn e) ;;
       ret (HTTPException 500 "Internal server error")).

(** [PUT /users/{user_id}] *)
Definition update_user_profile (user_id : string)
    (request : UpdateUserProfileRequest.t) (utcnow : datetime)
    : M (UserProfileService C) (reply UserProfileResponse.t) :=
  try_except
    (do profile <- update_user_profile user_id request utcnow ;;
     match profile with
     | None => ret (HTTPException 404 "User profile not found")
     | Some profile =>
         ret (Responds (UserProfileResponse.mk user_id profile
                          "User profile updated successfully"))
     end)
    (fun e =>
       logger ERROR ("Error updating user profile " +:+ user_id +:+ ": " +:+ str_exn e) ;;
       ret (HTTPException 500 "Internal server error")).

(** [DELETE /users/{user_id}] *)
Definition delete_user_profile (user_id : string)
    : M (UserProfileService C) (reply (PyDict.t string)) :=
  try_except
    (do deleted <- delete_user_profile user_id ;;
     if deleted then
       ret (Responds [("message", "User profile " +:+ user_id +:+ " deleted successfully")])
     else ret (HTTPException 404 "User profile not found"))
    (fun e =>
       logger ERROR ("Error deleting user profile " +:+ user_id +:+ ": " +:+ str_exn e) ;;
       ret (HTTPException 500 "Internal server error")).

(** [GET /users?limit=&offset=]; the framework admits [1 <= limit <= 100]
    and [0 <= offset] only. *)
Definition list_user_profiles (limit offset : Z)
    : M (UserProfileService C) (reply (list UserProfileSummary.t)) :=
  try_except
    (do profiles <- list_user_profiles limit offset ;;
     ret (Responds profiles))
    (fun e =>
       logger ERROR ("Error listing user profiles: " +:+ str_exn e) ;;
       ret (HTTPException 500 "Internal server error")).

End Handlers.
End Main.

(** ** More vocabulary *)

(** The reading of the clock that a call takes, if it takes one. *)
Definition op_time (o : Op) : option datetime :=
  match o with
  | Create _ t _ => Some t
  | Update _ _ t => Some t
  | UpdateLastActive _ t => Some t
  | _ => None
  end.

Definition clock (ops : list Op) : list datetime := omap op_time ops.

(** The times of a record are in order and not after [t]. *)
Definition times_ok (t : datetime) (p : UserProfile.t) : Prop :=
  UserProfile.created_at p <= UserProfile.updated_at p ∧
  UserProfile.updated_at p <= t ∧
  forall a, UserProfile.last_active p = Some a -> UserProfile.created_at p <= a ∧ a <= t.

(** The fields that no operation of the service writes after creation. *)
Definition untouched_extras (p : UserProfile.t) : Prop :=
  UserProfile.onboarding_completed p = false ∧
  UserProfile.travel_history p = [] ∧
  UserProfile.learned_preferences p = [].

(** The roles that get an instruction string, in the order of the mapping. *)
Definition agent_roles : list string :=
  [ "root_agent"; "inspiration_agent"; "planning_agent"; "booking_agent";
    "accessibility_research_agent"; "mobility_preparation_agent";
    "transit_support_agent"; "barrier_navigation_agent" ].

(** No mobility, sensory or cognitive need is listed. *)
Definition no_needs (a : AccessibilityProfile.t) : Prop :=
  AccessibilityProfile.mobility_needs a = [] ∧
  AccessibilityProfile.sensory_needs a = [] ∧
  AccessibilityProfile.cognitive_needs a = [].

(** [p] with another accessibility profile. *)
Definition with_accessibility (a : AccessibilityProfile.t) (p : UserProfile.t)
    : UserProfile.t :=
  UserProfile.mk
    (UserProfile.user_id p) (UserProfile.basic_info p)
    (UserProfile.travel_interests p) a
    (UserProfile.preferences p) (UserProfile.created_at p)
    (UserProfile.updated_at p) (UserProfile.last_active p)
    (UserProfile.profile_complete p) (UserProfile.onboarding_completed p)
    (UserProfile.travel_history p) (UserProfile.learned_preferences p).

(** [p] with another [updated_at]. *)
Definition with_updated_at (t : datetime) (p : UserProfile.t) : UserProfile.t :=
  UserProfile.mk
    (UserProfile.user_id p) (UserProfile.basic_info p)
    (UserProfile.travel_interests p) (UserProfile.accessibility_profile p)
    (UserProfile.preferences p) (UserProfile.created_at p)
    t (UserProfile.last_active p) (UserProfile.profile_complete p)
    (UserProfile.onboarding_completed p) (UserProfile.travel_history p)
    (UserProfile.learned_preferences p).

(** The keys of [session.state] that [inject_user_context] writes. *)
Definition context_keys : list string :=
  ["user_profile"; "user_id"; "context_injected"; "context_timestamp";
   "personalized_context"].

(** The needs whose presence makes the accessibility block appear. *)
Definition listed_needs (a : AccessibilityProfile.t) : list string :=
  AccessibilityProfile.mobility_needs a ++ AccessibilityProfile.sensory_needs a ++
  AccessibilityProfile.cognitive_needs a.

(** The records that a call appended to the log. *)
Definition only_info (news : list LogRecord) : Prop :=
  Forall (fun r => r.1 = INFO) news ∧ (length news <= 1)%nat.

(** The update that [update_last_active] sends: the key [last_active] alone. *)
Definition last_active_update (utcnow : datetime) : UpdateData.t :=
  UpdateData.mk None None None None None None (Some utcnow).

(** Two profiles with the same content: the four sub-objects that the
    personalized context is built from. *)
Definition same_content (q p : UserProfile.t) : Prop :=
  UserProfile.basic_info q = UserProfile.basic_info p ∧
  UserProfile.travel_interests q = UserProfile.travel_interests p ∧
  UserProfile.accessibility_profile q = UserProfile.accessibility_profile p ∧
  UserProfile.preferences q = UserProfile.preferences p.

(** The flag of a profile says what its content is. *)
Definition flag_ok (p : UserProfile.t) : Prop :=
  UserProfile.profile_complete p = true <-> complete_by_spec p.

(** A database that keeps what it is told. [documents c] is the content of
    the collection, by identifier. A call that raises changes nothing, a read
    changes nothing and, when it answers, answers with the document stored;
    [set] stores the document, [update] merges the mapping into the stored
    document and raises when there is none, [delete] removes it. *)
Record faithful {C : Type} `{FirestoreClient C}
    (documents : C -> PyDict.t UserProfile.t) : Prop := {
  faithful_set : forall coll id data c r c',
    document_set coll id data c = (r, c') ->
    documents c'
      = match r with
        | Returns _ => PyDict.set id data (documents c)
        | Raises _ => documents c
        end;
  faithful_get : forall coll id c r c',
    document_get coll id c = (r, c') ->
    documents c' = documents c ∧
    forall d, r = Returns d -> d = PyDict.get id (documents c);
  faithful_update : forall coll id update_data c r c',
    document_update coll id update_data c = (r, c') ->
    match r with
    | Returns _ =>
        exists d, PyDict.get id (documents c) = Some d ∧
          documents c' = PyDict.set id (UpdateData.apply update_data d) (documents c)
    | Raises _ => documents c' = documents c
    end;
  faithful_delete : forall coll id c r c',
    document_delete coll id c = (r, c') ->
    documents c'
      = match r with
        | Returns _ => PyDict.del id (documents c)
        | Raises _ => documents c
        end;
  faithful_query : forall coll offset limit c r c',
    query_stream coll offset limit c = (r, c') -> documents c' = documents c;
}.

(** More sample data. *)
Module Scenario.
(** A traveller who lists a wheelchair as an aid and stairs as a barrier, but
    no need. *)
Definition aids_only : AccessibilityProfile.t :=
  AccessibilityProfile.mk [] [] [] [("airport_assistance", "wheelchair_assistance")]
    ["manual_wheelchair"] [] ["gluten_free"] [] ["accessible_restrooms"] ["stairs"]
    None [].

(** A second user beside the one of [Sample.one_user]. *)
Definition two_users : UserProfileService Empty_set :=
  run [Create "u1" 5 Sample.request_wheelchair; Create "u2" 6 Sample.request]
    Sample.memory_service.

(** A service whose database is empty and answers every call. *)
Definition sound_service : UserProfileService Fake.t :=
  mkService "user_profiles" [] (Some (Fake.mk [] [] 0)) [].

(** An update of the travel interests alone. *)
Definition interests_only : UpdateUserProfileRequest.t :=
  UpdateUserProfileRequest.mk None (Some Sample.paris) None None.

(** A service whose database holds one profile, answers the next call and
    fails on the one after. *)
Definition failing_write : UserProfileService Fake.t :=
  mkService "user_profiles" []
    (Some (Fake.mk [("u1", Sample.profile "u1" 10)] [false; true] 0)) [].

(** The traveller of the repository's test script: needs, aids and barriers. *)
Definition sarah_needs : AccessibilityProfile.t :=
  AccessibilityProfile.mk
    ["wheelchair_accessible"; "step_free_access"] ["hearing_assistance"] []
    [("airport_assistance", "wheelchair_assistance");
     ("boarding_preference", "priority_boarding");
     ("hotel_assistance", "accessible_room_ground_floor")]
    ["manual_wheelchair"; "hearing_aids"] [] ["gluten_free"] []
    ["wheelchair_accessible"; "accessible_restrooms"]
    ["stairs"; "narrow_doorways"; "loud_environments"] None
    ["written_communication_backup"].

Definition sarah : UserProfile.t :=
  UserProfile.mk "u1"
    (BasicInfo.mk "Sarah Johnson" "sarah.johnson@example.com" (Some 34) "US"
       "Seattle, WA" (Some "+1-555-0123") None)
    Sample.paris sarah_needs UserPreferences.default 1 1 None true false [] [].

(** The same traveller under another address, phone number, currency and
    time zone. *)
Definition sarah_moved : UserProfile.t :=
  UserProfile.mk "u1"
    (BasicInfo.mk "Sarah Johnson" "sj@example.org" (Some 34) "US"
       "Seattle, WA" None (Some [("name", "Tom")]))
    Sample.paris sarah_needs
    (UserPreferences.mk DETAILED MEDIUM "2_months" [] [] ["English"] "EUR"
       "America/Los_Angeles")
    1 1 None true false [] [].

(** A session that already holds a key of its own. *)
Definition used_session : Session.t :=
  Session.mk (<["itinerary" := SStr "draft"]> ∅).

(** Two creations, an update and a touch, at successive instants. *)
Definition busy_day : list Op :=
  [ Create "u1" 1 Sample.request; Create "u2" 2 Sample.request_wheelchair;
    Update "u1" Sample.style_only 3; UpdateLastActive "u1" 4; Get "u2" ].

(** A service whose database holds one profile and answers every call. *)
Definition stored_user : UserProfileService Fake.t :=
  mkService "user_profiles" []
    (Some (Fake.mk [("u1", Sample.profile_wheelchair "u1" 5)] [] 0)) [].



(** An update that empties the travel interests. *)
Definition no_interests : UpdateUserProfileRequest.t :=
  UpdateUserProfileRequest.mk None (Some TravelInterests.default) None None.

(** A service whose database holds one profile, answers two calls and fails
    on the third. *)
Definition third_call_fails : UserProfileService Fake.t :=
  mkService "user_profiles" []
    (Some (Fake.mk [("u1", Sample.profile_wheelchair "u1" 5)] [false; false; true] 0)) [].
End Scenario.

(** * Proofs *)

(** ** Dictionaries *)

Section DictFacts.
Context {V : Type}.
Implicit Types (d : PyDict.t V) (k : string) (v : V).

Lemma mem_get k d : PyDict.mem k d = is_not_None (PyDict.get k d).
Proof. unfold PyDict.mem. by destruct (PyDict.get k d). Qed.

Lemma get_set_eq k v d : PyDict.get k (PyDict.set k v d) = Some v.
Proof.
  induction d as [|[k' v'] d IH]; simpl.
  - by rewrite decide_True.
  - destruct (decide (k = k')) as [->|Hne]; simpl.
    + by rewrite decide_True.
    + by rewrite decide_False.
Qed.

Lemma get_set_ne k k' v d : k' ≠ k -> PyDict.get k' (PyDict.set k v d) = PyDict.get k' d.
Proof.
  intros Hne. induction d as [|[k0 v0] d IH]; simpl.
  - by rewrite decide_False.
  - destruct (decide (k = k0)) as [->|Hk]; simpl.
    + by rewrite !decide_False.
    + destruct (decide (k' = k0)); [done | apply IH].
Qed.

Lemma get_None_keys k d : PyDict.get k d = None <-> k ∉ PyDict.keys d.
Proof.
  unfold PyDict.keys. induction d as [|[k' v'] d IH]; simpl.
  - split; [intros _; apply not_elem_of_nil | done].
  - rewrite not_elem_of_cons. destruct (decide (k = k')) as [->|Hne].
    + split; [done | intros [? _]; done].
    + rewrite IH. tauto.
Qed.

Lemma get_Some_elem k v d : PyDict.get k d = Some v -> (k, v) ∈ d.
Proof.
  induction d as [|[k' v'] d IH]; simpl; [done|].
  destruct (decide (k = k')) as [->|Hne].
  - intros [= ->]. apply elem_of_cons. by left.
  - intros Hget. apply elem_of_cons. right. by apply IH.
Qed.


(** Assigning to a key that is present changes no position. *)
Lemma set_present k v v0 d :
  PyDict.get k d = Some v0 ->
  exists d1 d2, d = (d1 ++ (k, v0) :: d2)%list ∧ PyDict.set k v d = (d1 ++ (k, v) :: d2)%list
                ∧ k ∉ PyDict.keys d1.
Proof.
  induction d as [|[k' v'] d IH]; simpl; [done|].
  destruct (decide (k = k')) as [->|Hne].
  - intros [= ->]. exists [], d. repeat split. apply not_elem_of_nil.
  - intros Hget. destruct (IH Hget) as (d1 & d2 & -> & -> & Hk).
    exists ((k', v') :: d1), d2. repeat split.
    unfold PyDict.keys in *. simpl. rewrite not_elem_of_cons. done.
Qed.

(** Assigning to a new key appends it. *)
Lemma set_fresh k v d : PyDict.get k d = None -> PyDict.set k v d = (d ++ [(k, v)])%list.
Proof.
  induction d as [|[k' v'] d IH]; simpl; [done|].
  destruct (decide (k = k')); [done|]. intros Hget. by rewrite IH.
Qed.



Lemma elem_set k v d e : e ∈ PyDict.set k v d -> e = (k, v) ∨ e ∈ d.
Proof.
  induction d as [|[k' v'] d IH]; simpl.
  - rewrite list_elem_of_singleton. by left.
  - destruct (decide (k = k')) as [->|Hne]; rewrite !elem_of_cons; [tauto|].
    intros [->|Hin]; [tauto|]. destruct (IH Hin); tauto.
Qed.

Lemma elem_del k d e : e ∈ PyDict.del k d -> e ∈ d.
Proof.
  induction d as [|[k' v'] d IH]; simpl; [done|].
  destruct (decide (k = k')) as [->|Hne]; rewrite !elem_of_cons; tauto.
Qed.


Lemma keys_del_sublist k d : PyDict.keys (PyDict.del k d) `sublist_of` PyDict.keys d.
Proof.
  unfold PyDict.keys. induction d as [|[k' v] d IH]; simpl; [done|].
  destruct (decide (k = k')); simpl.
  - by apply sublist_cons.
  - by apply sublist_skip.
Qed.

End DictFacts.

(** ** Slices, sorted lists, substrings *)

Lemma py_slice_window {A} (l : list A) (limit offset : Z) :
  1 <= limit -> 0 <= offset ->
  py_slice l offset (offset + limit) = take (Z.to_nat limit) (drop (Z.to_nat offset) l).
Proof.
  intros Hl Ho. unfold py_slice, slice_bound, len.
  destruct (Z.ltb_spec offset 0); [lia|].
  destruct (Z.ltb_spec (offset + limit) 0); [lia|].
  destruct (decide (length l ≤ Z.to_nat offset)%nat) as [Hge|Hlt].
  - rewrite (drop_ge l (Z.to_nat offset)) by done.
    rewrite drop_ge by lia. by rewrite !take_nil.
  - replace (Z.to_nat (offset `min` Z.of_nat (length l))) with (Z.to_nat offset) by lia.
    destruct (decide (Z.to_nat limit ≤ length l - Z.to_nat offset)%nat).
    + f_equal. lia.
    + rewrite !take_ge; [done | rewrite length_drop; lia | rewrite length_drop; lia].
Qed.


Lemma truthy_str_spec s : truthy_str s = true <-> s ≠ "".
Proof. destruct s; simpl; split; done. Qed.

Lemma truthy_list_spec {A} (l : list A) : truthy_list l = true <-> l ≠ [].
Proof. destruct l; simpl; split; done. Qed.

Lemma prefix_app_l sub s t :
  String.prefix sub s = true -> String.prefix sub (s +:+ t) = true.
Proof.
  revert s. induction sub as [|c sub IH]; intros s.
  - intros _. by destruct (s +:+ t).
  - destruct s as [|c' s]; simpl; [done|].
    destruct (Ascii.ascii_dec c c'); [apply IH | done].
Qed.

Lemma prefix_refl s : String.prefix s s = true.
Proof. induction s as [|c s IH]; simpl; [done|]. by destruct (Ascii.ascii_dec c c). Qed.

Lemma py_in_cons sub c s :
  py_in sub (String c s) = String.prefix sub (String c s) || py_in sub s.
Proof. reflexivity. Qed.

Lemma py_in_here sub t : py_in sub (sub +:+ t) = true.
Proof.
  assert (Hp : String.prefix sub (sub +:+ t) = true) by apply prefix_app_l, prefix_refl.
  destruct (sub +:+ t); simpl in *; by rewrite Hp.
Qed.

Lemma py_in_app_r sub s t : py_in sub t = true -> py_in sub (s +:+ t) = true.
Proof.
  intros Ht. induction s as [|c s IH]; simpl; [done|].
  rewrite IH. apply orb_true_r.
Qed.

Lemma py_in_app_l sub s t : py_in sub s = true -> py_in sub (s +:+ t) = true.
Proof.
  induction s as [|c s IH].
  - simpl. rewrite orb_false_r. intros Hp.
    assert (sub = "") as -> by (by destruct sub).
    by destruct t.
  - rewrite py_in_cons. intros [Hp|Hin]%orb_true_iff.
    + apply (prefix_app_l _ _ t) in Hp.
      change (String c s +:+ t) with (String c (s +:+ t)) in *.
      rewrite py_in_cons, Hp. reflexivity.
    + change (String c s +:+ t) with (String c (s +:+ t)).
      rewrite py_in_cons, IH by done. apply orb_true_r.
Qed.



(** ** Symbolic execution *)

(** Unfold the operations of the profile service down to the monad and the
    state. *)
Ltac exec :=
  unfold call, create_user_profile, update_user_profile,
    delete_user_profile, list_user_profiles, update_last_active, get_user_profile,
    memory_store_update, memory_store_getitem, memory_store_set,
    try_except, bind, ret, raise, gets, modify, logger, log_to, on_db,
    _use_memory_store, set_db, set_memory_store in *;
  cbn beta iota zeta delta [db _memory_store collection_name logged fst snd] in *.

(** The same for the context service. *)
Ltac exec_ctx :=
  unfold inject_user_context, get_user_context_from_session, state_setitem,
    state_get, on_service, try_except, bind, ret, raise, gets, modify in *;
  cbn beta iota zeta delta [user_profile_service session fst snd] in *.

(** Case analysis on every answer of the database. *)
Ltac split_db :=
  repeat (first
    [ match goal with
      | |- context [document_set ?a ?b ?d ?c] =>
          destruct (document_set a b d c) as [[[]|?] ?] eqn:?
      | |- context [document_get ?a ?b ?c] =>
          destruct (document_get a b c) as [[[?|]|?] ?] eqn:?
      | |- context [document_update ?a ?b ?d ?c] =>
          destruct (document_update a b d c) as [[[]|?] ?] eqn:?
      | |- context [document_delete ?a ?b ?c] =>
          destruct (document_delete a b c) as [[[]|?] ?] eqn:?
      | |- context [query_stream ?a ?b ?d ?c] =>
          destruct (query_stream a b d c) as [[?|?] ?] eqn:?
      end
    | progress cbn ]).

(** Case analysis on every answer of the database and every lookup in the
    in-memory store. *)
Ltac split_calls :=
  repeat (first
    [ match goal with
      | |- context [document_set ?a ?b ?d ?c] =>
          destruct (document_set a b d c) as [[[]|?] ?] eqn:?
      | |- context [document_get ?a ?b ?c] =>
          destruct (document_get a b c) as [[[?|]|?] ?] eqn:?
      | |- context [document_update ?a ?b ?d ?c] =>
          destruct (document_update a b d c) as [[[]|?] ?] eqn:?
      | |- context [document_delete ?a ?b ?c] =>
          destruct (document_delete a b c) as [[[]|?] ?] eqn:?
      | |- context [query_stream ?a ?b ?d ?c] =>
          destruct (query_stream a b d c) as [[?|?] ?] eqn:?
      | |- context [PyDict.mem ?k ?d] => rewrite (mem_get k d)
      | H : PyDict.get ?k ?d = _ |- context [PyDict.get ?k ?d] => rewrite H
      | |- context [PyDict.get ?k ?d] => destruct (PyDict.get k d) eqn:?
      end
    | progress cbn ]).

(** A service known to run on its in-memory store. *)
Ltac in_memory self Hdb :=
  let coll := fresh "coll" in
  let store := fresh "store" in
  let d := fresh "d" in
  let l := fresh "l" in
  destruct self as [coll store d l]; simpl in Hdb; subst d.

(** ** The profile service *)

Section ServiceFacts.
Context {C : Type} `{FirestoreClient C}.
Implicit Types (self : UserProfileService C) (turn : Turn C).

Lemma complete_iff p :
  _is_profile_complete_from_profile p = true <-> complete_by_spec p.
Proof.
  unfold _is_profile_complete_from_profile, complete_by_spec.
  rewrite !andb_true_iff, !orb_true_iff, !truthy_str_spec, !truthy_list_spec.
  tauto.
Qed.

Lemma created_complete uid now req :
  _is_profile_complete req = _is_profile_complete_from_profile (new_profile uid now req).
Proof. by destruct req as [b [ti|] [ap|] pr]. Qed.

Lemma updated_complete req now p :
  UserProfile.profile_complete p = _is_profile_complete_from_profile p ->
  let p' := UpdateData.apply (update_data_of req now p) p in
  UserProfile.profile_complete p' = _is_profile_complete_from_profile p'.
Proof. intros Hp. by destruct req as [[b|] [ti|] [ap|] [pr|]]. Qed.

Lemma updated_birth req now p :
  birth (UpdateData.apply (update_data_of req now p) p) = birth p.
Proof. by destruct req as [[b|] [ti|] [ap|] [pr|]]. Qed.

(** *** What each operation does on the in-memory store *)

Lemma use_memory_db self : _use_memory_store self = true <-> db self = None.
Proof. unfold _use_memory_store. by destruct (db self). Qed.

Lemma get_memory self uid :
  db self = None ->
  get_user_profile uid self = (Returns (PyDict.get uid (_memory_store self)), self).
Proof. intros Hdb. in_memory self Hdb. exec. by destruct (PyDict.get uid _). Qed.

Lemma create_memory self uid now req :
  db self = None ->
  create_user_profile uid now req self =
    (Returns (new_profile uid now req),
     log_to INFO ("Created user profile: " +:+ uid)
       (set_memory_store (PyDict.set uid (new_profile uid now req)) self)).
Proof. intros Hdb. by in_memory self Hdb. Qed.

Lemma update_memory self uid req now :
  db self = None ->
  update_user_profile uid req now self =
    match PyDict.get uid (_memory_store self) with
    | Some p =>
        let p' := UpdateData.apply (update_data_of req now p) p in
        (Returns (Some p'), set_memory_store (PyDict.set uid p') self)
    | None => (Returns None, self)
    end.
Proof.
  intros Hdb. in_memory self Hdb.
  exec. destruct (PyDict.get uid store) as [p|] eqn:E; cbn; [|done].
  rewrite mem_get, E. cbn. rewrite E. cbn. rewrite get_set_eq. reflexivity.
Qed.

Lemma touch_memory self uid now :
  db self = None ->
  update_last_active uid now self =
    match PyDict.get uid (_memory_store self) with
    | Some p =>
        (Returns true,
         set_memory_store (PyDict.set uid (with_last_active (Some now) p)) self)
    | None => (Returns false, self)
    end.
Proof.
  intros Hdb. in_memory self Hdb.
  exec. rewrite mem_get.
  destruct (PyDict.get uid store) as [p|] eqn:E; cbn; [|done].
  rewrite E. cbn. reflexivity.
Qed.

Lemma delete_memory self uid :
  db self = None ->
  delete_user_profile uid self =
    if PyDict.mem uid (_memory_store self)
    then (Returns true, log_to INFO ("Deleted user profile: " +:+ uid)
                          (set_memory_store (PyDict.del uid) self))
    else (Returns false, self).
Proof. intros Hdb. in_memory self Hdb. exec. by destruct (PyDict.mem uid _). Qed.

Lemma list_memory self limit offset :
  db self = None ->
  list_user_profiles limit offset self =
    (Returns (_create_profile_summary <$>
                py_slice (PyDict.values (_memory_store self)) offset (offset + limit)),
     self).
Proof. intros Hdb. by in_memory self Hdb. Qed.

(** *** No operation raises, over any database *)

Lemma get_returns self uid : exists r, (get_user_profile uid self).1 = Returns r.
Proof. destruct self as [coll store [c|] l]; exec; split_calls; eauto. Qed.

Lemma touch_returns self uid now :
  exists b, (update_last_active uid now self).1 = Returns b.
Proof. destruct self as [coll store [c|] l]; exec; split_calls; eauto. Qed.

Lemma call_returns o self : exists r, (call o self).1 = Returns r.
Proof. destruct self as [coll store [c|] l], o; exec; split_calls; eauto. Qed.

(** *** Which store is selected *)

Lemma call_keeps_memory o self : db self = None -> db (call o self).2 = None.
Proof.
  intros Hdb. in_memory self Hdb. destruct o; exec; split_calls; reflexivity.
Qed.

Lemma run_cons o ops self : run (o :: ops) self = run ops (call o self).2.
Proof. reflexivity. Qed.

Lemma run_keeps_memory ops self : db self = None -> db (run ops self) = None.
Proof.
  revert self. induction ops as [|o ops IH]; intros self Hdb; [done|].
  apply IH, call_keeps_memory, Hdb.
Qed.

Lemma call_keeps_db o self c :
  db self = Some c -> (forall u t r, o <> Create u t r) ->
  exists c', db (call o self).2 = Some c'.
Proof.
  intros Hdb Ho. in_memory self Hdb.
  destruct o; [by destruct (Ho uuid4 utcnow request)|..]; exec; split_calls; eauto.
Qed.

(** *** The invariant of the in-memory store *)

Lemma store_ok_nil : store_ok [].
Proof. intros k p Hin. by apply elem_of_nil in Hin. Qed.

Lemma store_ok_set k p d :
  store_ok d -> UserProfile.user_id p = k ->
  UserProfile.profile_complete p = _is_profile_complete_from_profile p ->
  store_ok (PyDict.set k p d).
Proof.
  intros Hd Hk Hp k' p' Hin. apply elem_set in Hin as [[= -> ->]|Hin]; [done|].
  by apply Hd.
Qed.

Lemma store_ok_del k d : store_ok d -> store_ok (PyDict.del k d).
Proof. intros Hd k' p' Hin. apply Hd. by apply elem_del in Hin. Qed.

Lemma store_ok_get k p d :
  store_ok d -> PyDict.get k d = Some p ->
  UserProfile.user_id p = k ∧
  UserProfile.profile_complete p = _is_profile_complete_from_profile p.
Proof. intros Hd Hget. by apply Hd, get_Some_elem. Qed.

Lemma call_store_ok o self :
  store_ok (_memory_store self) -> store_ok (_memory_store (call o self).2).
Proof.
  intros Hok. destruct self as [coll store [c|] l], o; exec; split_calls;
    try assumption;
    try (apply store_ok_del; assumption);
    try (apply store_ok_set; [assumption | reflexivity | apply created_complete]).
  all: match goal with
       | E : PyDict.get ?k ?d = Some ?p |- _ =>
           destruct (store_ok_get _ _ _ Hok E) as [Hid Hflag]
       end.
  all: apply store_ok_set;
    [assumption | exact Hid | first [exact Hflag | by apply updated_complete]].
Qed.

Lemma run_store_ok ops self :
  store_ok (_memory_store self) -> store_ok (_memory_store (run ops self)).
Proof.
  revert self. induction ops as [|o ops IH]; intros self Hok; [done|].
  apply IH, call_store_ok, Hok.
Qed.

Lemma init_store_ok getenv records : store_ok (_memory_store (__init__ getenv records)).
Proof. unfold __init__. destruct (connect _); apply store_ok_nil. Qed.

(** *** The order of the in-memory store *)


Lemma set_present_same k p p0 d :
  PyDict.get k d = Some p0 -> birth p = birth p0 ->
  birth <$> PyDict.values (PyDict.set k p d) = birth <$> PyDict.values d ∧
  PyDict.keys (PyDict.set k p d) = PyDict.keys d.
Proof.
  intros Hget Hb. destruct (set_present k p p0 d Hget) as (d1 & d2 & Hd & -> & _).
  rewrite Hd. unfold PyDict.values, PyDict.keys.
  rewrite !fmap_app, !fmap_cons. simpl. by rewrite Hb.
Qed.




(** *** Distinct entries *)

Lemma distinct_count_le (l : list string) : distinct_count l <= len l.
Proof.
  unfold distinct_count, len. apply inj_le.
  induction l as [|x l IH]; simpl; [done|].
  destruct (decide_rel elem_of x l); simpl; lia.
Qed.

Lemma distinct_count_NoDup (l : list string) : distinct_count l = len l <-> NoDup l.
Proof.
  unfold distinct_count, len. split.
  - intros Heq%Nat2Z.inj. induction l as [|x l IH]; [constructor|].
    simpl in Heq. destruct (decide_rel elem_of x l) as [Hin|Hnin].
    + pose proof (distinct_count_le l) as Hle. unfold distinct_count, len in Hle. lia.
    + simpl in Heq. constructor; [done|]. apply IH. lia.
  - intros Hnd. f_equal.
    induction Hnd as [|x l Hx Hnd IH]; simpl; [done|].
    destruct (decide_rel elem_of x l); [done|]. simpl. by rewrite IH.
Qed.

Lemma elem_of_py_slice {A} (l : list A) a b x : x ∈ py_slice l a b -> x ∈ l.
Proof.
  unfold py_slice. intros Hin.
  eapply elem_of_sublist; [exact Hin|].
  etrans; [apply sublist_take | apply sublist_drop].
Qed.

(** ** The context service *)

Lemma get_cases self uid :
  exists r self1, get_user_profile uid self = (Returns r, self1).
Proof.
  destruct (get_returns self uid) as [r Hr].
  destruct (get_user_profile uid self) as [r' self1]. simpl in Hr. subst. eauto.
Qed.

Lemma get_keeps_memory_store self uid :
  _memory_store (get_user_profile uid self).2 = _memory_store self.
Proof. destruct self as [coll store [c|] l]; exec; split_calls; reflexivity. Qed.

Lemma inject_resolved turn uid t1 t2 p self1 :
  get_user_profile uid (user_profile_service turn) = (Returns (Some p), self1) ->
  inject_user_context uid t1 t2 turn =
    (Returns true,
     mkTurn (log_to INFO ("Injected user context for user_id: " +:+ uid)
               (update_last_active uid t1 self1).2)
            (injected uid t2 p (session turn))).
Proof.
  intros Hget. destruct turn as [self s]. exec_ctx. rewrite Hget. cbn.
  destruct (touch_returns self1 uid t1) as [b Hb].
  destruct (update_last_active uid t1 self1) as [r self2]. simpl in Hb. subst r.
  reflexivity.
Qed.

Lemma inject_unresolved turn uid t1 t2 self1 :
  get_user_profile uid (user_profile_service turn) = (Returns None, self1) ->
  inject_user_context uid t1 t2 turn =
    (Returns false,
     mkTurn (log_to WARNING ("No user profile found for user_id: " +:+ uid) self1)
            (session turn)).
Proof.
  intros Hget. destruct turn as [self s]. exec_ctx. rewrite Hget. reflexivity.
Qed.

Lemma inject_returns turn uid t1 t2 :
  exists b, (inject_user_context uid t1 t2 turn).1 = Returns b.
Proof.
  destruct (get_cases (user_profile_service turn) uid) as ([p|] & self1 & E).
  - rewrite (inject_resolved _ _ t1 t2 _ _ E). eauto.
  - rewrite (inject_unresolved _ _ t1 t2 _ E). eauto.
Qed.

Lemma inject_keeps_memory turn uid t1 t2 :
  db (user_profile_service turn) = None ->
  db (user_profile_service (inject_user_context uid t1 t2 turn).2) = None.
Proof.
  intros Hdb. destruct turn as [self s]. simpl in Hdb.
  pose proof (get_memory self uid Hdb) as E.
  destruct (PyDict.get uid (_memory_store self)) as [p|].
  - rewrite (inject_resolved (mkTurn self s) _ t1 t2 _ _ E). cbn.
    apply (call_keeps_memory (UpdateLastActive uid t1)) in Hdb.
    unfold call, bind, ret in Hdb.
    by destruct (update_last_active uid t1 self) as [[b|e] self2].
  - by rewrite (inject_unresolved (mkTurn self s) _ t1 t2 _ E).
Qed.

Lemma get_context_pure turn :
  get_user_context_from_session turn =
    (Returns
       (let st := Session.state (session turn) in
        if match st !! "context_injected" with Some v => truthy v | None => false end
        then Some (UserContext.mk (st !! "user_profile") (st !! "user_id")
                     (st !! "personalized_context") (st !! "context_timestamp"))
        else None),
     turn).
Proof.
  destruct turn as [self [st]]. exec_ctx. cbn.
  by destruct (match st !! "context_injected" with Some v => truthy v | None => false end).
Qed.

Lemma injected_lookup uid stamp p s :
  let st := Session.state (injected uid stamp p s) in
  st !! "user_profile" = Some (SProfile p) ∧
  st !! "user_id" = Some (SStr uid) ∧
  st !! "context_injected" = Some (SBool true) ∧
  st !! "context_timestamp" = Some (SIsoformat stamp) ∧
  st !! "personalized_context" = Some (SContext (_create_personalized_context p)).
Proof. unfold injected. cbn. repeat split; by simplify_map_eq. Qed.

Lemma planning_mentions_mobility p need :
  AccessibilityProfile.mobility_needs (UserProfile.accessibility_profile p) = [need] ->
  exists s,
    PyDict.get "planning_agent" (_generate_personalized_instructions p) = Some s ∧
    py_in need s = true.
Proof.
  intros Hm. eexists. split; [reflexivity|].
  apply py_in_app_l, py_in_app_r, py_in_app_l.
  unfold accessibility_context. rewrite Hm.
  cbn [truthy_list orb join_or join String.concat].
  do 4 apply py_in_app_r. apply py_in_here.
Qed.

Lemma context_depends_on_four_fields p q :
  UserProfile.basic_info q = UserProfile.basic_info p ->
  UserProfile.travel_interests q = UserProfile.travel_interests p ->
  UserProfile.accessibility_profile q = UserProfile.accessibility_profile p ->
  UserProfile.preferences q = UserProfile.preferences p ->
  _create_personalized_context q = _create_personalized_context p.
Proof.
  destruct p, q. simpl. intros -> -> -> ->. reflexivity.
Qed.

(** *** A watched database: an exception of the storage layer is absorbed *)

Lemma watched_call_absorbs (self : UserProfileService (Monitored.t C)) c o m' :
  db self = Some (Monitored.mk c false) ->
  (forall u t r, o ≠ Create u t r) ->
  db (call o self).2 = Some m' ->
  Monitored.raised m' = true ->
  exists r msg,
    (call o self).1 = Returns r ∧ negative r = true ∧
    logged (call o self).2 = (logged self ++ [(ERROR, msg)])%list.
Proof.
  intros Hdb Ho. in_memory self Hdb.
  destruct o; [by destruct (Ho uuid4 utcnow request)|..]; clear Ho;
    exec; cbn; unfold Monitored.watch; cbn; split_db;
    intros [= <-]; cbn; intros Hr; try discriminate Hr; eauto.
Qed.

Lemma create_falls_back self c uuid4 utcnow request e c' :
  db self = Some c ->
  document_set (collection_name self) uuid4 (new_profile uuid4 utcnow request) c
    = (Raises e, c') ->
  create_user_profile uuid4 utcnow request self =
    (Returns (new_profile uuid4 utcnow request),
     mkService (collection_name self)
       (PyDict.set uuid4 (new_profile uuid4 utcnow request) (_memory_store self))
       None
       (logged self ++
          [(WARNING, "Firestore operation failed, falling back to memory store: "
                       +:+ str_exn e);
           (INFO, "Created user profile: " +:+ uuid4)])).
Proof.
  intros Hdb Hset. in_memory self Hdb. simpl in Hset.
  exec. rewrite Hset. cbn. by rewrite <- app_assoc.
Qed.

(** ** The service with a database *)

Lemma flag_ok_iff p :
  flag_ok p <-> UserProfile.profile_complete p = _is_profile_complete_from_profile p.
Proof.
  unfold flag_ok. rewrite <- complete_iff.
  destruct (UserProfile.profile_complete p), (_is_profile_complete_from_profile p);
    intuition congruence.
Qed.

Lemma flag_ok_new uuid4 utcnow request : flag_ok (new_profile uuid4 utcnow request).
Proof. apply flag_ok_iff. apply created_complete. Qed.

Lemma flag_ok_update request utcnow p :
  flag_ok p -> flag_ok (UpdateData.apply (update_data_of request utcnow p) p).
Proof. rewrite !flag_ok_iff. apply updated_complete. Qed.

Lemma flag_ok_touch utcnow p :
  flag_ok p -> flag_ok (UpdateData.apply (last_active_update utcnow) p).
Proof. rewrite !flag_ok_iff. by destruct p. Qed.

(** What each operation does with a database. *)
Lemma create_on_database self c uuid4 utcnow request :
  db self = Some c ->
  create_user_profile uuid4 utcnow request self =
    let profile := new_profile uuid4 utcnow request in
    match document_set (collection_name self) uuid4 profile c with
    | (Returns _, c') =>
        (Returns profile,
         log_to INFO ("Created user profile: " +:+ uuid4) (set_db (Some c') self))
    | (Raises e, c') =>
        (Returns profile,
         mkService (collection_name self)
           (PyDict.set uuid4 profile (_memory_store self)) None
           (logged self ++
              [(WARNING, "Firestore operation failed, falling back to memory store: "
                           +:+ str_exn e);
               (INFO, "Created user profile: " +:+ uuid4)]))
    end.
Proof.
  intros Hdb. cbv zeta.
  destruct (document_set (collection_name self) uuid4 (new_profile uuid4 utcnow request) c)
    as [[[]|e] c'] eqn:Hset.
  - in_memory self Hdb. simpl in Hset. exec. by rewrite Hset.
  - exact (create_falls_back self c uuid4 utcnow request e c' Hdb Hset).
Qed.

Lemma get_on_database self c user_id :
  db self = Some c ->
  get_user_profile user_id self =
    match document_get (collection_name self) user_id c with
    | (Returns doc, c') => (Returns doc, set_db (Some c') self)
    | (Raises e, c') =>
        (Returns None,
         log_to ERROR ("Error getting user profile " +:+ user_id +:+ ": " +:+ str_exn e)
           (set_db (Some c') self))
    end.
Proof.
  intros Hdb. in_memory self Hdb. exec.
  by destruct (document_get coll user_id c) as [[[p|]|e] c'].
Qed.

Lemma touch_on_database self c user_id utcnow :
  db self = Some c ->
  update_last_active user_id utcnow self =
    match document_update (collection_name self) user_id (last_active_update utcnow) c with
    | (Returns _, c') => (Returns true, set_db (Some c') self)
    | (Raises e, c') =>
        (Returns false,
         log_to ERROR ("Error updating last active for " +:+ user_id +:+ ": " +:+ str_exn e)
           (set_db (Some c') self))
    end.
Proof.
  intros Hdb. in_memory self Hdb. exec. unfold last_active_update.
  by destruct (document_update coll user_id _ c) as [[[]|e] c'].
Qed.

Lemma list_on_database self c limit offset :
  db self = Some c ->
  list_user_profiles limit offset self =
    match query_stream (collection_name self) offset limit c with
    | (Returns docs, c') =>
        (Returns (_create_profile_summary <$> docs), set_db (Some c') self)
    | (Raises e, c') =>
        (Returns [],
         log_to ERROR ("Error listing user profiles: " +:+ str_exn e) (set_db (Some c') self))
    end.
Proof.
  intros Hdb. in_memory self Hdb. exec.
  by destruct (query_stream coll offset limit c) as [[docs|e] c'].
Qed.

(** [inject_user_context] with a database: one read, and after a read that
    answers with a profile one write, of [last_active] alone, whose failure
    does not stop the injection. *)
Lemma inject_on_database turn c user_id a s :
  db (user_profile_service turn) = Some c ->
  inject_user_context user_id a s turn =
    let self := user_profile_service turn in
    match document_get (collection_name self) user_id c with
    | (Returns (Some p), c1) =>
        match document_update (collection_name self) user_id (last_active_update a) c1 with
        | (Returns _, c2) =>
            (Returns true,
             mkTurn (log_to INFO ("Injected user context for user_id: " +:+ user_id)
                       (set_db (Some c2) self))
                    (injected user_id s p (session turn)))
        | (Raises e, c2) =>
            (Returns true,
             mkTurn (log_to INFO ("Injected user context for user_id: " +:+ user_id)
                       (log_to ERROR ("Error updating last active for " +:+ user_id +:+ ": "
                                        +:+ str_exn e)
                          (set_db (Some c2) self)))
                    (injected user_id s p (session turn)))
        end
    | (Returns None, c1) =>
        (Returns false,
         mkTurn (log_to WARNING ("No user profile found for user_id: " +:+ user_id)
                   (set_db (Some c1) self))
                (session turn))
    | (Raises e, c1) =>
        (Returns false,
         mkTurn (log_to WARNING ("No user profile found for user_id: " +:+ user_id)
                   (log_to ERROR ("Error getting user profile " +:+ user_id +:+ ": "
                                    +:+ str_exn e)
                      (set_db (Some c1) self)))
                (session turn))
    end.
Proof.
  intros Hdb. cbv zeta. destruct turn as [self s0]. simpl in *.
  pose proof (get_on_database self c user_id Hdb) as Hget.
  destruct (document_get (collection_name self) user_id c) as [[[p|]|e] c1].
  - rewrite (inject_resolved (mkTurn self s0) _ a s _ _ Hget). cbn [session].
    rewrite (touch_on_database (set_db (Some c1) self) c1 user_id a eq_refl).
    cbn [collection_name set_db].
    by destruct (document_update (collection_name self) user_id _ c1) as [[[]|e] c2].
  - by rewrite (inject_unresolved (mkTurn self s0) _ a s _ Hget).
  - by rewrite (inject_unresolved (mkTurn self s0) _ a s _ Hget).
Qed.

Lemma update_on_database self c user_id request utcnow :
  db self = Some c ->
  update_user_profile user_id request utcnow self =
    match document_get (collection_name self) user_id c with
    | (Returns (Some p), c1) =>
        match document_update (collection_name self) user_id
                (update_data_of request utcnow p) c1 with
        | (Returns _, c2) => get_user_profile user_id (set_db (Some c2) self)
        | (Raises e, c2) =>
            (Returns None,
             log_to ERROR ("Error updating user profile " +:+ user_id +:+ ": " +:+ str_exn e)
               (set_db (Some c2) self))
        end
    | (Returns None, c1) => (Returns None, set_db (Some c1) self)
    | (Raises e, c1) =>
        (Returns None,
         log_to ERROR ("Error getting user profile " +:+ user_id +:+ ": " +:+ str_exn e)
           (set_db (Some c1) self))
    end.
Proof.
  intros Hdb. in_memory self Hdb. exec.
  destruct (document_get coll user_id c) as [[[p|]|e] c1]; cbn; [|done|done].
  destruct (document_update coll user_id _ c1) as [[[]|e] c2]; cbn; [|done].
  by destruct (document_get coll user_id c2) as [[[q|]|e] c3].
Qed.

Lemma delete_on_database self c user_id :
  db self = Some c ->
  delete_user_profile user_id self =
    match document_get (collection_name self) user_id c with
    | (Returns (Some _), c1) =>
        match document_delete (collection_name self) user_id c1 with
        | (Returns _, c2) =>
            (Returns true,
             log_to INFO ("Deleted user profile: " +:+ user_id) (set_db (Some c2) self))
        | (Raises e, c2) =>
            (Returns false,
             log_to ERROR ("Error deleting user profile " +:+ user_id +:+ ": " +:+ str_exn e)
               (set_db (Some c2) self))
        end
    | (Returns None, c1) => (Returns false, set_db (Some c1) self)
    | (Raises e, c1) =>
        (Returns false,
         log_to ERROR ("Error deleting user profile " +:+ user_id +:+ ": " +:+ str_exn e)
           (set_db (Some c1) self))
    end.
Proof.
  intros Hdb. in_memory self Hdb. exec.
  destruct (document_get coll user_id c) as [[[p|]|e] c1]; cbn; [|done|done].
  by destruct (document_delete coll user_id c1) as [[[]|e] c2].
Qed.

(** ** A database that keeps what it is told *)

Lemma lookup_documents documents self c user_id p :
  faithful documents -> db self = Some c ->
  (get_user_profile user_id self).1 = Returns (Some p) ->
  PyDict.get user_id (documents c) = Some p.
Proof.
  intros Hf Hdb. rewrite (get_on_database self c user_id Hdb).
  destruct (document_get (collection_name self) user_id c) as [[d|e] c1] eqn:E; [|done].
  destruct (faithful_get documents Hf _ _ _ _ _ E) as [_ Hd].
  cbn. intros [= ->]. symmetry. by apply Hd.
Qed.

(** A property of documents that creation establishes and that the updates
    sent keep holds of every document after a call, if it held before. *)
Lemma call_documents_forall (P : UserProfile.t -> Prop) documents o self :
  faithful documents ->
  (forall u t r, P (new_profile u t r)) ->
  (forall r t p, P p -> P (UpdateData.apply (update_data_of r t p) p)) ->
  (forall t p, P p -> P (UpdateData.apply (last_active_update t) p)) ->
  (forall c, db self = Some c -> forall k p, (k, p) ∈ documents c -> P p) ->
  forall c', db (call o self).2 = Some c' -> forall k p, (k, p) ∈ documents c' -> P p.
Proof.
  intros Hf Hnew Hupd Htouch Hall.
  destruct (db self) as [c|] eqn:Hdb.
  2: { intros c' Hc'. by rewrite (call_keeps_memory o self Hdb) in Hc'. }
  specialize (Hall c eq_refl).
  assert (Hset : forall k v d, (forall k p, (k, p) ∈ d -> P p) -> P v ->
            forall k' p, (k', p) ∈ PyDict.set k v d -> P p).
  { intros k v d Hd Hv k' p [[= -> ->]|Hin]%elem_set; [done | by eapply Hd]. }
  assert (Hdel : forall k d, (forall k p, (k, p) ∈ d -> P p) ->
            forall k' p, (k', p) ∈ PyDict.del k d -> P p).
  { intros k d Hd k' p Hin%elem_del. by eapply Hd. }
  destruct o; unfold call, bind, ret.
  - rewrite (create_on_database self c _ _ _ Hdb). cbv zeta.
    destruct (document_set _ _ _ c) as [[[]|e] c1] eqn:E; cbn; [|done].
    intros c' [= <-]. rewrite (faithful_set documents Hf _ _ _ _ _ _ E).
    by apply Hset.
  - rewrite (get_on_database self c _ Hdb).
    destruct (document_get _ _ c) as [[d|e] c1] eqn:E; cbn; intros c' [= <-];
      by destruct (faithful_get documents Hf _ _ _ _ _ E) as [-> _].
  - rewrite (update_on_database self c _ _ _ Hdb).
    destruct (document_get _ _ c) as [[[q|]|e] c1] eqn:E; cbn;
      destruct (faithful_get documents Hf _ _ _ _ _ E) as [E1 Hq];
      try (intros c' [= <-]; by rewrite E1).
    specialize (Hq _ eq_refl). symmetry in Hq.
    destruct (document_update _ _ _ c1) as [[[]|e] c2] eqn:E2;
      pose proof (faithful_update documents Hf _ _ _ _ _ _ E2) as Hu; cbn in *.
    + destruct Hu as (d & Hd & E3). rewrite E1, Hq in Hd. injection Hd as <-.
      rewrite (get_on_database (set_db (Some c2) self) c2 _ eq_refl).
      destruct (document_get _ _ c2) as [[d|e] c3] eqn:E4; cbn; intros c' [= <-];
        destruct (faithful_get documents Hf _ _ _ _ _ E4) as [-> _];
        rewrite E3, E1; (apply Hset; [done|]); apply Hupd;
        by apply (Hall user_id), get_Some_elem.
    + intros c' [= <-]. by rewrite Hu, E1.
  - rewrite (delete_on_database self c _ Hdb).
    destruct (document_get _ _ c) as [[[q|]|e] c1] eqn:E; cbn;
      destruct (faithful_get documents Hf _ _ _ _ _ E) as [E1 _];
      try (intros c' [= <-]; by rewrite E1).
    destruct (document_delete _ _ c1) as [[[]|e] c2] eqn:E2;
      pose proof (faithful_delete documents Hf _ _ _ _ _ E2) as Hd; cbn in *;
      intros c' [= <-]; rewrite Hd, E1; [by apply Hdel | done].
  - rewrite (list_on_database self c _ _ Hdb).
    destruct (query_stream _ _ _ c) as [[docs|e] c1] eqn:E; cbn; intros c' [= <-];
      by rewrite (faithful_query documents Hf _ _ _ _ _ _ E).
  - rewrite (touch_on_database self c _ _ Hdb).
    destruct (document_update _ _ _ c) as [[[]|e] c1] eqn:E;
      pose proof (faithful_update documents Hf _ _ _ _ _ _ E) as Hu; cbn in *;
      intros c' [= <-].
    + destruct Hu as (d & Hd & ->). apply Hset; [done|]. apply Htouch.
      by apply (Hall user_id), get_Some_elem.
    + by rewrite Hu.
Qed.

Lemma run_documents_forall (P : UserProfile.t -> Prop) documents ops self :
  faithful documents ->
  (forall u t r, P (new_profile u t r)) ->
  (forall r t p, P p -> P (UpdateData.apply (update_data_of r t p) p)) ->
  (forall t p, P p -> P (UpdateData.apply (last_active_update t) p)) ->
  (forall c, db self = Some c -> forall k p, (k, p) ∈ documents c -> P p) ->
  forall c', db (run ops self) = Some c' -> forall k p, (k, p) ∈ documents c' -> P p.
Proof.
  intros Hf Hnew Hupd Htouch. revert self.
  induction ops as [|o ops IH]; intros self Hall; [exact Hall|].
  rewrite run_cons. apply IH. by apply call_documents_forall.
Qed.

(** What an injection leaves in a faithful database: the documents as they
    were, or the document of the user with a new [last_active]. *)
Lemma inject_documents documents turn c user_id a s :
  faithful documents -> db (user_profile_service turn) = Some c ->
  exists c',
    db (user_profile_service (inject_user_context user_id a s turn).2) = Some c' ∧
    (documents c' = documents c ∨
     exists p,
       PyDict.get user_id (documents c) = Some p ∧
       (inject_user_context user_id a s turn).1 = Returns true ∧
       documents c' = PyDict.set user_id (with_last_active (Some a) p) (documents c)).
Proof.
  intros Hf Hdb. rewrite (inject_on_database turn c user_id a s Hdb). cbv zeta.
  destruct (document_get _ _ c) as [[[p|]|e] c1] eqn:E;
    destruct (faithful_get documents Hf _ _ _ _ _ E) as [E1 Hp];
    try (eexists; split; [reflexivity|]; by left).
  specialize (Hp _ eq_refl). symmetry in Hp.
  destruct (document_update _ _ _ c1) as [[[]|e] c2] eqn:E2;
    pose proof (faithful_update documents Hf _ _ _ _ _ _ E2) as Hu; cbn in Hu;
    (eexists; split; [reflexivity|]).
  - right. destruct Hu as (d & Hd & ->). rewrite E1, Hp in Hd. injection Hd as <-.
    exists p. by rewrite E1.
  - left. by rewrite Hu.
Qed.

Lemma same_content_context q p :
  same_content q p -> _create_personalized_context q = _create_personalized_context p.
Proof. intros (? & ? & ? & ?). by apply context_depends_on_four_fields. Qed.

Lemma same_content_touch t p : same_content (with_last_active t p) p.
Proof. by repeat split. Qed.

(** * The claims *)

(** C1. Every stored profile has [profile_complete] true exactly when its
    [basic_info] has a non-empty name, email, nationality and home location
    and one of the three travel-interest lists or of the three accessibility
    fields is non-empty. In the in-memory store this holds of every record
    after any sequence of calls (create, get, update, delete, list, touch of
    [last_active]; over any database, whatever it answers). With a database:
    the document that a creation writes has the property; the update that
    [update_user_profile] sends, merged into the document it read, and the
    update that [update_last_active] sends keep it; so in a database that
    keeps what it is told, and whose documents had the property when the
    service was constructed, every document has it after any sequence of
    calls. *)
Theorem profile_complete_invariant getenv records ops :
  let self := run ops (__init__ getenv records) in
  (forall user_id p,
     PyDict.get user_id (_memory_store self) = Some p ->
     UserProfile.profile_complete p = true <-> complete_by_spec p) ∧
  (forall (s : UserProfileService C) c uuid4 utcnow request,
     db s = Some c ->
     let profile := new_profile uuid4 utcnow request in
     flag_ok profile ∧
     create_user_profile uuid4 utcnow request s =
       match document_set (collection_name s) uuid4 profile c with
       | (Returns _, c') =>
           (Returns profile,
            log_to INFO ("Created user profile: " +:+ uuid4) (set_db (Some c') s))
       | (Raises e, c') =>
           (Returns profile,
            mkService (collection_name s)
              (PyDict.set uuid4 profile (_memory_store s)) None
              (logged s ++
                 [(WARNING, "Firestore operation failed, falling back to memory store: "
                              +:+ str_exn e);
                  (INFO, "Created user profile: " +:+ uuid4)]))
       end) ∧
  (forall request utcnow p,
     flag_ok p -> flag_ok (UpdateData.apply (update_data_of request utcnow p) p)) ∧
  (forall utcnow p,
     flag_ok p -> flag_ok (UpdateData.apply (last_active_update utcnow) p)) ∧
  (forall documents,
     faithful documents ->
     (forall c0, db (__init__ getenv records) = Some c0 ->
        forall k p, (k, p) ∈ documents c0 -> flag_ok p) ->
     forall c user_id p,
       db self = Some c ->
       PyDict.get user_id (documents c) = Some p ->
       UserProfile.profile_complete p = true <-> complete_by_spec p).
Proof.
  cbv zeta. split; [|split; [|split; [|split]]].
  - intros user_id p Hget. rewrite <- complete_iff.
    destruct (store_ok_get _ _ _ (run_store_ok ops _ (init_store_ok getenv records)) Hget)
      as [_ ->].
    reflexivity.
  - intros s c uuid4 utcnow request Hdb. split; [apply flag_ok_new|].
    exact (create_on_database s c uuid4 utcnow request Hdb).
  - apply flag_ok_update.
  - apply flag_ok_touch.
  - intros documents Hf Hinit c user_id p Hdb Hget%get_Some_elem.
    apply (run_documents_forall flag_ok documents ops _ Hf flag_ok_new
             flag_ok_update flag_ok_touch Hinit c Hdb user_id p Hget).
Qed.

(** C2. Updating an existing profile merges exactly the sub-objects present
    in the request. On the in-memory store the call returns and stores the
    old record with those sub-objects replaced: [user_id], [created_at],
    [last_active], [onboarding_completed], [travel_history],
    [learned_preferences] and every sub-object absent from the request are
    unchanged, [updated_at] is the time of the call, [profile_complete] is
    recomputed when [basic_info], [travel_interests] or
    [accessibility_profile] is part of the request and kept otherwise, and no
    other record moves or changes. On the database the call sends an update
    with the request's sub-objects, [updated_at] and, under the same
    condition, the recomputed flag, and nothing else, and returns what the
    database then reads. *)
Theorem update_merges_only_the_request self user_id request utcnow p :
  (_use_memory_store self = true ->
   PyDict.get user_id (_memory_store self) = Some p ->
   exists p',
     update_user_profile user_id request utcnow self
       = (Returns (Some p'), set_memory_store (PyDict.set user_id p') self) ∧
     PyDict.get user_id (PyDict.set user_id p' (_memory_store self)) = Some p' ∧
     (forall other, other ≠ user_id ->
        PyDict.get other (PyDict.set user_id p' (_memory_store self))
        = PyDict.get other (_memory_store self)) ∧
     PyDict.keys (PyDict.set user_id p' (_memory_store self))
       = PyDict.keys (_memory_store self) ∧
     UserProfile.user_id p' = UserProfile.user_id p ∧
     UserProfile.created_at p' = UserProfile.created_at p ∧
     UserProfile.last_active p' = UserProfile.last_active p ∧
     UserProfile.onboarding_completed p' = UserProfile.onboarding_completed p ∧
     UserProfile.travel_history p' = UserProfile.travel_history p ∧
     UserProfile.learned_preferences p' = UserProfile.learned_preferences p ∧
     UserProfile.basic_info p'
       = default (UserProfile.basic_info p) (UpdateUserProfileRequest.basic_info request) ∧
     UserProfile.travel_interests p'
       = default (UserProfile.travel_interests p)
           (UpdateUserProfileRequest.travel_interests request) ∧
     UserProfile.accessibility_profile p'
       = default (UserProfile.accessibility_profile p)
           (UpdateUserProfileRequest.accessibility_profile request) ∧
     UserProfile.preferences p'
       = default (UserProfile.preferences p) (UpdateUserProfileRequest.preferences request) ∧
     UserProfile.updated_at p' = utcnow ∧
     UserProfile.profile_complete p'
       = if is_not_None (UpdateUserProfileRequest.basic_info request)
            || is_not_None (UpdateUserProfileRequest.travel_interests request)
            || is_not_None (UpdateUserProfileRequest.accessibility_profile request)
         then _is_profile_complete_from_profile p'
         else UserProfile.profile_complete p) ∧
  (forall c c1,
     db self = Some c ->
     document_get (collection_name self) user_id c = (Returns (Some p), c1) ->
     let ud := update_data_of request utcnow p in
     update_user_profile user_id request utcnow self =
       match document_update (collection_name self) user_id ud c1 with
       | (Returns _, c2) => get_user_profile user_id (set_db (Some c2) self)
       | (Raises e, c2) =>
           (Returns None,
            log_to ERROR ("Error updating user profile " +:+ user_id +:+ ": " +:+ str_exn e)
              (set_db (Some c2) self))
       end ∧
     UpdateData.basic_info ud = UpdateUserProfileRequest.basic_info request ∧
     UpdateData.travel_interests ud = UpdateUserProfileRequest.travel_interests request ∧
     UpdateData.accessibility_profile ud = UpdateUserProfileRequest.accessibility_profile request ∧
     UpdateData.preferences ud = UpdateUserProfileRequest.preferences request ∧
     UpdateData.updated_at ud = Some utcnow ∧
     UpdateData.last_active ud = None ∧
     UpdateData.profile_complete ud
       = if is_not_None (UpdateUserProfileRequest.basic_info request)
            || is_not_None (UpdateUserProfileRequest.travel_interests request)
            || is_not_None (UpdateUserProfileRequest.accessibility_profile request)
         then Some (_is_profile_complete_from_profile (UpdateData.apply ud p))
         else None).
Proof.
  split.
  - intros Hdb%use_memory_db Hget.
    exists (UpdateData.apply (update_data_of request utcnow p) p).
    split; [by rewrite update_memory, Hget|].
    split; [apply get_set_eq|].
    split; [intros other Hne; by apply get_set_ne|].
    split; [eapply set_present_same; [done | apply updated_birth]|].
    by destruct request as [[b|] [ti|] [ap|] [pr|]].
  - intros c c1 Hdb Hget ud. split.
    + in_memory self Hdb. simpl in Hget. exec. rewrite Hget. cbn.
      fold ud. destruct (document_update coll user_id ud c1) as [[[]|e] c2]; cbn; [|done].
      destruct (document_get coll user_id c2) as [[[q|]|e] c3]; reflexivity.
    + subst ud. by destruct request as [[b|] [ti|] [ap|] [pr|]].
Qed.

(** C3. When the lookup of [user_id] yields no profile (it is not stored, or
    the database failed), [inject_user_context] returns [False], leaves the
    session and the in-memory store as they were, and
    [get_user_context_from_session] answers afterwards what it answered
    before; in particular it still answers [None] if it did. *)
Theorem inject_unknown_user_is_inert turn user_id utcnow_active utcnow_stamp :
  (get_user_profile user_id (user_profile_service turn)).1 = Returns None ->
  let '(r, turn') := inject_user_context user_id utcnow_active utcnow_stamp turn in
  r = Returns false ∧
  session turn' = session turn ∧
  _memory_store (user_profile_service turn') = _memory_store (user_profile_service turn) ∧
  (get_user_context_from_session turn').1 = (get_user_context_from_session turn).1 ∧
  ((get_user_context_from_session turn).1 = Returns None ->
   (get_user_context_from_session turn').1 = Returns None).
Proof.
  intros Hget.
  pose proof (get_keeps_memory_store (user_profile_service turn) user_id) as Hstore.
  destruct (get_user_profile user_id (user_profile_service turn)) as [r self1] eqn:E.
  simpl in Hget, Hstore. subst r.
  rewrite (inject_unresolved _ _ utcnow_active utcnow_stamp _ E).
  rewrite !get_context_pure. cbn.
  repeat split; done.
Qed.

(** C4 (amended). The service runs on its in-memory store from the moment the
    construction of the client raises, or a write of [create_user_profile]
    raises; from then on it stays there through every call of the profile
    service and of the context service. No other call falls back: after any
    call but a creation, a service that had a database still has it, whatever
    that call raised. *)
Theorem fallback_is_permanent :
  (forall getenv records e,
     connect getenv = Raises e -> _use_memory_store (__init__ getenv records) = true) ∧
  (forall self c uuid4 utcnow request e c',
     db self = Some c ->
     document_set (collection_name self) uuid4 (new_profile uuid4 utcnow request) c
       = (Raises e, c') ->
     let '(r, self') := create_user_profile uuid4 utcnow request self in
     r = Returns (new_profile uuid4 utcnow request) ∧
     _use_memory_store self' = true ∧
     _memory_store self'
       = PyDict.set uuid4 (new_profile uuid4 utcnow request) (_memory_store self)) ∧
  (forall self ops,
     _use_memory_store self = true -> _use_memory_store (run ops self) = true) ∧
  (forall turn user_id utcnow_active utcnow_stamp,
     _use_memory_store (user_profile_service turn) = true ->
     _use_memory_store
       (user_profile_service
          (inject_user_context user_id utcnow_active utcnow_stamp turn).2) = true) ∧
  (forall self c o,
     db self = Some c -> (forall u t r, o ≠ Create u t r) ->
     _use_memory_store (call o self).2 = false).
Proof.
  split; [|split; [|split; [|split]]].
  - intros getenv records e He. unfold __init__. by rewrite He.
  - intros self c uuid4 utcnow request e c' Hdb Hset.
    by rewrite (create_falls_back _ _ _ _ _ _ _ Hdb Hset).
  - intros self ops. rewrite !use_memory_db. apply run_keeps_memory.
  - intros turn user_id a s. rewrite !use_memory_db. apply inject_keeps_memory.
  - intros self c o Hdb Ho. destruct (call_keeps_db o self c Hdb Ho) as [c' Hc'].
    unfold _use_memory_store. by rewrite Hc'.
Qed.

(** C5 (amended). No call of the profile service and no call of the context
    service raises, over any database. When a call of the database raises
    during get, update, delete, list or the touch of [last_active], the
    operation logs one error and returns [None], [False] or [[]]. When the
    write of a creation raises, the creation logs a warning, stores the
    profile in memory instead and returns it. When the lookup of an injection
    raises, the profile service logs the error and the injection returns
    [False] and leaves the session alone; when the touch of [last_active]
    that follows an answered lookup raises, the profile service logs the
    error and the injection still writes the context and returns [True]. *)
Theorem storage_exceptions_are_absorbed :
  (forall self o, exists r, (call o self).1 = Returns r) ∧
  (forall turn user_id utcnow_active utcnow_stamp,
     exists b, (inject_user_context user_id utcnow_active utcnow_stamp turn).1 = Returns b) ∧
  (forall turn, exists r, (get_user_context_from_session turn).1 = Returns r) ∧
  (forall (self : UserProfileService (Monitored.t C)) c o m',
     db self = Some (Monitored.mk c false) ->
     (forall u t r, o ≠ Create u t r) ->
     db (call o self).2 = Some m' ->
     Monitored.raised m' = true ->
     exists r msg,
       (call o self).1 = Returns r ∧ negative r = true ∧
       logged (call o self).2 = (logged self ++ [(ERROR, msg)])%list) ∧
  (forall self c uuid4 utcnow request e c',
     db self = Some c ->
     document_set (collection_name self) uuid4 (new_profile uuid4 utcnow request) c
       = (Raises e, c') ->
     create_user_profile uuid4 utcnow request self =
       (Returns (new_profile uuid4 utcnow request),
        mkService (collection_name self)
          (PyDict.set uuid4 (new_profile uuid4 utcnow request) (_memory_store self))
          None
          (logged self ++
             [(WARNING, "Firestore operation failed, falling back to memory store: "
                          +:+ str_exn e);
              (INFO, "Created user profile: " +:+ uuid4)]))) ∧
  (forall turn c user_id utcnow_active utcnow_stamp e c',
     let self := user_profile_service turn in
     db self = Some c ->
     document_get (collection_name self) user_id c = (Raises e, c') ->
     inject_user_context user_id utcnow_active utcnow_stamp turn =
       (Returns false,
        mkTurn
          (mkService (collection_name self) (_memory_store self) (Some c')
             (logged self ++
                [(ERROR, "Error getting user profile " +:+ user_id +:+ ": " +:+ str_exn e);
                 (WARNING, "No user profile found for user_id: " +:+ user_id)]))
          (session turn))) ∧
  (forall turn c user_id utcnow_active utcnow_stamp p c1 e c2,
     let self := user_profile_service turn in
     db self = Some c ->
     document_get (collection_name self) user_id c = (Returns (Some p), c1) ->
     document_update (collection_name self) user_id (last_active_update utcnow_active) c1
       = (Raises e, c2) ->
     inject_user_context user_id utcnow_active utcnow_stamp turn =
       (Returns true,
        mkTurn
          (mkService (collection_name self) (_memory_store self) (Some c2)
             (logged self ++
                [(ERROR, "Error updating last active for " +:+ user_id +:+ ": "
                           +:+ str_exn e);
                 (INFO, "Injected user context for user_id: " +:+ user_id)]))
          (injected user_id utcnow_stamp p (session turn)))).
Proof.
  split; [|split; [|split; [|split; [|split; [|split]]]]].
  - intros self o. apply call_returns.
  - intros turn user_id a s. apply inject_returns.
  - intros turn. rewrite get_context_pure. eauto.
  - apply watched_call_absorbs.
  - apply create_falls_back.
  - intros turn c user_id a s e c' self Hdb Hget.
    rewrite (inject_on_database turn c user_id a s Hdb). cbv zeta. fold self.
    rewrite Hget. unfold log_to, set_db. cbn. by rewrite <- app_assoc.
  - intros turn c user_id a s p c1 e c2 self Hdb Hget Hupd.
    rewrite (inject_on_database turn c user_id a s Hdb). cbv zeta. fold self.
    rewrite Hget, Hupd. unfold log_to, set_db. cbn. by rewrite <- app_assoc.
Qed.

(** C6. When the lookup of [user_id] yields a profile whose [mobility_needs]
    is [["wheelchair_accessible"]], [inject_user_context] returns [True] and
    the context read back from the session has
    [personalized_context.accessibility_summary.has_mobility_needs] true and
    an instruction string for ["planning_agent"] that contains
    ["wheelchair_accessible"]. *)
Theorem injected_context_reflects_mobility_needs
    turn user_id utcnow_active utcnow_stamp p :
  (get_user_profile user_id (user_profile_service turn)).1 = Returns (Some p) ->
  AccessibilityProfile.mobility_needs (UserProfile.accessibility_profile p)
    = ["wheelchair_accessible"] ->
  let '(r, turn') := inject_user_context user_id utcnow_active utcnow_stamp turn in
  r = Returns true ∧
  exists ctx c s,
    (get_user_context_from_session turn').1 = Returns (Some ctx) ∧
    UserContext.personalized_context ctx = Some (SContext c) ∧
    AccessibilitySummary.has_mobility_needs
      (PersonalizedContext.accessibility_summary c) = true ∧
    PyDict.get "planning_agent" (PersonalizedContext.personalized_instructions c) = Some s ∧
    py_in "wheelchair_accessible" s = true.
Proof.
  intros Hget Hm.
  destruct (get_user_profile user_id (user_profile_service turn)) as [r self1] eqn:E.
  simpl in Hget. subst r.
  rewrite (inject_resolved _ _ utcnow_active utcnow_stamp _ _ E).
  split; [reflexivity|].
  destruct (planning_mentions_mobility p _ Hm) as (s & Hs & Hin).
  rewrite get_context_pure. cbn [fst session].
  destruct (injected_lookup user_id utcnow_stamp p (session turn))
    as (-> & -> & -> & -> & ->).
  eexists _, (_create_personalized_context p), s.
  split; [reflexivity|]. cbn. rewrite Hm. done.
Qed.

(** C7 (amended). Reading the context back from a session changes nothing at
    all. Injecting a context changes no field of any stored record but
    [last_active] of the injected user's record. On the in-memory store the
    records keep their places and that [last_active] becomes the time of the
    call. With a database the injection makes one read and, after a read
    that answers with a profile, one write, an update of [last_active]
    alone, and it returns [True] whether or not that write raised; in a
    database that keeps what it is told the documents keep their places and
    every field but that [last_active], which becomes the time of the call
    when the write is answered and stays as it was when the write raises. *)
Theorem context_service_only_touches_last_active
    turn user_id utcnow_active utcnow_stamp :
  let turn' := (inject_user_context user_id utcnow_active utcnow_stamp turn).2 in
  (get_user_context_from_session turn).2 = turn ∧
  (forall k p,
     _use_memory_store (user_profile_service turn) = true ->
     PyDict.get k (_memory_store (user_profile_service turn)) = Some p ->
     PyDict.keys (_memory_store (user_profile_service turn'))
       = PyDict.keys (_memory_store (user_profile_service turn)) ∧
     exists p',
       PyDict.get k (_memory_store (user_profile_service turn')) = Some p' ∧
       p' = with_last_active (UserProfile.last_active p') p ∧
       (k ≠ user_id -> p' = p) ∧
       (k = user_id -> UserProfile.last_active p' = Some utcnow_active)) ∧
  (forall c,
     let self := user_profile_service turn in
     db self = Some c ->
     inject_user_context user_id utcnow_active utcnow_stamp turn =
       match document_get (collection_name self) user_id c with
       | (Returns (Some p), c1) =>
           match document_update (collection_name self) user_id
                   (last_active_update utcnow_active) c1 with
           | (Returns _, c2) =>
               (Returns true,
                mkTurn (log_to INFO ("Injected user context for user_id: " +:+ user_id)
                          (set_db (Some c2) self))
                       (injected user_id utcnow_stamp p (session turn)))
           | (Raises e, c2) =>
               (Returns true,
                mkTurn (log_to INFO ("Injected user context for user_id: " +:+ user_id)
                          (log_to ERROR ("Error updating last active for " +:+ user_id
                                           +:+ ": " +:+ str_exn e)
                             (set_db (Some c2) self)))
                       (injected user_id utcnow_stamp p (session turn)))
           end
       | (Returns None, c1) =>
           (Returns false,
            mkTurn (log_to WARNING ("No user profile found for user_id: " +:+ user_id)
                      (set_db (Some c1) self))
                   (session turn))
       | (Raises e, c1) =>
           (Returns false,
            mkTurn (log_to WARNING ("No user profile found for user_id: " +:+ user_id)
                      (log_to ERROR ("Error getting user profile " +:+ user_id +:+ ": "
                                       +:+ str_exn e)
                         (set_db (Some c1) self)))
                   (session turn))
       end) ∧
  (forall documents c,
     faithful documents ->
     db (user_profile_service turn) = Some c ->
     exists c',
       db (user_profile_service turn') = Some c' ∧
       PyDict.keys (documents c') = PyDict.keys (documents c) ∧
       forall k p,
         PyDict.get k (documents c) = Some p ->
         exists p',
           PyDict.get k (documents c') = Some p' ∧
           p' = with_last_active (UserProfile.last_active p') p ∧
           (k ≠ user_id -> p' = p) ∧
           (k = user_id -> UserProfile.last_active p' = Some utcnow_active ∨ p' = p)) ∧
  (forall documents c r1 c1,
     let self := user_profile_service turn in
     faithful documents ->
     db self = Some c ->
     document_get (collection_name self) user_id c = (r1, c1) ->
     match r1 with
     | Returns (Some p) =>
         forall r2 c2,
           document_update (collection_name self) user_id
             (last_active_update utcnow_active) c1 = (r2, c2) ->
           db (user_profile_service turn') = Some c2 ∧
           PyDict.get user_id (documents c) = Some p ∧
           documents c2
             = match r2 with
               | Returns _ =>
                   PyDict.set user_id (with_last_active (Some utcnow_active) p) (documents c)
               | Raises _ => documents c
               end
     | _ => db (user_profile_service turn') = Some c1 ∧ documents c1 = documents c
     end).
Proof.
  cbv zeta. split; [by rewrite get_context_pure|]. split; [|split; [|split]].
  - intros k p Hdb%use_memory_db Hget.
    destruct turn as [self s]. simpl in *.
    destruct (PyDict.get user_id (_memory_store self)) as [q|] eqn:Hq.
    + rewrite (inject_resolved (mkTurn self s) _ utcnow_active utcnow_stamp q self)
        by (simpl; by rewrite get_memory, Hq).
      rewrite touch_memory, Hq by done. cbn.
      split; [by eapply set_present_same|].
      destruct (decide (k = user_id)) as [->|Hne].
      * rewrite get_set_eq. replace q with p by congruence.
        eexists. split; [reflexivity|]. by destruct p.
      * rewrite get_set_ne by done. exists p. by destruct p.
    + rewrite (inject_unresolved (mkTurn self s) _ utcnow_active utcnow_stamp self)
        by (simpl; by rewrite get_memory, Hq).
      cbn. split; [done|]. exists p. split; [done|]. split; [by destruct p|].
      split; [done|]. intros ->. congruence.
  - intros c Hdb. exact (inject_on_database turn c _ _ _ Hdb).
  - intros documents c Hf Hdb.
    destruct (inject_documents documents turn c user_id utcnow_active utcnow_stamp Hf Hdb)
      as (c' & Hc' & [Hsame|(q & Hq & _ & Hnew)]); exists c'; (split; [exact Hc'|]).
    + rewrite Hsame. split; [done|]. intros k p Hget. exists p.
      split; [done|]. split; [by destruct p|]. split; [done|]. by right.
    + rewrite Hnew. split; [by eapply set_present_same|].
      intros k p Hget. destruct (decide (k = user_id)) as [->|Hne].
      * rewrite get_set_eq. replace q with p by congruence.
        eexists. split; [reflexivity|]. split; [by destruct p|]. split; [done|].
        intros _. by left.
      * rewrite get_set_ne by done. exists p.
        split; [done|]. split; [by destruct p|]. done.
  - intros documents c r1 c1 Hf Hdb Hget.
    rewrite (inject_on_database turn c _ _ _ Hdb). cbv zeta. rewrite Hget.
    destruct (faithful_get documents Hf _ _ _ _ _ Hget) as [E1 Hp].
    destruct r1 as [[p|]|e]; [|done|done].
    intros r2 c2 Hupd. rewrite Hupd.
    specialize (Hp _ eq_refl). symmetry in Hp.
    pose proof (faithful_update documents Hf _ _ _ _ _ _ Hupd) as Hu.
    destruct r2 as [[]|e]; cbn.
    + split; [done|]. split; [done|].
      destruct Hu as (d & Hd & ->). rewrite E1, Hp in Hd. injection Hd as <-.
      by rewrite E1.
    + split; [done|]. split; [done|]. by rewrite Hu.
Qed.


(** C9 (amended). Every summary that [list_user_profiles] returns is the
    summary of a profile (of a stored one, on the in-memory store) whose
    [accessibility_needs_count] is the length of the concatenation of its
    mobility, sensory and cognitive needs, and whose
    [travel_interests_count] is the length of the concatenation of its
    destinations, activities and accommodation preferences: an entry that
    occurs twice counts twice. The counts are never below the numbers of
    distinct entries and equal them exactly when no entry repeats. *)
Theorem summary_counts_every_entry self limit offset summaries s :
  (list_user_profiles limit offset self).1 = Returns summaries ->
  s ∈ summaries ->
  exists p,
    s = _create_profile_summary p ∧
    (_use_memory_store self = true -> p ∈ PyDict.values (_memory_store self)) ∧
    let needs :=
      (AccessibilityProfile.mobility_needs (UserProfile.accessibility_profile p) ++
       AccessibilityProfile.sensory_needs (UserProfile.accessibility_profile p) ++
       AccessibilityProfile.cognitive_needs (UserProfile.accessibility_profile p))%list in
    let interests :=
      (TravelInterests.preferred_destinations (UserProfile.travel_interests p) ++
       TravelInterests.activity_interests (UserProfile.travel_interests p) ++
       TravelInterests.accommodation_preferences (UserProfile.travel_interests p))%list in
    UserProfileSummary.accessibility_needs_count s = len needs ∧
    UserProfileSummary.travel_interests_count s = len interests ∧
    distinct_count needs <= UserProfileSummary.accessibility_needs_count s ∧
    distinct_count interests <= UserProfileSummary.travel_interests_count s ∧
    (UserProfileSummary.accessibility_needs_count s = distinct_count needs <-> NoDup needs) ∧
    (UserProfileSummary.travel_interests_count s = distinct_count interests
     <-> NoDup interests).
Proof.
  intros Hlist Hin.
  assert (exists p, s = _create_profile_summary p ∧
            (_use_memory_store self = true -> p ∈ PyDict.values (_memory_store self)))
    as (p & -> & Hp).
  { destruct self as [coll store [c|] l]; revert Hlist; exec; split_db;
      intros [= <-]; try (by apply elem_of_nil in Hin);
      apply list_elem_of_fmap in Hin as (p & -> & Hin); exists p; split; try done.
    intros _. by apply elem_of_py_slice in Hin. }
  exists p. split; [done|]. split; [done|]. cbn.
  split; [done|]. split; [done|].
  split; [apply distinct_count_le|]. split; [apply distinct_count_le|].
  split; (etrans; [|apply distinct_count_NoDup]); split; congruence.
Qed.

(** C10 (amended). Two injections in a row for a user whose lookup yields a
    profile: the first returns [True]. On the in-memory store the second
    returns [True] too and leaves the session keys ["personalized_context"],
    ["user_id"] and ["context_injected"] as they were after the first. Over
    any database the same holds whenever the second lookup yields a profile
    with the content of the first; when the second lookup yields none, the
    second injection returns [False] and leaves the session as the first
    left it. In a database that keeps what it is told, the second lookup
    yields that content if it yields a profile, and yields none only when
    the read raised. The personalized context is the same for any two
    profiles that agree on [basic_info], [travel_interests],
    [accessibility_profile] and [preferences]. *)
Theorem inject_is_idempotent_on_context turn user_id a1 s1 a2 s2 p :
  (_use_memory_store (user_profile_service turn) = true ->
   PyDict.get user_id (_memory_store (user_profile_service turn)) = Some p ->
   let '(r1, turn1) := inject_user_context user_id a1 s1 turn in
   let '(r2, turn2) := inject_user_context user_id a2 s2 turn1 in
   r1 = Returns true ∧ r2 = Returns true ∧
   (forall key, key ∈ ["personalized_context"; "user_id"; "context_injected"] ->
      Session.state (session turn2) !! key = Session.state (session turn1) !! key) ∧
   Session.state (session turn2) !! "personalized_context"
     = Some (SContext (_create_personalized_context p)) ∧
   (forall q,
      UserProfile.basic_info q = UserProfile.basic_info p ->
      UserProfile.travel_interests q = UserProfile.travel_interests p ->
      UserProfile.accessibility_profile q = UserProfile.accessibility_profile p ->
      UserProfile.preferences q = UserProfile.preferences p ->
      _create_personalized_context q = _create_personalized_context p)) ∧
  ((get_user_profile user_id (user_profile_service turn)).1 = Returns (Some p) ->
   let '(r1, turn1) := inject_user_context user_id a1 s1 turn in
   r1 = Returns true ∧
   forall q,
     (get_user_profile user_id (user_profile_service turn1)).1 = Returns (Some q) ->
     same_content q p ->
     let '(r2, turn2) := inject_user_context user_id a2 s2 turn1 in
     r2 = Returns true ∧
     (forall key, key ∈ ["personalized_context"; "user_id"; "context_injected"] ->
        Session.state (session turn2) !! key = Session.state (session turn1) !! key) ∧
     Session.state (session turn2) !! "personalized_context"
       = Some (SContext (_create_personalized_context p))) ∧
  ((get_user_profile user_id (user_profile_service turn)).1 = Returns (Some p) ->
   let '(r1, turn1) := inject_user_context user_id a1 s1 turn in
   (get_user_profile user_id (user_profile_service turn1)).1 = Returns None ->
   let '(r2, turn2) := inject_user_context user_id a2 s2 turn1 in
   r2 = Returns false ∧
   session turn2 = session turn1 ∧
   Session.state (session turn2) !! "personalized_context"
     = Some (SContext (_create_personalized_context p))) ∧
  (forall documents c,
     faithful documents ->
     db (user_profile_service turn) = Some c ->
     (get_user_profile user_id (user_profile_service turn)).1 = Returns (Some p) ->
     let self1 := user_profile_service (inject_user_context user_id a1 s1 turn).2 in
     (forall q, (get_user_profile user_id self1).1 = Returns (Some q) -> same_content q p) ∧
     ((get_user_profile user_id self1).1 = Returns None ->
      exists c1 e c2,
        db self1 = Some c1 ∧
        document_get (collection_name self1) user_id c1 = (Raises e, c2))).
Proof.
  split; [|split; [|split]].
  - intros Hdb%use_memory_db Hget. destruct turn as [self s]. simpl in *.
    rewrite (inject_resolved (mkTurn self s) _ a1 s1 p self)
      by (simpl; by rewrite get_memory, Hget).
    rewrite touch_memory, Hget by done. cbn [snd].
    set (self1 := log_to _ _ _).
    assert (Hdb1 : db self1 = None) by done.
    assert (Hget1 : PyDict.get user_id (_memory_store self1)
                    = Some (with_last_active (Some a1) p)) by apply get_set_eq.
    rewrite (inject_resolved (mkTurn self1 _) _ a2 s2 (with_last_active (Some a1) p) self1)
      by (simpl; by rewrite get_memory, Hget1).
    split; [done|]. split; [done|].
    cbn [session].
    pose proof (injected_lookup user_id s1 p s) as (_ & Hu1 & Hi1 & _ & Hc1).
    pose proof (injected_lookup user_id s2 (with_last_active (Some a1) p)
                  (injected user_id s1 p s)) as (_ & Hu2 & Hi2 & _ & Hc2).
    cbv zeta in *.
    split; [|split; [exact Hc2 | apply context_depends_on_four_fields]].
    intros key Hkey.
    repeat (apply elem_of_cons in Hkey as [->|Hkey]); [..|by apply elem_of_nil in Hkey].
    + rewrite Hc2, Hc1. reflexivity.
    + rewrite Hu2, Hu1. reflexivity.
    + rewrite Hi2, Hi1. reflexivity.
  - intros Hget.
    destruct (get_user_profile user_id (user_profile_service turn)) as [r self1] eqn:E.
    simpl in Hget. subst r.
    rewrite (inject_resolved _ _ a1 s1 _ _ E). split; [done|].
    intros q Hq Hsame. set (turn1 := mkTurn _ _) in *.
    destruct (get_user_profile user_id (user_profile_service turn1)) as [r self2] eqn:E2.
    simpl in Hq. subst r.
    rewrite (inject_resolved turn1 _ a2 s2 _ _ E2). split; [done|].
    cbn [session]. subst turn1. cbn [session].
    pose proof (injected_lookup user_id s1 p (session turn)) as (_ & Hu1 & Hi1 & _ & Hc1).
    pose proof (injected_lookup user_id s2 q (injected user_id s1 p (session turn)))
      as (_ & Hu2 & Hi2 & _ & Hc2).
    cbv zeta in *. rewrite (same_content_context q p Hsame) in Hc2.
    split; [|exact Hc2].
    intros key Hkey.
    repeat (apply elem_of_cons in Hkey as [->|Hkey]); [..|by apply elem_of_nil in Hkey].
    + rewrite Hc2, Hc1. reflexivity.
    + rewrite Hu2, Hu1. reflexivity.
    + rewrite Hi2, Hi1. reflexivity.
  - intros Hget.
    destruct (get_user_profile user_id (user_profile_service turn)) as [r self1] eqn:E.
    simpl in Hget. subst r.
    rewrite (inject_resolved _ _ a1 s1 _ _ E).
    set (turn1 := mkTurn _ _). intros Hnone.
    destruct (get_user_profile user_id (user_profile_service turn1)) as [r self2] eqn:E2.
    simpl in Hnone. subst r.
    rewrite (inject_unresolved turn1 _ a2 s2 _ E2). split; [done|]. split; [done|].
    cbn [session]. subst turn1. cbn [session].
    by destruct (injected_lookup user_id s1 p (session turn)) as (_ & _ & _ & _ & ->).
  - intros documents c Hf Hdb Hget. cbv zeta.
    pose proof (lookup_documents documents _ c user_id p Hf Hdb Hget) as Hp.
    destruct (inject_documents documents turn c user_id a1 s1 Hf Hdb)
      as (c' & Hc' & Hdocs).
    set (self1 := user_profile_service (inject_user_context user_id a1 s1 turn).2) in *.
    assert (Hstored : exists q0, PyDict.get user_id (documents c') = Some q0 ∧
                        same_content q0 p).
    { destruct Hdocs as [->|(p0 & Hp0 & _ & ->)].
      - exists p. split; [done | by repeat split].
      - rewrite Hp in Hp0. injection Hp0 as <-. rewrite get_set_eq.
        eexists. split; [reflexivity | apply same_content_touch]. }
    destruct Hstored as (q0 & Hq0 & Hsame). split.
    + intros q Hq. pose proof (lookup_documents documents _ c' user_id q Hf Hc' Hq) as Hq'.
      congruence.
    + rewrite (get_on_database self1 c' user_id Hc').
      destruct (document_get _ _ c') as [[d|e] c2] eqn:E.
      * destruct (faithful_get documents Hf _ _ _ _ _ E) as [_ Hd].
        rewrite (Hd _ eq_refl), Hq0. done.
      * intros _. by exists c', e, c2.
Qed.

End ServiceFacts.

(** The in-process database keeps what it is told. *)
Lemma fake_is_faithful : faithful Fake.docs.
Proof.
  split.
  - intros coll id data [d [|[] f] n] r c'; cbn; intros [= <- <-]; reflexivity.
  - intros coll id [d [|[] f] n] r c'; cbn; intros [= <- <-];
      (split; [reflexivity|]); intros d0 [= <-]; reflexivity.
  - intros coll id ud [d [|[] f] n] r c'; cbn; try (intros [= <- <-]; reflexivity);
      destruct (PyDict.get id d) as [q|] eqn:E; cbn; intros [= <- <-]; eauto.
  - intros coll id [d [|[] f] n] r c'; cbn; intros [= <- <-]; reflexivity.
  - intros coll offset limit [d [|[] f] n] r c'; cbn; intros [= <- <-]; reflexivity.
Qed.

(** * The claims on sample data *)

(** The completeness example of the specification: with a destination the
    created profile is complete, with [basic_info] alone it is not. *)
Example destination_makes_complete :
  UserProfile.profile_complete (new_profile "u1" 1 Sample.request) = true ∧
  UserProfile.profile_complete (new_profile "u1" 1 Sample.bare_request) = false.
Proof. split; reflexivity. Qed.

Lemma profile_complete_invariant_witness :
  PyDict.get "u1" (_memory_store (run [Create "u1" 1 Sample.request] Sample.memory_service))
    = Some (Sample.profile "u1" 1) ∧
  (UserProfile.profile_complete (Sample.profile "u1" 1) = true
   <-> complete_by_spec (Sample.profile "u1" 1)) ∧
  let self := run [Create "u1" 1 Sample.request; Update "u1" Scenario.no_interests 2]
                (__init__ (C:=Fake.t) None []) in
  exists c p,
    db self = Some c ∧
    PyDict.get "u1" (Fake.docs c) = Some p ∧
    UserProfile.travel_interests p = TravelInterests.default ∧
    UserProfile.profile_complete p = false ∧
    (UserProfile.profile_complete p = true <-> complete_by_spec p).
Proof.
  destruct (profile_complete_invariant (C:=Empty_set) None []
              [Create "u1" 1 Sample.request]) as (Hmem & _).
  split; [reflexivity|]. split; [by apply (Hmem "u1")|].
  cbv zeta.
  destruct (profile_complete_invariant (C:=Fake.t) None []
              [Create "u1" 1 Sample.request; Update "u1" Scenario.no_interests 2])
    as (_ & _ & _ & _ & Hdb).
  eexists _, _. split; [reflexivity|]. split; [reflexivity|].
  split; [reflexivity|]. split; [reflexivity|].
  assert (Hinit : forall c0 : Fake.t, db (__init__ None []) = Some c0 ->
            forall k p, (k, p) ∈ Fake.docs c0 -> flag_ok p).
  { intros c0 [= <-] k p Hin. by apply elem_of_nil in Hin. }
  eapply (Hdb Fake.docs fake_is_faithful Hinit _ "u1"); reflexivity.
Defined.

Lemma update_merges_only_the_request_witness :
  _use_memory_store Sample.one_user = true ∧
  PyDict.get "u1" (_memory_store Sample.one_user) = Some (Sample.profile_wheelchair "u1" 5) ∧
  exists p',
    (update_user_profile "u1" Sample.style_only 9 Sample.one_user).1 = Returns (Some p') ∧
    UserProfile.preferences p' = Sample.brief ∧
    UserProfile.travel_interests p' = TravelInterests.default ∧
    UserProfile.accessibility_profile p' = Sample.wheelchair ∧
    UserProfile.updated_at p' = 9 ∧
    UserProfile.created_at p' = 5 ∧
    UserProfile.profile_complete p' = true.
Proof.
  split; [reflexivity|]. split; [reflexivity|].
  destruct (proj1 (update_merges_only_the_request (C:=Empty_set) Sample.one_user "u1"
                     Sample.style_only 9 (Sample.profile_wheelchair "u1" 5))
              eq_refl eq_refl)
    as (p' & Hres & _ & _ & _ & _ & Hcreated & _ & _ & _ & _ & _ & Hti & Hap & Hpr & Hup & Hpc).
  exists p'. rewrite Hres. repeat split; assumption.
Defined.

Lemma inject_unknown_user_is_inert_witness :
  (get_user_profile "ghost" (user_profile_service Sample.turn0)).1 = Returns None ∧
  let '(r, turn') := inject_user_context "ghost" 7 8 Sample.turn0 in
  r = Returns false ∧
  session turn' = session Sample.turn0 ∧
  _memory_store (user_profile_service turn')
    = _memory_store (user_profile_service Sample.turn0) ∧
  (get_user_context_from_session turn').1 = (get_user_context_from_session Sample.turn0).1 ∧
  ((get_user_context_from_session Sample.turn0).1 = Returns None ->
   (get_user_context_from_session turn').1 = Returns None).
Proof.
  split; [reflexivity|].
  apply (inject_unknown_user_is_inert (C:=Empty_set) Sample.turn0 "ghost" 7 8).
  reflexivity.
Defined.

(** A read that raises does not make the service fall back: the next read
    goes to the database again and is answered by it. *)
Lemma failed_read_keeps_the_database :
  let self := Sample.flaky_service in
  let '(r1, self1) := get_user_profile "u1" self in
  let '(r2, self2) := get_user_profile "u1" self1 in
  (exists c e c', db self = Some c ∧
     document_get (collection_name self) "u1" c = (Raises e, c')) ∧
  r1 = Returns None ∧
  _use_memory_store self1 = false ∧
  r2 = Returns (Some (Sample.profile "u1" 10)) ∧
  _memory_store self2 = [] ∧
  Fake.calls <$> db self1 = Some 1%nat ∧
  Fake.calls <$> db self2 = Some 2%nat.
Proof.
  cbv zeta. cbn. repeat split; try reflexivity.
  eexists _, _, _. split; reflexivity.
Qed.

Lemma fallback_is_permanent_witness :
  _use_memory_store Sample.memory_service = true ∧
  (let '(r, self') := create_user_profile "u2" 20 Sample.request Sample.flaky_service in
   r = Returns (new_profile "u2" 20 Sample.request) ∧
   _use_memory_store self' = true ∧
   _memory_store self' = [("u2", new_profile "u2" 20 Sample.request)]) ∧
  _use_memory_store (run Sample.five_creations Sample.memory_service) = true ∧
  _use_memory_store (call (Get "u1") Sample.flaky_service).2 = false.
Proof.
  destruct (fallback_is_permanent (C:=Empty_set)) as (Hinit & _ & Hrun & _ & _).
  destruct (fallback_is_permanent (C:=Fake.t)) as (_ & Hcreate & _ & _ & Hother).
  split; [exact (Hinit None [] Unavailable.error eq_refl)|].
  split.
  { exact (Hcreate Sample.flaky_service _ "u2" 20 Sample.request _ _ eq_refl eq_refl). }
  split.
  { apply Hrun. exact (Hinit None [] Unavailable.error eq_refl). }
  eapply Hother; [reflexivity | discriminate].
Defined.

(** A write that raises during a creation does not end in a negative result:
    the creation returns the profile. Nor does a write that raises during an
    injection: the touch of [last_active] fails, and the injection still
    returns [True]. *)
Lemma failed_write_returns_the_profile :
  let self := Sample.flaky_service in
  (exists c e c', db self = Some c ∧
     document_set (collection_name self) "u2" (new_profile "u2" 20 Sample.request) c
       = (Raises e, c')) ∧
  (call (Create "u2" 20 Sample.request) self).1
    = Returns (RProfile (new_profile "u2" 20 Sample.request)) ∧
  negative (RProfile (new_profile "u2" 20 Sample.request)) = false ∧
  let turn := mkTurn Scenario.failing_write Sample.empty_session in
  (exists c p c1 e c2,
     db (user_profile_service turn) = Some c ∧
     document_get "user_profiles" "u1" c = (Returns (Some p), c1) ∧
     document_update "user_profiles" "u1" (last_active_update 7) c1 = (Raises e, c2)) ∧
  (inject_user_context "u1" 7 8 turn).1 = Returns true ∧
  negative (RBool true) = false.
Proof.
  cbv zeta. repeat split; try reflexivity.
  - eexists _, _, _. split; reflexivity.
  - eexists _, _, _, _, _. repeat split; reflexivity.
Qed.

Lemma storage_exceptions_are_absorbed_witness :
  (exists r msg,
     (call (Get "u1") Sample.watched_service).1 = Returns r ∧ negative r = true ∧
     logged (call (Get "u1") Sample.watched_service).2
       = (logged Sample.watched_service ++ [(ERROR, msg)])%list) ∧
  (create_user_profile "u2" 20 Sample.request Sample.flaky_service).1
    = Returns (new_profile "u2" 20 Sample.request) ∧
  (let '(r, turn') :=
     inject_user_context "u1" 7 8 (mkTurn Sample.flaky_service Sample.empty_session) in
   r = Returns false ∧ session turn' = Sample.empty_session ∧
   logged (user_profile_service turn')
     = [(ERROR, "Error getting user profile u1: 503 Deadline exceeded");
        (WARNING, "No user profile found for user_id: u1")]) ∧
  (let '(r, turn') :=
     inject_user_context "u1" 7 8 (mkTurn Scenario.failing_write Sample.empty_session) in
   r = Returns true ∧
   session turn' = injected "u1" 8 (Sample.profile "u1" 10) Sample.empty_session ∧
   logged (user_profile_service turn')
     = [(ERROR, "Error updating last active for u1: 503 Deadline exceeded");
        (INFO, "Injected user context for user_id: u1")]).
Proof.
  destruct (storage_exceptions_are_absorbed (C:=Fake.t))
    as (_ & _ & _ & Hneg & Hcreate & Hlookup & Htouch).
  split.
  { eapply (Hneg Sample.watched_service _ (Get "u1")); try reflexivity. discriminate. }
  split.
  { by rewrite (Hcreate Sample.flaky_service _ "u2" 20 Sample.request _ _ eq_refl eq_refl). }
  split.
  - assert (Hget : document_get "user_profiles" "u1"
                     (Fake.mk [("u1", Sample.profile "u1" 10)] [true] 0)
                   = (Raises Fake.error, Fake.mk [("u1", Sample.profile "u1" 10)] [] 1))
      by reflexivity.
    rewrite (Hlookup (mkTurn Sample.flaky_service Sample.empty_session) _ "u1" 7 8 _ _
               eq_refl Hget).
    repeat split.
  - assert (Hget : document_get "user_profiles" "u1"
                     (Fake.mk [("u1", Sample.profile "u1" 10)] [false; true] 0)
                   = (Returns (Some (Sample.profile "u1" 10)),
                      Fake.mk [("u1", Sample.profile "u1" 10)] [true] 1))
      by reflexivity.
    assert (Hupd : document_update "user_profiles" "u1" (last_active_update 7)
                     (Fake.mk [("u1", Sample.profile "u1" 10)] [true] 1)
                   = (Raises Fake.error, Fake.mk [("u1", Sample.profile "u1" 10)] [] 2))
      by reflexivity.
    rewrite (Htouch (mkTurn Scenario.failing_write Sample.empty_session) _ "u1" 7 8 _ _ _ _
               eq_refl Hget Hupd).
    repeat split.
Defined.

Lemma injected_context_reflects_mobility_needs_witness :
  (get_user_profile "u1" (user_profile_service Sample.turn0)).1
    = Returns (Some (Sample.profile_wheelchair "u1" 5)) ∧
  let '(r, turn') := inject_user_context "u1" 7 8 Sample.turn0 in
  r = Returns true ∧
  exists ctx c s,
    (get_user_context_from_session turn').1 = Returns (Some ctx) ∧
    UserContext.personalized_context ctx = Some (SContext c) ∧
    AccessibilitySummary.has_mobility_needs
      (PersonalizedContext.accessibility_summary c) = true ∧
    PyDict.get "planning_agent" (PersonalizedContext.personalized_instructions c) = Some s ∧
    py_in "wheelchair_accessible" s = true.
Proof.
  split; [reflexivity|].
  apply (injected_context_reflects_mobility_needs (C:=Empty_set) Sample.turn0 "u1" 7 8
           (Sample.profile_wheelchair "u1" 5)); reflexivity.
Defined.

(** Injecting a context rewrites [last_active] in the stored record. *)
Lemma inject_refreshes_last_active :
  let turn' := (inject_user_context "u1" 7 8 Sample.turn0).2 in
  exists p p',
    PyDict.get "u1" (_memory_store (user_profile_service Sample.turn0)) = Some p ∧
    PyDict.get "u1" (_memory_store (user_profile_service turn')) = Some p' ∧
    UserProfile.last_active p = None ∧
    UserProfile.last_active p' = Some 7 ∧
    p' ≠ p.
Proof. cbv zeta. eexists _, _. repeat split; try reflexivity. discriminate. Qed.

Lemma context_service_only_touches_last_active_witness :
  (get_user_context_from_session Sample.turn0).2 = Sample.turn0 ∧
  (let turn' := (inject_user_context "u1" 7 8 Sample.turn0).2 in
   PyDict.keys (_memory_store (user_profile_service turn'))
     = PyDict.keys (_memory_store (user_profile_service Sample.turn0)) ∧
   exists p',
     PyDict.get "u1" (_memory_store (user_profile_service turn')) = Some p' ∧
     p' = with_last_active (UserProfile.last_active p') (Sample.profile_wheelchair "u1" 5) ∧
     UserProfile.last_active p' = Some 7) ∧
  (let turn := mkTurn Scenario.stored_user Sample.empty_session in
   let turn' := (inject_user_context "u1" 7 8 turn).2 in
   exists c',
     db (user_profile_service turn') = Some c' ∧
     PyDict.keys (Fake.docs c') = ["u1"] ∧
     exists p',
       PyDict.get "u1" (Fake.docs c') = Some p' ∧
       p' = with_last_active (UserProfile.last_active p') (Sample.profile_wheelchair "u1" 5) ∧
       UserProfile.last_active p' = Some 7) ∧
  (let turn := mkTurn Scenario.failing_write Sample.empty_session in
   let turn' := (inject_user_context "u1" 7 8 turn).2 in
   (inject_user_context "u1" 7 8 turn).1 = Returns true ∧
   exists c',
     db (user_profile_service turn') = Some c' ∧
     exists p',
       PyDict.get "u1" (Fake.docs c') = Some p' ∧
       p' = with_last_active (UserProfile.last_active p') (Sample.profile "u1" 10) ∧
       p' = Sample.profile "u1" 10).
Proof.
  destruct (context_service_only_touches_last_active (C:=Empty_set) Sample.turn0 "u1" 7 8)
    as (Hread & Hmem & _ & _).
  split; [exact Hread|]. split.
  { cbv zeta. destruct (Hmem "u1" (Sample.profile_wheelchair "u1" 5) eq_refl eq_refl)
      as (Hkeys & p' & Hget & Hframe & _ & Hactive).
    split; [exact Hkeys|]. exists p'. split; [exact Hget|]. split; [exact Hframe|].
    by apply Hactive. }
  split.
  - cbv zeta.
    destruct (context_service_only_touches_last_active (C:=Fake.t)
                (mkTurn Scenario.stored_user Sample.empty_session) "u1" 7 8)
      as (_ & _ & _ & Hdb & _).
    destruct (Hdb Fake.docs _ fake_is_faithful eq_refl) as (c' & Hc' & Hkeys & Hrec).
    exists c'. split; [exact Hc'|]. split; [exact Hkeys|].
    destruct (Hrec "u1" (Sample.profile_wheelchair "u1" 5) eq_refl)
      as (p' & Hget & Hframe & _ & _).
    exists p'. split; [exact Hget|]. split; [exact Hframe|].
    injection Hc' as <-. by injection Hget as <-.
  - cbv zeta. split; [reflexivity|].
    destruct (context_service_only_touches_last_active (C:=Fake.t)
                (mkTurn Scenario.failing_write Sample.empty_session) "u1" 7 8)
      as (_ & _ & _ & Hdb & _).
    destruct (Hdb Fake.docs _ fake_is_faithful eq_refl) as (c' & Hc' & _ & Hrec).
    exists c'. split; [exact Hc'|].
    destruct (Hrec "u1" (Sample.profile "u1" 10) eq_refl) as (p' & Hget & Hframe & _ & _).
    exists p'. split; [exact Hget|]. split; [exact Hframe|].
    injection Hc' as <-. by injection Hget as <-.
Defined.

(** The pagination example of the specification. *)
Example third_and_fourth_of_five :
  (list_user_profiles 2 2 (run Sample.five_creations Sample.memory_service)).1
    = Returns [ _create_profile_summary (Sample.profile "u3" 3);
                _create_profile_summary (Sample.profile "u4" 4) ].
Proof. reflexivity. Qed.



(** A need named under two headings is counted twice, though it is one
    distinct need. *)
Lemma repeated_need_is_counted_twice :
  let self := run [Create "u1" 1 Sample.repeated_request] Sample.memory_service in
  let s := _create_profile_summary Sample.repeated_profile in
  (list_user_profiles 50 0 self).1 = Returns [s] ∧
  UserProfileSummary.accessibility_needs_count s = 2 ∧
  distinct_count
    (AccessibilityProfile.mobility_needs Sample.repeated_need ++
     AccessibilityProfile.sensory_needs Sample.repeated_need ++
     AccessibilityProfile.cognitive_needs Sample.repeated_need) = 1 ∧
  UserProfileSummary.accessibility_needs_count s
    ≠ distinct_count
        (AccessibilityProfile.mobility_needs Sample.repeated_need ++
         AccessibilityProfile.sensory_needs Sample.repeated_need ++
         AccessibilityProfile.cognitive_needs Sample.repeated_need).
Proof. cbv zeta. repeat split; try reflexivity. discriminate. Qed.

Lemma summary_counts_every_entry_witness :
  let self := run [Create "u1" 1 Sample.repeated_request] Sample.memory_service in
  let s := _create_profile_summary Sample.repeated_profile in
  (list_user_profiles 50 0 self).1 = Returns [s] ∧
  exists p,
    s = _create_profile_summary p ∧
    UserProfileSummary.accessibility_needs_count s
      = len (AccessibilityProfile.mobility_needs (UserProfile.accessibility_profile p) ++
             AccessibilityProfile.sensory_needs (UserProfile.accessibility_profile p) ++
             AccessibilityProfile.cognitive_needs (UserProfile.accessibility_profile p)) ∧
    UserProfileSummary.travel_interests_count s
      = len (TravelInterests.preferred_destinations (UserProfile.travel_interests p) ++
             TravelInterests.activity_interests (UserProfile.travel_interests p) ++
             TravelInterests.accommodation_preferences (UserProfile.travel_interests p)).
Proof.
  cbv zeta. split; [reflexivity|].
  destruct (summary_counts_every_entry (C:=Empty_set)
              (run [Create "u1" 1 Sample.repeated_request] Sample.memory_service)
              50 0 [_create_profile_summary Sample.repeated_profile]
              (_create_profile_summary Sample.repeated_profile))
    as (p & Hs & _ & Hneeds & Hinterests & _).
  - reflexivity.
  - apply elem_of_cons. by left.
  - exists p. split; [exact Hs|]. split; [exact Hneeds | exact Hinterests].
Defined.

(** The second of two injections fails when its lookup does: the database
    answers the read and the write of the first injection and raises on the
    read of the second, which returns [False]. *)
Lemma second_lookup_may_fail :
  let turn := mkTurn Scenario.third_call_fails Sample.empty_session in
  (get_user_profile "u1" (user_profile_service turn)).1
    = Returns (Some (Sample.profile_wheelchair "u1" 5)) ∧
  let '(r1, turn1) := inject_user_context "u1" 7 8 turn in
  let '(r2, turn2) := inject_user_context "u1" 17 18 turn1 in
  r1 = Returns true ∧
  r2 = Returns false ∧
  r2 ≠ Returns true ∧
  PyDict.get "u1" ∘ Fake.docs <$> db (user_profile_service turn2)
    = Some (Some (with_last_active (Some 7) (Sample.profile_wheelchair "u1" 5))).
Proof. cbv zeta. cbn. repeat split; try reflexivity. discriminate. Qed.

Lemma inject_is_idempotent_on_context_witness :
  (let '(r1, turn1) := inject_user_context "u1" 7 8 Sample.turn0 in
   let '(r2, turn2) := inject_user_context "u1" 17 18 turn1 in
   r1 = Returns true ∧ r2 = Returns true ∧
   (forall key, key ∈ ["personalized_context"; "user_id"; "context_injected"] ->
      Session.state (session turn2) !! key = Session.state (session turn1) !! key) ∧
   Session.state (session turn2) !! "personalized_context"
     = Some (SContext (_create_personalized_context (Sample.profile_wheelchair "u1" 5)))) ∧
  (let turn := mkTurn Scenario.stored_user Sample.empty_session in
   (get_user_profile "u1" (user_profile_service turn)).1
     = Returns (Some (Sample.profile_wheelchair "u1" 5)) ∧
   let '(r1, turn1) := inject_user_context "u1" 7 8 turn in
   (get_user_profile "u1" (user_profile_service turn1)).1
     = Returns (Some (with_last_active (Some 7) (Sample.profile_wheelchair "u1" 5))) ∧
   let '(r2, turn2) := inject_user_context "u1" 17 18 turn1 in
   r1 = Returns true ∧ r2 = Returns true ∧
   (forall key, key ∈ ["personalized_context"; "user_id"; "context_injected"] ->
      Session.state (session turn2) !! key = Session.state (session turn1) !! key) ∧
   Session.state (session turn2) !! "personalized_context"
     = Some (SContext (_create_personalized_context (Sample.profile_wheelchair "u1" 5)))) ∧
  (let turn := mkTurn Scenario.third_call_fails Sample.empty_session in
   (get_user_profile "u1" (user_profile_service turn)).1
     = Returns (Some (Sample.profile_wheelchair "u1" 5)) ∧
   let '(r1, turn1) := inject_user_context "u1" 7 8 turn in
   (get_user_profile "u1" (user_profile_service turn1)).1 = Returns None ∧
   let '(r2, turn2) := inject_user_context "u1" 17 18 turn1 in
   r2 = Returns false ∧
   session turn2 = session turn1 ∧
   Session.state (session turn2) !! "personalized_context"
     = Some (SContext (_create_personalized_context (Sample.profile_wheelchair "u1" 5)))).
Proof.
  split; [|split].
  - destruct (inject_is_idempotent_on_context (C:=Empty_set) Sample.turn0 "u1" 7 8 17 18
                (Sample.profile_wheelchair "u1" 5)) as (Hmem & _).
    pose proof (Hmem eq_refl eq_refl) as Hx.
    destruct (inject_user_context "u1" 7 8 Sample.turn0) as [r1 turn1].
    destruct (inject_user_context "u1" 17 18 turn1) as [r2 turn2].
    destruct Hx as (H1 & H2 & H3 & H4 & _). done.
  - cbv zeta. split; [reflexivity|].
    destruct (inject_is_idempotent_on_context (C:=Fake.t)
                (mkTurn Scenario.stored_user Sample.empty_session) "u1" 7 8 17 18
                (Sample.profile_wheelchair "u1" 5)) as (_ & Hany & _ & Hfaithful).
    assert (Hlookup : (get_user_profile "u1" Scenario.stored_user).1
                      = Returns (Some (Sample.profile_wheelchair "u1" 5))) by reflexivity.
    specialize (Hany Hlookup).
    destruct (Hfaithful Fake.docs _ fake_is_faithful eq_refl Hlookup) as [Hsame _].
    cbv zeta in Hsame.
    destruct (inject_user_context "u1" 7 8
                (mkTurn Scenario.stored_user Sample.empty_session)) as [r1 turn1] eqn:E1.
    cbn [snd] in Hsame.
    assert (Hq : (get_user_profile "u1" (user_profile_service turn1)).1
                 = Returns (Some (with_last_active (Some 7)
                                    (Sample.profile_wheelchair "u1" 5)))).
    { injection E1 as <- <-. reflexivity. }
    split; [exact Hq|].
    destruct Hany as (Hr1 & Hnext). specialize (Hnext _ Hq (Hsame _ Hq)).
    destruct (inject_user_context "u1" 17 18 turn1) as [r2 turn2].
    destruct Hnext as (Hr2 & Hkeys & Hctx). done.
  - cbv zeta. split; [reflexivity|].
    destruct (inject_is_idempotent_on_context (C:=Fake.t)
                (mkTurn Scenario.third_call_fails Sample.empty_session) "u1" 7 8 17 18
                (Sample.profile_wheelchair "u1" 5)) as (_ & _ & Hnone & _).
    assert (Hlookup : (get_user_profile "u1" Scenario.third_call_fails).1
                      = Returns (Some (Sample.profile_wheelchair "u1" 5))) by reflexivity.
    specialize (Hnone Hlookup).
    destruct (inject_user_context "u1" 7 8
                (mkTurn Scenario.third_call_fails Sample.empty_session))
      as [r1 turn1] eqn:E1.
    assert (Hq : (get_user_profile "u1" (user_profile_service turn1)).1 = Returns None).
    { injection E1 as <- <-. reflexivity. }
    split; [exact Hq|]. specialize (Hnone Hq).
    destruct (inject_user_context "u1" 17 18 turn1) as [r2 turn2]. exact Hnone.
Defined.

(** * Further properties of the code *)

(** ** More on dictionaries and lists *)

Section DictMore.
Context {V : Type}.
Implicit Types (d : PyDict.t V) (k : string) (v : V).

Lemma get_del_eq k d : NoDup (PyDict.keys d) -> PyDict.get k (PyDict.del k d) = None.
Proof.
  unfold PyDict.keys. induction d as [|[k' v'] d IH]; [done|].
  rewrite fmap_cons, NoDup_cons. intros [Hk' Hnd]. simpl.
  destruct (decide (k = k')) as [->|Hne].
  - by apply get_None_keys.
  - simpl. rewrite decide_False by done. by apply IH.
Qed.

Lemma get_del_ne k k' d : k' ≠ k -> PyDict.get k' (PyDict.del k d) = PyDict.get k' d.
Proof.
  intros Hne. induction d as [|[k0 v0] d IH]; [done|]. simpl.
  destruct (decide (k = k0)) as [->|Hk]; simpl.
  - by rewrite decide_False.
  - destruct (decide (k' = k0)); [done | apply IH].
Qed.

Lemma set_set k v w d : PyDict.set k w (PyDict.set k v d) = PyDict.set k w d.
Proof.
  induction d as [|[k' v'] d IH]; simpl.
  - by rewrite decide_True.
  - destruct (decide (k = k')) as [->|Hne]; simpl.
    + by rewrite decide_True.
    + rewrite decide_False by done. by rewrite IH.
Qed.

Lemma keys_set_NoDup k v d : NoDup (PyDict.keys d) -> NoDup (PyDict.keys (PyDict.set k v d)).
Proof.
  intros Hnd. destruct (PyDict.get k d) as [v0|] eqn:E.
  - destruct (set_present k v v0 d E) as (d1 & d2 & Hd & -> & _).
    rewrite Hd in Hnd. unfold PyDict.keys in *. by rewrite fmap_app, fmap_cons in *.
  - rewrite set_fresh by done. unfold PyDict.keys in *. rewrite fmap_app. simpl.
    apply NoDup_app. split; [done|]. split; [|apply NoDup_singleton].
    intros x Hx Hin. apply list_elem_of_singleton in Hin as ->.
    by apply get_None_keys in E.
Qed.

Lemma filter_absent (k : string) (ks : list string) :
  k ∉ ks -> filter (fun x => x ≠ k) ks = ks.
Proof.
  induction ks as [|x ks IH]; [done|].
  intros [Hne Hks]%not_elem_of_cons.
  rewrite filter_cons, decide_True by done. by rewrite IH.
Qed.

Lemma keys_del k d :
  NoDup (PyDict.keys d) ->
  PyDict.keys (PyDict.del k d) = filter (fun x => x ≠ k) (PyDict.keys d).
Proof.
  unfold PyDict.keys. induction d as [|[k' v'] d IH]; [done|].
  rewrite fmap_cons, NoDup_cons. intros [Hk' Hnd].
  rewrite filter_cons. cbn [PyDict.del fst].
  destruct (decide (k = k')) as [->|Hne].
  - rewrite decide_False by (intros ?; done). by rewrite filter_absent.
  - rewrite decide_True by done. rewrite fmap_cons. cbn [fst]. by rewrite IH.
Qed.

Lemma elem_get k v d : NoDup (PyDict.keys d) -> (k, v) ∈ d -> PyDict.get k d = Some v.
Proof.
  unfold PyDict.keys. induction d as [|[k' v'] d IH]; intros Hnd Hin.
  - by apply elem_of_nil in Hin.
  - rewrite fmap_cons in Hnd. apply NoDup_cons in Hnd as [Hk' Hnd]. simpl.
    apply elem_of_cons in Hin as [[= -> ->]|Hin]; [by rewrite decide_True|].
    rewrite decide_False; [by apply IH|].
    intros ->. apply Hk'. apply list_elem_of_fmap. by exists (k', v).
Qed.
End DictMore.

Lemma take_add_drop {A} (l : list A) (n m : nat) :
  take (n + m) l = (take n l ++ take m (drop n l))%list.
Proof.
  revert l. induction n as [|n IH]; intros [|x l]; simpl; try done.
  - by rewrite take_nil.
  - by rewrite IH.
Qed.

Lemma py_in_refl s : py_in s s = true.
Proof. destruct s; [reflexivity|]. by rewrite py_in_cons, prefix_refl. Qed.

Lemma py_in_join sep x (l : list string) : x ∈ l -> py_in x (join sep l) = true.
Proof.
  unfold join. induction l as [|y l IH]; intros Hin; [by apply elem_of_nil in Hin|].
  destruct l as [|z l].
  - apply list_elem_of_singleton in Hin as ->. apply py_in_refl.
  - apply elem_of_cons in Hin as [->|Hin].
    + apply py_in_here.
    + change (String.concat sep (y :: z :: l))
        with (y +:+ sep +:+ String.concat sep (z :: l)).
      by apply py_in_app_r, py_in_app_r, IH.
Qed.

Lemma times_ok_mono lo t p : lo <= t -> times_ok lo p -> times_ok t p.
Proof.
  intros Hle (Hcu & Hu & Ha). split; [done|]. split; [lia|].
  intros a Hp. destruct (Ha a Hp). lia.
Qed.

Section MoreFacts.
Context {C : Type} `{FirestoreClient C}.
Implicit Types (self : UserProfileService C) (turn : Turn C).

(** ** The keys of the in-memory store never repeat *)

Lemma call_keys_NoDup o self :
  NoDup (PyDict.keys (_memory_store self)) ->
  NoDup (PyDict.keys (_memory_store (call o self).2)).
Proof.
  intros Hnd. destruct self as [coll store [c|] l], o; exec; split_calls;
    try assumption;
    try (by apply keys_set_NoDup);
    try (eapply sublist_NoDup; [exact Hnd | apply keys_del_sublist]).
Qed.

Lemma run_keys_NoDup ops self :
  NoDup (PyDict.keys (_memory_store self)) ->
  NoDup (PyDict.keys (_memory_store (run ops self))).
Proof.
  revert self. induction ops as [|o ops IH]; intros self Hnd; [done|].
  apply IH, call_keys_NoDup, Hnd.
Qed.

Lemma init_keys_NoDup getenv records :
  NoDup (PyDict.keys (_memory_store (__init__ getenv records))).
Proof. unfold __init__. destruct (connect _); apply NoDup_nil_2. Qed.

(** ** What holds of every stored record *)

(** A property of records that creation establishes and that update and the
    touch of [last_active] keep holds of every record of the in-memory
    store. *)
Lemma call_store_forall (P : UserProfile.t -> Prop) o self :
  (forall u t r, P (new_profile u t r)) ->
  (forall r t p, P p -> P (UpdateData.apply (update_data_of r t p) p)) ->
  (forall t p, P p -> P (with_last_active (Some t) p)) ->
  (forall k p, (k, p) ∈ _memory_store self -> P p) ->
  forall k p, (k, p) ∈ _memory_store (call o self).2 -> P p.
Proof.
  intros Hnew Hupd Htouch Hall.
  assert (Hset : forall k v d, (forall k p, (k, p) ∈ d -> P p) -> P v ->
            forall k' p, (k', p) ∈ PyDict.set k v d -> P p).
  { intros k v d Hd Hv k' p [[= -> ->]|Hin]%elem_set; [done | by eapply Hd]. }
  assert (Hdel : forall k d, (forall k p, (k, p) ∈ d -> P p) ->
            forall k' p, (k', p) ∈ PyDict.del k d -> P p).
  { intros k d Hd k' p Hin%elem_del. by eapply Hd. }
  destruct self as [coll store [c|] l], o; exec; split_calls;
    try assumption;
    try (by apply Hdel);
    try (by apply Hset).
  all: match goal with
       | E : PyDict.get ?k ?d = Some ?p |- _ =>
           pose proof (Hall _ _ (get_Some_elem _ _ _ E)) as HP
       end.
  all: apply Hset; [assumption|]; first [by apply Hupd | by apply (Htouch _ _ HP)].
Qed.

Lemma run_store_forall (P : UserProfile.t -> Prop) getenv records ops k p :
  (forall u t r, P (new_profile u t r)) ->
  (forall r t p, P p -> P (UpdateData.apply (update_data_of r t p) p)) ->
  (forall t p, P p -> P (with_last_active (Some t) p)) ->
  PyDict.get k (_memory_store (run ops (__init__ getenv records))) = Some p -> P p.
Proof.
  intros Hnew Hupd Htouch Hget. apply get_Some_elem in Hget. revert k p Hget.
  assert (Hinit : forall k p, (k, p) ∈ _memory_store (__init__ getenv records) -> P p).
  { unfold __init__. destruct (connect _); intros k p Hin; by apply elem_of_nil in Hin. }
  revert Hinit. generalize (__init__ getenv records). induction ops as [|o ops IH];
    intros self Hall; [exact Hall|].
  apply IH. by apply call_store_forall.
Qed.

(** ** The times of a record *)

Lemma times_ok_new u t r : times_ok t (new_profile u t r).
Proof. unfold times_ok. simpl. split; [lia|]. split; [lia|]. done. Qed.

Lemma times_ok_update r lo t p :
  lo <= t -> times_ok lo p -> times_ok t (UpdateData.apply (update_data_of r t p) p).
Proof.
  intros Hle (Hcu & Hu & Ha).
  destruct r as [[b|] [ti|] [ap|] [pr|]]; (split; [simpl; lia|]; split; [simpl; lia|]);
    intros a Hp; destruct (Ha a Hp); simpl; lia.
Qed.

Lemma times_ok_touch lo t p :
  lo <= t -> times_ok lo p -> times_ok t (with_last_active (Some t) p).
Proof.
  intros Hle (Hcu & Hu & Ha). split; [done|]. split; [simpl; lia|].
  simpl. intros a [= <-]. lia.
Qed.

(** One call at an instant not before [lo] takes records whose times are in
    order up to [lo] to records whose times are in order up to that
    instant. *)
Lemma call_times_ok o self lo :
  (forall k p, (k, p) ∈ _memory_store self -> times_ok lo p) ->
  (forall t, op_time o = Some t -> lo <= t) ->
  forall k p, (k, p) ∈ _memory_store (call o self).2 ->
    times_ok (default lo (op_time o)) p.
Proof.
  intros Hall Hlo.
  assert (Hset : forall t k v d, (forall k p, (k, p) ∈ d -> times_ok lo p) -> lo <= t ->
            times_ok t v -> forall k' p, (k', p) ∈ PyDict.set k v d -> times_ok t p).
  { intros t k v d Hd Hle Hv k' p [[= -> ->]|Hin]%elem_set; [done|].
    eapply times_ok_mono; [exact Hle | by eapply Hd]. }
  assert (Hdel : forall k d, (forall k p, (k, p) ∈ d -> times_ok lo p) ->
            forall k' p, (k', p) ∈ PyDict.del k d -> times_ok lo p).
  { intros k d Hd k' p Hin%elem_del. by eapply Hd. }
  assert (Hkeep : forall t, lo <= t ->
            forall k p, (k, p) ∈ _memory_store self -> times_ok t p).
  { intros t Hle k p Hin. eapply times_ok_mono; [exact Hle | by eapply Hall]. }
  destruct self as [coll store [c|] l], o; cbn [op_time default] in *;
    try specialize (Hlo _ eq_refl); exec; split_calls;
    try assumption;
    try (by apply Hkeep);
    try (by apply Hdel);
    try (apply Hset; [assumption | assumption | apply times_ok_new]).
  all: match goal with
       | E : PyDict.get ?k ?d = Some ?p |- _ =>
           pose proof (Hall _ _ (get_Some_elem _ _ _ E)) as HP
       end.
  all: apply Hset; [assumption | assumption |];
    first [by eapply times_ok_update | by apply (times_ok_touch lo)].
Qed.

Lemma run_times_ok ops self lo t :
  (forall k p, (k, p) ∈ _memory_store self -> times_ok lo p) ->
  StronglySorted Z.le (lo :: clock ops) ->
  Forall (fun x => x <= t) (lo :: clock ops) ->
  forall k p, (k, p) ∈ _memory_store (run ops self) -> times_ok t p.
Proof.
  revert self lo. induction ops as [|o ops IH]; intros self lo Hall Hs Hb.
  - intros k p Hin. apply Forall_cons in Hb as [Hb _].
    eapply times_ok_mono; [exact Hb | by eapply Hall].
  - rewrite run_cons. unfold clock in *. cbn [omap list_omap] in *.
    pose proof (call_times_ok o self lo Hall) as Hstep.
    destruct (op_time o) as [t'|]; cbn [default] in *.
    + apply StronglySorted_inv in Hs as [Hs Hlo].
      apply Forall_cons in Hlo as [Hlo _]. apply Forall_cons in Hb as [_ Hb].
      apply (IH _ t'); [|done|done]. apply Hstep. by intros ? [= <-].
    + apply (IH _ lo); [|done|done]. apply Hstep. done.
Qed.

(** ** An update repeated *)

Lemma update_again r t1 t2 p :
  let p1 := UpdateData.apply (update_data_of r t1 p) p in
  UpdateData.apply (update_data_of r t2 p1) p1 = with_updated_at t2 p1 ∧
  with_updated_at t1 p1 = p1.
Proof. by destruct r as [[b|] [ti|] [ap|] [pr|]], p. Qed.

(** ** While the service has a database, its in-memory store is empty *)

Lemma call_db_store_empty o self :
  (db self ≠ None -> _memory_store self = []) ->
  db (call o self).2 ≠ None -> _memory_store (call o self).2 = [].
Proof.
  destruct self as [coll store [c|] l]; cbn.
  - intros Hstore. specialize (Hstore ltac:(done)). subst store.
    destruct o; exec; split_calls; done.
  - intros _ Hdb. destruct Hdb.
    by apply (call_keeps_memory o (mkService coll store None l)).
Qed.

Lemma run_db_store_empty ops self :
  (db self ≠ None -> _memory_store self = []) ->
  db (run ops self) ≠ None -> _memory_store (run ops self) = [].
Proof.
  revert self. induction ops as [|o ops IH]; intros self Hinv; [done|].
  rewrite run_cons. apply IH. by apply call_db_store_empty.
Qed.

(** ** The instruction strings *)

Lemma py_in_join_or x (l : list string) otherwise :
  x ∈ l -> py_in x (join_or l otherwise) = true.
Proof.
  intros Hin. unfold join_or. destruct l; [by apply elem_of_nil in Hin|].
  by apply py_in_join.
Qed.

Lemma accessibility_context_spec p :
  accessibility_context p = "" <-> no_needs (UserProfile.accessibility_profile p).
Proof.
  unfold accessibility_context, no_needs.
  destruct (AccessibilityProfile.mobility_needs _), (AccessibilityProfile.sensory_needs _),
    (AccessibilityProfile.cognitive_needs _); cbn; split; try done; intros (? & ? & ?); done.
Qed.

(** * The properties *)

(** X1. On a service that runs on its in-memory store (constructed, then used
    through any sequence of calls), [delete_user_profile] returns [True]
    exactly when the identifier is stored; afterwards the identifier resolves
    to nothing, every other record is as it was and in its place, and a
    second deletion returns [False] and changes nothing, not even the log. *)
Theorem delete_is_idempotent getenv records ops user_id :
  let self := run ops (__init__ getenv records) in
  _use_memory_store self = true ->
  let '(r1, self1) := delete_user_profile user_id self in
  let '(r2, self2) := delete_user_profile user_id self1 in
  r1 = Returns (is_not_None (PyDict.get user_id (_memory_store self))) ∧
  r2 = Returns false ∧
  (get_user_profile user_id self1).1 = Returns None ∧
  self2 = self1 ∧
  (forall other, other ≠ user_id ->
     PyDict.get other (_memory_store self1) = PyDict.get other (_memory_store self)) ∧
  PyDict.keys (_memory_store self1)
    = filter (fun k => k ≠ user_id) (PyDict.keys (_memory_store self)).
Proof.
  cbv zeta. set (self := run ops _). intros Hdb%use_memory_db.
  assert (Hnd : NoDup (PyDict.keys (_memory_store self)))
    by apply run_keys_NoDup, init_keys_NoDup.
  rewrite delete_memory, mem_get by done.
  destruct (PyDict.get user_id (_memory_store self)) as [p|] eqn:E; cbn [is_not_None].
  - set (self1 := log_to _ _ _).
    assert (Hdb1 : db self1 = None) by done.
    assert (Hgone : PyDict.get user_id (_memory_store self1) = None)
      by (by apply get_del_eq).
    rewrite delete_memory, mem_get, Hgone by done. cbn.
    rewrite get_memory, Hgone by done. cbn [fst].
    repeat split; try done.
    + intros other Hne. by apply get_del_ne.
    + by apply keys_del.
  - rewrite delete_memory, mem_get, E by done. cbn.
    rewrite get_memory, E by done.
    repeat split; try done.
    symmetry. by apply filter_absent, get_None_keys.
Qed.

(** X2. When the lookup of an identifier yields nothing (it is not stored, or
    the database failed), [update_user_profile] returns [None] and does
    nothing beyond that lookup: it sends no write. On the in-memory store
    update, delete and the touch of [last_active] of an unknown identifier
    return [None], [False], [False] and leave the service exactly as it was;
    on a database that answers that the document does not exist, delete
    returns [False] after that one read. *)
Theorem unknown_id_is_left_alone self user_id request utcnow :
  (get_user_profile user_id self).1 = Returns None ->
  update_user_profile user_id request utcnow self
    = (Returns None, (get_user_profile user_id self).2) ∧
  (_use_memory_store self = true ->
   update_user_profile user_id request utcnow self = (Returns None, self) ∧
   delete_user_profile user_id self = (Returns false, self) ∧
   update_last_active user_id utcnow self = (Returns false, self)) ∧
  (forall c c1,
     db self = Some c ->
     document_get (collection_name self) user_id c = (Returns None, c1) ->
     delete_user_profile user_id self = (Returns false, set_db (Some c1) self)).
Proof.
  intros Hget. split; [|split].
  - unfold update_user_profile, try_except, bind, ret.
    destruct (get_user_profile user_id self) as [r self1]. simpl in Hget. by subst r.
  - intros Hdb%use_memory_db. rewrite get_memory in Hget by done. simpl in Hget.
    injection Hget as Hget.
    by rewrite update_memory, delete_memory, touch_memory, mem_get, Hget.
  - intros c c1 Hdb Hdoc. in_memory self Hdb. simpl in Hdoc. exec. by rewrite Hdoc.
Qed.

(** X3. [create_user_profile] always returns the profile built from the
    request, over any database. Whenever the service runs on its in-memory
    store afterwards, a lookup of the new identifier returns that very
    profile; and it runs on the in-memory store afterwards exactly when it
    did before or the write to the database raised. *)
Theorem created_profile_is_read_back self uuid4 utcnow request :
  let '(r, self') := create_user_profile uuid4 utcnow request self in
  r = Returns (new_profile uuid4 utcnow request) ∧
  (_use_memory_store self' = true ->
   get_user_profile uuid4 self' = (Returns (Some (new_profile uuid4 utcnow request)), self')) ∧
  (_use_memory_store self' = true <->
   _use_memory_store self = true ∨
   exists c e c', db self = Some c ∧
     document_set (collection_name self) uuid4 (new_profile uuid4 utcnow request) c
       = (Raises e, c')).
Proof.
  destruct self as [coll store [c|] l].
  - destruct (document_set coll uuid4 (new_profile uuid4 utcnow request) c)
      as [[[]|e] c'] eqn:Hset.
    + exec. rewrite Hset. cbn. split; [done|]. split; [done|].
      split; [done|]. intros [?|(c0 & e & c'' & [= <-] & Hraise)]; [done|].
      simpl in Hraise. congruence.
    + rewrite (create_falls_back (mkService coll store (Some c) l) c uuid4 utcnow request
                 e c' eq_refl Hset).
      split; [done|]. split.
      * intros _. rewrite get_memory by done. cbn. by rewrite get_set_eq.
      * split; [|done]. intros _. right. eauto 10.
  - rewrite create_memory by done. split; [done|]. split.
    + intros _. rewrite get_memory by done. cbn. by rewrite get_set_eq.
    + split; [by left | done].
Qed.

(** X4. In the in-memory store of a service that was constructed and then
    used through any sequence of calls, every record is filed under its own
    [user_id] and no key occurs twice. So a page of [list_user_profiles]
    never shows a user twice, and the [user_id] of each summary on it
    resolves, by the store's lookup, to the record it summarises. *)
Theorem records_keep_their_identity getenv records ops :
  let self := run ops (__init__ getenv records) in
  (forall user_id p,
     PyDict.get user_id (_memory_store self) = Some p -> UserProfile.user_id p = user_id) ∧
  NoDup (PyDict.keys (_memory_store self)) ∧
  (forall limit offset summaries,
     _use_memory_store self = true ->
     (list_user_profiles limit offset self).1 = Returns summaries ->
     NoDup (UserProfileSummary.user_id <$> summaries) ∧
     forall s, s ∈ summaries ->
       exists p,
         get_user_profile (UserProfileSummary.user_id s) self = (Returns (Some p), self) ∧
         s = _create_profile_summary p).
Proof.
  cbv zeta.
  pose proof (run_store_ok ops _ (init_store_ok getenv records)) as Hok.
  pose proof (run_keys_NoDup ops _ (init_keys_NoDup getenv records)) as Hnd.
  set (self := run ops _) in *.
  split; [intros user_id p Hget; by apply (store_ok_get _ _ _ Hok Hget)|].
  split; [done|].
  intros limit offset summaries Hdb%use_memory_db. rewrite list_memory by done.
  intros [= <-]. split.
  - rewrite <- list_fmap_compose.
    eapply sublist_NoDup; [|apply fmap_sublist; unfold py_slice;
                              etrans; [apply sublist_take | apply sublist_drop]].
    replace ((UserProfileSummary.user_id ∘ _create_profile_summary) <$>
               PyDict.values (_memory_store self))
      with (PyDict.keys (_memory_store self)); [done|].
    unfold PyDict.keys, PyDict.values. rewrite <- list_fmap_compose.
    apply Forall_fmap_ext_1, Forall_forall. intros [k q] Hin. symmetry. by apply Hok.
  - intros s (p & -> & Hin%elem_of_py_slice)%list_elem_of_fmap.
    exists p. split; [|done]. rewrite get_memory by done.
    unfold PyDict.values in Hin. apply list_elem_of_fmap in Hin as ([k q] & -> & Hin).
    destruct (Hok k q Hin) as [Hid _]. cbn. rewrite Hid. by rewrite (elem_get k q).
Qed.

(** X5. The profile service never writes [onboarding_completed],
    [travel_history] or [learned_preferences]: in every record of the
    in-memory store, after any sequence of calls, they are what creation set
    them to ([False], [[]], [{}]). *)
Theorem service_never_writes_the_extras getenv records ops user_id p :
  PyDict.get user_id (_memory_store (run ops (__init__ getenv records))) = Some p ->
  untouched_extras p.
Proof.
  apply (run_store_forall untouched_extras).
  - done.
  - intros r t q Hq. by destruct r as [[b|] [ti|] [ap|] [pr|]].
  - intros t q Hq. exact Hq.
Qed.

(** X6. When the clock read by the calls (by create, update and the touch of
    [last_active]) never runs backwards, every record of the in-memory store
    has [created_at <= updated_at], a [last_active] that, when set, is not
    before [created_at], and no time later than any bound [t] of the
    readings. *)
Theorem timestamps_follow_the_clock getenv records ops t user_id p :
  StronglySorted Z.le (clock ops) ->
  Forall (fun x => x <= t) (clock ops) ->
  PyDict.get user_id (_memory_store (run ops (__init__ getenv records))) = Some p ->
  UserProfile.created_at p <= UserProfile.updated_at p ∧
  UserProfile.updated_at p <= t ∧
  (forall a, UserProfile.last_active p = Some a -> UserProfile.created_at p <= a ∧ a <= t).
Proof.
  intros Hs Hb Hget. apply get_Some_elem in Hget.
  assert (Hinit : forall lo k q,
            (k, q) ∈ _memory_store (__init__ getenv records) -> times_ok lo q).
  { unfold __init__. destruct (connect _); intros lo k q Hin; by apply elem_of_nil in Hin. }
  destruct (clock ops) as [|x rest] eqn:E.
  - apply (run_times_ok ops _ t t (Hinit t)) in Hget; [done|..]; rewrite E.
    + repeat constructor.
    + by repeat constructor.
  - apply (run_times_ok ops _ x t (Hinit x)) in Hget; [done|..]; rewrite E.
    + constructor; [done|]. constructor; [lia|].
      by apply StronglySorted_inv in Hs as [_ Hs].
    + constructor; [|done]. by apply Forall_cons in Hb as [Hb _].
Qed.

(** X7. On the in-memory store the pages of [list_user_profiles] tile the
    listing: for [offset >= 0] and limits [>= 1], the page of [limit1] at
    [offset] followed by the page of [limit2] at [offset + limit1] is the
    page of [limit1 + limit2] at [offset]; a page never holds more than
    [limit] summaries, holds exactly [limit] when that many records follow
    the offset, is empty from the end of the store on, and a short page is
    the last one. Listing changes nothing. *)
Theorem pages_tile_the_listing self offset limit1 limit2 :
  _use_memory_store self = true ->
  0 <= offset -> 1 <= limit1 -> 1 <= limit2 ->
  exists page1 page2,
    list_user_profiles limit1 offset self = (Returns page1, self) ∧
    list_user_profiles limit2 (offset + limit1) self = (Returns page2, self) ∧
    list_user_profiles (limit1 + limit2) offset self = (Returns (page1 ++ page2)%list, self) ∧
    len page1 <= limit1 ∧
    (len page1 < limit1 -> page2 = []) ∧
    (len (PyDict.keys (_memory_store self)) <= offset -> page1 = []) ∧
    (offset + limit1 <= len (PyDict.keys (_memory_store self)) -> len page1 = limit1).
Proof.
  intros Hdb%use_memory_db Ho Hl1 Hl2. rewrite !list_memory by done.
  rewrite !py_slice_window by lia.
  set (all := PyDict.values (_memory_store self)).
  assert (Hlen : len (PyDict.keys (_memory_store self)) = len all).
  { unfold len, all, PyDict.keys, PyDict.values. by rewrite !length_fmap. }
  rewrite Hlen. clearbody all. unfold len.
  eexists _, _. split; [done|]. split; [done|].
  replace (Z.to_nat (offset + limit1)) with (Z.to_nat offset + Z.to_nat limit1)%nat by lia.
  replace (Z.to_nat (limit1 + limit2)) with (Z.to_nat limit1 + Z.to_nat limit2)%nat by lia.
  rewrite <- drop_drop, take_add_drop, fmap_app.
  split; [done|].
  rewrite !length_fmap, !length_take, !length_drop.
  split; [lia|]. split; [|split].
  - intros Hshort. rewrite (drop_ge (drop _ all)); [by rewrite take_nil|].
    rewrite length_drop. lia.
  - intros Hpast. rewrite (drop_ge all) by lia. by rewrite take_nil.
  - lia.
Qed.

(** X8. On the in-memory store, sending the same update request a second
    time changes nothing of the stored record but [updated_at], which becomes
    the time of the second call; the record keeps its place, and at the same
    reading of the clock the second call returns the same profile and leaves
    the service exactly as the first did. *)
Theorem repeated_update_only_moves_updated_at self user_id request t1 t2 p1 :
  _use_memory_store self = true ->
  (update_user_profile user_id request t1 self).1 = Returns (Some p1) ->
  let self1 := (update_user_profile user_id request t1 self).2 in
  update_user_profile user_id request t2 self1
    = (Returns (Some (with_updated_at t2 p1)),
       set_memory_store (PyDict.set user_id (with_updated_at t2 p1)) self1) ∧
  PyDict.keys (_memory_store (update_user_profile user_id request t2 self1).2)
    = PyDict.keys (_memory_store self) ∧
  (t2 = t1 -> update_user_profile user_id request t2 self1 = (Returns (Some p1), self1)).
Proof.
  intros Hdb%use_memory_db. rewrite update_memory by done.
  destruct (PyDict.get user_id (_memory_store self)) as [p|] eqn:E; [|done].
  cbn. intros [= <-].
  set (p1 := UpdateData.apply _ p). set (self1 := set_memory_store _ self).
  assert (Hdb1 : db self1 = None) by done.
  destruct (update_again request t1 t2 p) as [H2 H1]. fold p1 in H1, H2.
  assert (Hstep : update_user_profile user_id request t2 self1
            = (Returns (Some (with_updated_at t2 p1)),
               set_memory_store (PyDict.set user_id (with_updated_at t2 p1)) self1)).
  { rewrite update_memory by done. cbn. rewrite get_set_eq. cbn. by rewrite H2. }
  rewrite Hstep. split; [done|]. split.
  - cbn. rewrite set_set.
    eapply set_present_same; [done|]. subst p1. rewrite <- (updated_birth request t1 p).
    by destruct request as [[b|] [ti|] [ap|] [pr|]].
  - intros ->. rewrite H1. f_equal. subst self1. destruct self as [coll store d l].
    unfold set_memory_store. cbn. by rewrite set_set.
Qed.

(** X9. After [inject_user_context] for a user whose lookup yields a profile
    (over any database), [get_user_context_from_session] returns exactly that
    profile, the user's identifier, the context built from that profile and
    the stamp of the injection, whatever the session held before, and
    changes nothing; the keys of the session other than the five written are
    as they were. The profile in the session is the one read before the
    touch of [last_active]: on the in-memory store the stored record has the
    new [last_active], the copy in the session has the old one. *)
Theorem injected_context_is_read_back turn user_id utcnow_active utcnow_stamp p :
  (get_user_profile user_id (user_profile_service turn)).1 = Returns (Some p) ->
  let turn' := (inject_user_context user_id utcnow_active utcnow_stamp turn).2 in
  get_user_context_from_session turn'
    = (Returns (Some (UserContext.mk
                  (Some (SProfile p)) (Some (SStr user_id))
                  (Some (SContext (_create_personalized_context p)))
                  (Some (SIsoformat utcnow_stamp)))),
       turn') ∧
  (forall key, key ∉ context_keys ->
     Session.state (session turn') !! key = Session.state (session turn) !! key) ∧
  (_use_memory_store (user_profile_service turn) = true ->
   PyDict.get user_id (_memory_store (user_profile_service turn'))
     = Some (with_last_active (Some utcnow_active) p)).
Proof.
  intros Hget.
  destruct (get_user_profile user_id (user_profile_service turn)) as [r self1] eqn:E.
  simpl in Hget. subst r. cbv zeta.
  rewrite (inject_resolved _ _ utcnow_active utcnow_stamp _ _ E).
  rewrite get_context_pure. cbn [fst snd session user_profile_service].
  destruct (injected_lookup user_id utcnow_stamp p (session turn))
    as (-> & -> & -> & -> & ->).
  split; [done|]. split.
  - intros key Hkey. unfold injected, context_keys in *. cbn.
    rewrite !not_elem_of_cons in Hkey. destruct Hkey as (? & ? & ? & ? & ? & _).
    by rewrite !lookup_insert_ne.
  - intros Hdb%use_memory_db. rewrite get_memory in E by done.
    injection E as Ep <-. rewrite touch_memory, Ep by done. cbn. apply get_set_eq.
Qed.

(** X10. While the service has a database its in-memory store stays empty,
    whatever was called. So when the write of a creation raises and the
    service falls back, the in-memory store holds the new profile and nothing
    else: every other identifier, also one that the database answered for
    before, now resolves to nothing, and the listing shows the new profile
    alone. *)
Theorem fallback_starts_from_an_empty_store self0 ops c uuid4 utcnow request e c' :
  _memory_store self0 = [] ->
  let self := run ops self0 in
  db self = Some c ->
  document_set (collection_name self) uuid4 (new_profile uuid4 utcnow request) c
    = (Raises e, c') ->
  let self' := (create_user_profile uuid4 utcnow request self).2 in
  _memory_store self = [] ∧
  _memory_store self' = [(uuid4, new_profile uuid4 utcnow request)] ∧
  (forall other, other ≠ uuid4 -> get_user_profile other self' = (Returns None, self')) ∧
  (forall limit, 1 <= limit ->
     list_user_profiles limit 0 self'
       = (Returns [_create_profile_summary (new_profile uuid4 utcnow request)], self')).
Proof.
  intros Hempty self Hdb Hset.
  assert (Hstore : _memory_store self = []).
  { apply run_db_store_empty; [done | by fold self; rewrite Hdb]. }
  cbv zeta. rewrite (create_falls_back self c uuid4 utcnow request e c' Hdb Hset).
  cbn [snd]. rewrite Hstore. split; [done|]. split; [done|]. split.
  - intros other Hne. rewrite get_memory by done. cbn. by rewrite decide_False.
  - intros limit Hl. rewrite list_memory by done. cbn [_memory_store].
    rewrite py_slice_window by lia. cbn.
    destruct (Z.to_nat limit) eqn:En; [lia|]. change (Z.to_nat 0) with 0%nat.
    cbn. by rewrite take_nil.
Qed.

(** X11. The accessibility block of the instruction strings is empty exactly
    when no mobility, sensory or cognitive need is listed. A traveller who
    lists none gets the same instructions whatever aids, barrier concerns and
    assistance preferences the profile holds: these reach the agents only
    together with a need. *)
Theorem accessibility_block_needs_a_need p :
  (accessibility_context p = "" <-> no_needs (UserProfile.accessibility_profile p)) ∧
  (forall a b, no_needs a -> no_needs b ->
     _generate_personalized_instructions (with_accessibility a p)
       = _generate_personalized_instructions (with_accessibility b p)).
Proof.
  split; [apply accessibility_context_spec|].
  intros a b Ha Hb.
  assert (Hctx : forall a, no_needs a -> accessibility_context (with_accessibility a p) = "").
  { intros a0 Ha0. by apply accessibility_context_spec. }
  unfold _generate_personalized_instructions. rewrite !Hctx by done. reflexivity.
Qed.

(** X12. The personalized context never carries the contact details: two
    profiles that agree on name, age, nationality, home location, travel
    interests, accessibility profile, communication style and risk tolerance
    get the same context, whatever their e-mail address, phone number,
    emergency contact, identifier, times, flags and remaining preferences. *)
Theorem context_ignores_contact_details p q :
  BasicInfo.name (UserProfile.basic_info q) = BasicInfo.name (UserProfile.basic_info p) ->
  BasicInfo.age (UserProfile.basic_info q) = BasicInfo.age (UserProfile.basic_info p) ->
  BasicInfo.nationality (UserProfile.basic_info q)
    = BasicInfo.nationality (UserProfile.basic_info p) ->
  BasicInfo.home_location (UserProfile.basic_info q)
    = BasicInfo.home_location (UserProfile.basic_info p) ->
  UserProfile.travel_interests q = UserProfile.travel_interests p ->
  UserProfile.accessibility_profile q = UserProfile.accessibility_profile p ->
  UserPreferences.communication_style (UserProfile.preferences q)
    = UserPreferences.communication_style (UserProfile.preferences p) ->
  UserPreferences.risk_tolerance (UserProfile.preferences q)
    = UserPreferences.risk_tolerance (UserProfile.preferences p) ->
  _create_personalized_context q = _create_personalized_context p.
Proof.
  destruct p as [? [] ? ? [] ? ? ? ? ? ? ?], q as [? [] ? ? [] ? ? ? ? ? ? ?]. simpl.
  intros -> -> -> -> -> -> -> ->. reflexivity.
Qed.

(** X13. When the profile lists a mobility, sensory or cognitive need, the
    instruction string of each of the eight agents contains the heading of
    the accessibility block, every listed need, every mobility aid, every
    barrier concern, and the traveller's name. *)
Theorem every_agent_is_told_every_need p role need :
  role ∈ agent_roles ->
  need ∈ listed_needs (UserProfile.accessibility_profile p) ->
  exists s,
    PyDict.get role (_generate_personalized_instructions p) = Some s ∧
    py_in need s = true ∧
    py_in "ACCESSIBILITY NEEDS:" s = true ∧
    (forall aid,
       aid ∈ AccessibilityProfile.mobility_aids (UserProfile.accessibility_profile p) ->
       py_in aid s = true) ∧
    (forall barrier,
       barrier ∈ AccessibilityProfile.barrier_concerns (UserProfile.accessibility_profile p) ->
       py_in barrier s = true) ∧
    py_in (BasicInfo.name (UserProfile.basic_info p)) s = true.
Proof.
  intros Hrole Hneed.
  assert (Hblock : forall x,
            py_in x (accessibility_context p) = true ->
            forall tail, py_in x ((base_context p +:+ accessibility_context p
                                     +:+ travel_context p) +:+ tail) = true).
  { intros x Hx tail. by apply py_in_app_l, py_in_app_r, py_in_app_l. }
  assert (Hname : forall tail,
            py_in (BasicInfo.name (UserProfile.basic_info p))
              ((base_context p +:+ accessibility_context p +:+ travel_context p)
                 +:+ tail) = true).
  { intros tail. apply py_in_app_l, py_in_app_l. unfold base_context.
    do 2 apply py_in_app_r. apply py_in_here. }
  assert (Hcond : truthy_list (AccessibilityProfile.mobility_needs
                                 (UserProfile.accessibility_profile p))
                  || truthy_list (AccessibilityProfile.sensory_needs
                                    (UserProfile.accessibility_profile p))
                  || truthy_list (AccessibilityProfile.cognitive_needs
                                    (UserProfile.accessibility_profile p)) = true).
  { unfold listed_needs in Hneed.
    destruct (AccessibilityProfile.mobility_needs _), (AccessibilityProfile.sensory_needs _),
      (AccessibilityProfile.cognitive_needs _); try done. by apply elem_of_nil in Hneed. }
  assert (Hn : py_in need (accessibility_context p) = true).
  { unfold accessibility_context. rewrite Hcond. unfold listed_needs in Hneed.
    apply elem_of_app in Hneed as [Hm|Hneed]; [|apply elem_of_app in Hneed as [Hs|Hc]].
    - do 4 apply py_in_app_r. by apply py_in_app_l, py_in_join_or.
    - do 7 apply py_in_app_r. by apply py_in_app_l, py_in_join_or.
    - do 10 apply py_in_app_r. by apply py_in_app_l, py_in_join_or. }
  assert (Hh : py_in "ACCESSIBILITY NEEDS:" (accessibility_context p) = true).
  { unfold accessibility_context. rewrite Hcond. apply py_in_app_r, py_in_here. }
  assert (Ha : forall aid,
            aid ∈ AccessibilityProfile.mobility_aids (UserProfile.accessibility_profile p) ->
            py_in aid (accessibility_context p) = true).
  { intros aid Hin. unfold accessibility_context. rewrite Hcond.
    do 13 apply py_in_app_r. by apply py_in_app_l, py_in_join_or. }
  assert (Hb : forall b,
            b ∈ AccessibilityProfile.barrier_concerns (UserProfile.accessibility_profile p) ->
            py_in b (accessibility_context p) = true).
  { intros b Hin. unfold accessibility_context. rewrite Hcond.
    do 16 apply py_in_app_r. by apply py_in_app_l, py_in_join_or. }
  unfold agent_roles in Hrole.
  repeat (apply elem_of_cons in Hrole as [->|Hrole]); [..|by apply elem_of_nil in Hrole].
  all: eexists; split; [reflexivity|].
  all: split; [by apply Hblock|]; split; [by apply Hblock|].
  all: split; [intros aid Hin; by apply Hblock, Ha|].
  all: split; [intros b Hin; by apply Hblock, Hb|]; apply Hname.
Qed.

(** X14. The handlers of the user endpoints never answer 400 or 500, over
    any database: [POST /users] always answers 200 with the profile built
    from the request, [GET /users] always answers 200, and [GET], [PUT] and
    [DELETE /users/{user_id}] answer 200 or 404 "User profile not found". A
    database that raises on the lookup is reported as 404, like a user that
    does not exist. *)
Theorem user_endpoints_answer_200_or_404 self :
  (forall uuid4 utcnow request,
     (Main.create_user_profile uuid4 utcnow request self).1
       = Returns (Responds (UserProfileResponse.mk uuid4 (new_profile uuid4 utcnow request)
                              "User profile created successfully"))) ∧
  (forall user_id, exists r,
     (Main.get_user_profile user_id self).1 = Returns r ∧
     (status r = 200 ∨ r = HTTPException 404 "User profile not found")) ∧
  (forall user_id request utcnow, exists r,
     (Main.update_user_profile user_id request utcnow self).1 = Returns r ∧
     (status r = 200 ∨ r = HTTPException 404 "User profile not found")) ∧
  (forall user_id, exists r,
     (Main.delete_user_profile user_id self).1 = Returns r ∧
     (status r = 200 ∨ r = HTTPException 404 "User profile not found")) ∧
  (forall limit offset, exists summaries,
     (Main.list_user_profiles limit offset self).1 = Returns (Responds summaries)) ∧
  (forall c user_id e c',
     db self = Some c ->
     document_get (collection_name self) user_id c = (Raises e, c') ->
     (Main.get_user_profile user_id self).1
       = Returns (HTTPException 404 "User profile not found") ∧
     (forall request utcnow,
        (Main.update_user_profile user_id request utcnow self).1
          = Returns (HTTPException 404 "User profile not found")) ∧
     (Main.delete_user_profile user_id self).1
       = Returns (HTTPException 404 "User profile not found")).
Proof.
  split; [|split; [|split; [|split; [|split]]]].
  - intros uuid4 utcnow request. unfold Main.create_user_profile.
    destruct self as [coll store [c|] l]; exec; split_calls; reflexivity.
  - intros user_id. unfold Main.get_user_profile.
    destruct self as [coll store [c|] l]; exec; split_calls; eauto.
  - intros user_id request utcnow. unfold Main.update_user_profile.
    destruct self as [coll store [c|] l]; exec; split_calls; eauto.
  - intros user_id. unfold Main.delete_user_profile.
    destruct self as [coll store [c|] l]; exec; split_calls; eauto.
  - intros limit offset. unfold Main.list_user_profiles.
    destruct self as [coll store [c|] l]; exec; split_calls; eauto.
  - intros c user_id e c' Hdb Hget. in_memory self Hdb. simpl in Hget.
    unfold Main.get_user_profile, Main.update_user_profile, Main.delete_user_profile.
    exec. rewrite Hget. cbn. done.
Qed.

(** X15. Over HTTP, on a service that runs on its in-memory store: after
    [POST /users], [GET /users/{user_id}] for the new identifier answers 200
    with the created profile, [DELETE] answers 200 with its message, and
    from then on [GET], [PUT] and [DELETE] for that identifier answer 404 and
    change nothing. *)
Theorem profile_lifecycle_over_http getenv records ops uuid4 utcnow request :
  let self := run ops (__init__ getenv records) in
  _use_memory_store self = true ->
  let created := new_profile uuid4 utcnow request in
  let self1 := (Main.create_user_profile uuid4 utcnow request self).2 in
  Main.get_user_profile uuid4 self1
    = (Returns (Responds (UserProfileResponse.mk uuid4 created
                            "User profile retrieved successfully")), self1) ∧
  let '(r2, self2) := Main.delete_user_profile uuid4 self1 in
  r2 = Returns (Responds [("message", "User profile " +:+ uuid4 +:+ " deleted successfully")]) ∧
  Main.get_user_profile uuid4 self2
    = (Returns (HTTPException 404 "User profile not found"), self2) ∧
  (forall upd t, Main.update_user_profile uuid4 upd t self2
     = (Returns (HTTPException 404 "User profile not found"), self2)) ∧
  Main.delete_user_profile uuid4 self2
    = (Returns (HTTPException 404 "User profile not found"), self2).
Proof.
  cbv zeta.
  pose proof (run_keys_NoDup ops _ (init_keys_NoDup getenv records)) as Hnd.
  set (self := run ops _) in *. intros Hdb%use_memory_db.
  unfold Main.create_user_profile, Main.get_user_profile, Main.delete_user_profile,
    Main.update_user_profile, try_except, bind, ret.
  rewrite create_memory by done. cbn [fst snd].
  set (created := new_profile uuid4 utcnow request).
  set (self1 := log_to _ _ _).
  assert (Hdb1 : db self1 = None) by done.
  assert (Hget : PyDict.get uuid4 (_memory_store self1) = Some created) by apply get_set_eq.
  rewrite get_memory, Hget by done. split; [done|].
  rewrite delete_memory, mem_get, Hget by done. cbn [fst snd]. split; [done|].
  set (self2 := log_to _ _ _).
  assert (Hdb2 : db self2 = None) by done.
  assert (Hgone : PyDict.get uuid4 (_memory_store self2) = None).
  { apply get_del_eq, keys_set_NoDup. by destruct self. }
  rewrite get_memory, Hgone by done. split; [done|]. split.
  - intros upd t. by rewrite update_memory, Hgone.
  - by rewrite delete_memory, mem_get, Hgone.
Qed.

(** X16. On the in-memory store no call of the profile service fails: each
    returns, and what it adds to the log is nothing or one record of level
    INFO, never a warning or an error. *)
Theorem memory_calls_log_no_error self o :
  _use_memory_store self = true ->
  exists r news,
    (call o self).1 = Returns r ∧
    logged (call o self).2 = (logged self ++ news)%list ∧
    only_info news.
Proof.
  intros Hdb%use_memory_db. unfold only_info.
  destruct o; unfold call, bind, ret;
    rewrite ?create_memory, ?get_memory, ?update_memory, ?delete_memory, ?mem_get,
      ?list_memory, ?touch_memory by done;
    try destruct (PyDict.get user_id (_memory_store self)); cbn.
  all: try (by eexists _, []; rewrite app_nil_r; repeat split; [constructor | cbn; lia]).
  all: by eexists _, [_]; repeat split; [repeat constructor | cbn; lia].
Qed.

End MoreFacts.

(** * The properties on sample data *)

Lemma delete_is_idempotent_witness :
  _use_memory_store Scenario.two_users = true ∧
  let '(r1, self1) := delete_user_profile "u1" Scenario.two_users in
  let '(r2, self2) := delete_user_profile "u1" self1 in
  r1 = Returns true ∧
  r2 = Returns false ∧
  (get_user_profile "u1" self1).1 = Returns None ∧
  self2 = self1 ∧
  (forall other, other ≠ "u1" ->
     PyDict.get other (_memory_store self1)
     = PyDict.get other (_memory_store Scenario.two_users)) ∧
  PyDict.keys (_memory_store self1) = ["u2"].
Proof.
  split; [reflexivity|].
  exact (delete_is_idempotent (C:=Empty_set) None []
           [Create "u1" 5 Sample.request_wheelchair; Create "u2" 6 Sample.request]
           "u1" eq_refl).
Defined.

Lemma unknown_id_is_left_alone_witness :
  (get_user_profile "ghost" Sample.one_user).1 = Returns None ∧
  update_user_profile "ghost" Sample.style_only 9 Sample.one_user
    = (Returns None, Sample.one_user) ∧
  delete_user_profile "ghost" Sample.one_user = (Returns false, Sample.one_user) ∧
  update_last_active "ghost" 9 Sample.one_user = (Returns false, Sample.one_user) ∧
  (get_user_profile "ghost" Scenario.sound_service).1 = Returns None ∧
  delete_user_profile "ghost" Scenario.sound_service
    = (Returns false, set_db (Some (Fake.mk [] [] 1)) Scenario.sound_service).
Proof.
  split; [reflexivity|].
  destruct (unknown_id_is_left_alone (C:=Empty_set) Sample.one_user "ghost"
              Sample.style_only 9 eq_refl) as (_ & Hmem & _).
  destruct (Hmem eq_refl) as (Hu & Hd & Ht).
  split; [exact Hu|]. split; [exact Hd|]. split; [exact Ht|].
  assert (Hghost : (get_user_profile "ghost" Scenario.sound_service).1 = Returns None)
    by reflexivity.
  split; [exact Hghost|].
  destruct (unknown_id_is_left_alone (C:=Fake.t) Scenario.sound_service "ghost"
              Sample.style_only 9 Hghost) as (_ & _ & Hdb).
  exact (Hdb _ _ eq_refl eq_refl).
Defined.

Lemma service_never_writes_the_extras_witness :
  exists p,
    PyDict.get "u1" (_memory_store (run Scenario.busy_day Sample.memory_service)) = Some p ∧
    UserProfile.preferences p = Sample.brief ∧
    UserProfile.last_active p = Some 4 ∧
    untouched_extras p.
Proof.
  eexists. split; [reflexivity|]. split; [reflexivity|]. split; [reflexivity|].
  apply (service_never_writes_the_extras (C:=Empty_set) None [] Scenario.busy_day "u1").
  reflexivity.
Defined.

Lemma timestamps_follow_the_clock_witness :
  clock Scenario.busy_day = [1; 2; 3; 4] ∧
  exists p,
    PyDict.get "u1" (_memory_store (run Scenario.busy_day Sample.memory_service)) = Some p ∧
    UserProfile.created_at p = 1 ∧
    UserProfile.updated_at p = 3 ∧
    UserProfile.last_active p = Some 4 ∧
    UserProfile.created_at p <= UserProfile.updated_at p ∧
    UserProfile.updated_at p <= 4 ∧
    (forall a, UserProfile.last_active p = Some a ->
       UserProfile.created_at p <= a ∧ a <= 4).
Proof.
  split; [reflexivity|].
  eexists. split; [reflexivity|].
  split; [reflexivity|]. split; [reflexivity|]. split; [reflexivity|].
  apply (timestamps_follow_the_clock (C:=Empty_set) None [] Scenario.busy_day 4 "u1").
  - repeat (apply SSorted_cons; [|repeat constructor; lia]). constructor.
  - repeat constructor; lia.
  - reflexivity.
Defined.

Lemma pages_tile_the_listing_witness :
  let self := run Sample.five_creations Sample.memory_service in
  _use_memory_store self = true ∧
  exists page1 page2,
    list_user_profiles 2 1 self = (Returns page1, self) ∧
    list_user_profiles 2 3 self = (Returns page2, self) ∧
    list_user_profiles 4 1 self = (Returns (page1 ++ page2)%list, self) ∧
    UserProfileSummary.user_id <$> page1 = ["u2"; "u3"] ∧
    UserProfileSummary.user_id <$> page2 = ["u4"; "u5"] ∧
    (list_user_profiles 2 5 self).1 = Returns [].
Proof.
  cbv zeta. split; [reflexivity|].
  destruct (pages_tile_the_listing (C:=Empty_set)
              (run Sample.five_creations Sample.memory_service) 1 2 2 eq_refl)
    as (page1 & page2 & H1 & H2 & H3 & _); [lia | lia | lia |].
  exists page1, page2. split; [exact H1|]. split; [exact H2|]. split; [exact H3|].
  apply (f_equal fst) in H1, H2. cbn in H1, H2.
  injection H1 as <-. injection H2 as <-.
  split; [reflexivity|]. split; reflexivity.
Defined.

Lemma repeated_update_only_moves_updated_at_witness :
  _use_memory_store Sample.one_user = true ∧
  exists p1,
    (update_user_profile "u1" Sample.style_only 9 Sample.one_user).1 = Returns (Some p1) ∧
    let self1 := (update_user_profile "u1" Sample.style_only 9 Sample.one_user).2 in
    UserProfile.updated_at p1 = 9 ∧
    (update_user_profile "u1" Sample.style_only 12 self1).1
      = Returns (Some (with_updated_at 12 p1)) ∧
    update_user_profile "u1" Sample.style_only 9 self1 = (Returns (Some p1), self1).
Proof.
  split; [reflexivity|].
  eexists. split; [reflexivity|]. cbv zeta. split; [reflexivity|].
  destruct (repeated_update_only_moves_updated_at (C:=Empty_set) Sample.one_user "u1"
              Sample.style_only 9 12 _ eq_refl eq_refl) as (H1 & _ & _).
  destruct (repeated_update_only_moves_updated_at (C:=Empty_set) Sample.one_user "u1"
              Sample.style_only 9 9 _ eq_refl eq_refl) as (_ & _ & H3).
  split; [exact (f_equal fst H1) | exact (H3 eq_refl)].
Defined.

Lemma injected_context_is_read_back_witness :
  let turn := mkTurn Sample.one_user Scenario.used_session in
  (get_user_profile "u1" (user_profile_service turn)).1
    = Returns (Some (Sample.profile_wheelchair "u1" 5)) ∧
  let turn' := (inject_user_context "u1" 7 8 turn).2 in
  (get_user_context_from_session turn').1
    = Returns (Some (UserContext.mk
                 (Some (SProfile (Sample.profile_wheelchair "u1" 5)))
                 (Some (SStr "u1"))
                 (Some (SContext
                          (_create_personalized_context (Sample.profile_wheelchair "u1" 5))))
                 (Some (SIsoformat 8)))) ∧
  Session.state (session turn') !! "itinerary" = Some (SStr "draft") ∧
  PyDict.get "u1" (_memory_store (user_profile_service turn'))
    = Some (with_last_active (Some 7) (Sample.profile_wheelchair "u1" 5)) ∧
  UserProfile.last_active (Sample.profile_wheelchair "u1" 5) = None.
Proof.
  cbv zeta. split; [reflexivity|].
  destruct (injected_context_is_read_back (C:=Empty_set)
              (mkTurn Sample.one_user Scenario.used_session) "u1" 7 8
              (Sample.profile_wheelchair "u1" 5) eq_refl) as (H1 & H2 & H3).
  split; [exact (f_equal fst H1)|]. split.
  - rewrite H2; [reflexivity|]. apply (bool_decide_unpack _). by vm_compute.
  - split; [exact (H3 eq_refl) | reflexivity].
Defined.

Lemma fallback_starts_from_an_empty_store_witness :
  (get_user_profile "u1" Scenario.failing_write).1
    = Returns (Some (Sample.profile "u1" 10)) ∧
  let self := run [Get "u1"] Scenario.failing_write in
  let self' := (create_user_profile "u2" 20 Sample.request self).2 in
  (exists c e c', db self = Some c ∧
     document_set (collection_name self) "u2" (new_profile "u2" 20 Sample.request) c
       = (Raises e, c')) ∧
  _use_memory_store self' = true ∧
  _memory_store self' = [("u2", new_profile "u2" 20 Sample.request)] ∧
  get_user_profile "u1" self' = (Returns None, self') ∧
  list_user_profiles 50 0 self'
    = (Returns [_create_profile_summary (new_profile "u2" 20 Sample.request)], self').
Proof.
  split; [reflexivity|]. cbv zeta.
  assert (Hdb : db (run [Get "u1"] Scenario.failing_write)
                = Some (Fake.mk [("u1", Sample.profile "u1" 10)] [true] 1)) by reflexivity.
  assert (Hset : document_set
                   (collection_name (run [Get "u1"] Scenario.failing_write)) "u2"
                   (new_profile "u2" 20 Sample.request)
                   (Fake.mk [("u1", Sample.profile "u1" 10)] [true] 1)
                 = (Raises Fake.error, Fake.mk [("u1", Sample.profile "u1" 10)] [] 2))
    by reflexivity.
  destruct (fallback_starts_from_an_empty_store (C:=Fake.t) Scenario.failing_write
              [Get "u1"] _ "u2" 20 Sample.request _ _ eq_refl Hdb Hset)
    as (_ & H2 & H3 & H4).
  split; [eexists _, _, _; split; [exact Hdb | exact Hset]|].
  split; [reflexivity|].
  split; [exact H2|]. split; [apply H3; discriminate | apply H4; lia].
Defined.

Lemma accessibility_block_needs_a_need_witness :
  no_needs Scenario.aids_only ∧
  AccessibilityProfile.mobility_aids Scenario.aids_only = ["manual_wheelchair"] ∧
  accessibility_context (with_accessibility Scenario.aids_only (Sample.profile "u1" 1)) = "" ∧
  _generate_personalized_instructions
    (with_accessibility Scenario.aids_only (Sample.profile "u1" 1))
  = _generate_personalized_instructions (Sample.profile "u1" 1).
Proof.
  assert (Hn : no_needs Scenario.aids_only) by (repeat split).
  assert (Hd : no_needs AccessibilityProfile.default) by (repeat split).
  split; [exact Hn|]. split; [reflexivity|].
  destruct (accessibility_block_needs_a_need
              (with_accessibility Scenario.aids_only (Sample.profile "u1" 1)))
    as [Hiff Hsame].
  split; [by apply Hiff|].
  exact (Hsame Scenario.aids_only AccessibilityProfile.default Hn Hd).
Defined.

Lemma context_ignores_contact_details_witness :
  BasicInfo.email (UserProfile.basic_info Scenario.sarah_moved)
    ≠ BasicInfo.email (UserProfile.basic_info Scenario.sarah) ∧
  UserProfile.preferences Scenario.sarah_moved ≠ UserProfile.preferences Scenario.sarah ∧
  _create_personalized_context Scenario.sarah_moved
    = _create_personalized_context Scenario.sarah.
Proof.
  split; [discriminate|]. split; [discriminate|].
  apply context_ignores_contact_details; reflexivity.
Defined.

Lemma every_agent_is_told_every_need_witness :
  "booking_agent" ∈ agent_roles ∧
  "hearing_assistance" ∈ listed_needs (UserProfile.accessibility_profile Scenario.sarah) ∧
  exists s,
    PyDict.get "booking_agent" (_generate_personalized_instructions Scenario.sarah) = Some s ∧
    py_in "hearing_assistance" s = true ∧
    py_in "manual_wheelchair" s = true ∧
    py_in "narrow_doorways" s = true ∧
    py_in "Sarah Johnson" s = true.
Proof.
  assert (Hrole : "booking_agent" ∈ agent_roles)
    by (apply (bool_decide_unpack _); by vm_compute).
  assert (Hneed : "hearing_assistance"
                    ∈ listed_needs (UserProfile.accessibility_profile Scenario.sarah))
    by (apply (bool_decide_unpack _); by vm_compute).
  split; [exact Hrole|]. split; [exact Hneed|].
  destruct (every_agent_is_told_every_need Scenario.sarah _ _ Hrole Hneed)
    as (s & Hs & Hn & _ & Ha & Hb & Hname).
  exists s. split; [exact Hs|]. split; [exact Hn|].
  split; [apply Ha; apply (bool_decide_unpack _); by vm_compute|].
  split; [apply Hb; apply (bool_decide_unpack _); by vm_compute | exact Hname].
Defined.

Lemma profile_lifecycle_over_http_witness :
  _use_memory_store Sample.one_user = true ∧
  let self1 := (Main.create_user_profile "u2" 6 Sample.request Sample.one_user).2 in
  Main.get_user_profile "u2" self1
    = (Returns (Responds (UserProfileResponse.mk "u2" (Sample.profile "u2" 6)
                            "User profile retrieved successfully")), self1) ∧
  let '(r2, self2) := Main.delete_user_profile "u2" self1 in
  r2 = Returns (Responds [("message", "User profile u2 deleted successfully")]) ∧
  Main.get_user_profile "u2" self2
    = (Returns (HTTPException 404 "User profile not found"), self2) ∧
  (forall upd t, Main.update_user_profile "u2" upd t self2
     = (Returns (HTTPException 404 "User profile not found"), self2)) ∧
  Main.delete_user_profile "u2" self2
    = (Returns (HTTPException 404 "User profile not found"), self2).
Proof.
  split; [reflexivity|].
  exact (profile_lifecycle_over_http (C:=Empty_set) None []
           [Create "u1" 5 Sample.request_wheelchair] "u2" 6 Sample.request eq_refl).
Defined.

Lemma memory_calls_log_no_error_witness :
  _use_memory_store Sample.one_user = true ∧
  exists r news,
    (call (Delete "u1") Sample.one_user).1 = Returns r ∧
    logged (call (Delete "u1") Sample.one_user).2 = (logged Sample.one_user ++ news)%list ∧
    only_info news.
Proof.
  split; [reflexivity|].
  exact (memory_calls_log_no_error (C:=Empty_set) Sample.one_user (Delete "u1") eq_refl).
Defined.
